(** * Poor-network handler and network status indicator

    A shallow embedding of [PoorNetworkHandler] (the fetch override, the
    connection-quality probe and the manual overrides) and of
    [NetworkStatusIndicator.updateStatus], followed by the properties
    established about them.

    Asynchronous code is embedded in a state-and-exception monad over an
    explicit [World]: the virtual clock, the pending timers, the Cache
    Storage, the handler's fields and a trace of the platform calls made.
    Console logging is not modelled. *)

From Stdlib Require Import NArith ZArith QArith Lia List String Ascii Bool.
From Stdlib Require Import DecimalString Lqa.
From stdpp Require Import base option gmap strings.

Local Open Scope string_scope.
Local Open Scope list_scope.
Local Open Scope N_scope.

(* ===================================================================== *)
(** ** The platform: responses, errors, timers, caches, transport          *)
(* ===================================================================== *)

Module Platform.

(** A [Response]; [ok] is the platform's [Response.ok] (status 200-299). *)
Record Response := mkResponse { status : N; body : string }.

Definition ok (r : Response) : bool :=
  (200 <=? status r) && (status r <=? 299).

(** What a promise can reject with.  [TypeError] is what [fetch] rejects
    with on a transport failure, [AbortError] what it rejects with when its
    signal is aborted, [StorageError] what the Cache Storage throws. *)
Inductive JsError :=
| TypeError (message : string)
| AbortError
| StorageError (message : string).

(** The first argument of [fetch]: a URL string or a [Request] object. *)
Inductive Resource :=
| ResString (s : string)
| ResRequest (url : string).

(** The [options] argument of [fetch]: the abort signal (the id of its
    controller) and the [cache] mode. *)
Record Options := mkOptions { signal : option nat; cache_mode : option string }.

Definition no_options : Options := mkOptions None None.

(** [{...options, signal: controller.signal}] *)
Definition with_signal (c : nat) (o : Options) : Options :=
  mkOptions (Some c) (cache_mode o).

(** The only timer callbacks of the handler call [controller.abort()]. *)
Inductive TimerAction := AbortCtl (c : nat).

Record Timer := mkTimer { tid : nat; fire_at : N; action : TimerAction }.

(** How the transport answers one call: a response or a transport failure
    after some latency, or never. *)
Inductive NetBehaviour :=
| NetResponds (latency : N) (r : Response)
| NetRejects (latency : N) (message : string)
| NetHangs.

Inductive Event :=
| EvCacheOpen (name : string)
| EvCacheMatch (name url : string)
| EvNewController (c : nat)
| EvSetTimeout (t : nat) (delay : N)
| EvClearTimeout (t : nat)
| EvAbort (c : nat)
| EvFetch (url : string) (opts : Options).

(** [caches]: the named caches, each a map from URL to response; when the
    storage is not [available], [caches.open] throws. *)
Record CacheStorage := mkCaches {
  available : bool;
  stores : gmap string (gmap string Response)
}.

(** The fields of a [PoorNetworkHandler] that are ever written after
    construction. *)
Record Handler := mkHandler {
  isSlowConnection : bool;
  cacheFirstMode : bool
}.

Record World := mkWorld {
  now : N;                          (* Date.now(), in ms *)
  onLine : bool;                    (* navigator.onLine *)
  connection : option string;       (* navigator.connection.effectiveType *)
  handler : Handler;
  caches : CacheStorage;
  timers : list Timer;              (* pending timeouts *)
  next_id : nat;                    (* next controller / timer id *)
  net_calls : nat;                  (* calls of the platform's fetch so far *)
  trace : list Event
}.

(** The environment a run is played against: how the transport answers
    the n-th call of the platform's [fetch] and the time one Cache Storage
    operation takes. *)
Record Env := mkEnv {
  transport : nat -> NetBehaviour;
  cache_latency : N
}.

(** *** Field updates *)

Definition set_now (t : N) (w : World) : World :=
  mkWorld t (onLine w) (connection w) (handler w) (caches w) (timers w)
          (next_id w) (net_calls w) (trace w).
Definition set_onLine (b : bool) (w : World) : World :=
  mkWorld (now w) b (connection w) (handler w) (caches w) (timers w)
          (next_id w) (net_calls w) (trace w).
Definition set_connection (c : option string) (w : World) : World :=
  mkWorld (now w) (onLine w) c (handler w) (caches w) (timers w)
          (next_id w) (net_calls w) (trace w).
Definition set_handler (h : Handler) (w : World) : World :=
  mkWorld (now w) (onLine w) (connection w) h (caches w) (timers w)
          (next_id w) (net_calls w) (trace w).
Definition set_caches (c : CacheStorage) (w : World) : World :=
  mkWorld (now w) (onLine w) (connection w) (handler w) c (timers w)
          (next_id w) (net_calls w) (trace w).
Definition set_timers (ts : list Timer) (w : World) : World :=
  mkWorld (now w) (onLine w) (connection w) (handler w) (caches w) ts
          (next_id w) (net_calls w) (trace w).
Definition set_next_id (n : nat) (w : World) : World :=
  mkWorld (now w) (onLine w) (connection w) (handler w) (caches w) (timers w)
          n (net_calls w) (trace w).
Definition set_net_calls (n : nat) (w : World) : World :=
  mkWorld (now w) (onLine w) (connection w) (handler w) (caches w) (timers w)
          (next_id w) n (trace w).
Definition emit (e : list Event) (w : World) : World :=
  mkWorld (now w) (onLine w) (connection w) (handler w) (caches w) (timers w)
          (next_id w) (net_calls w) (trace w ++ e).

(** *** The monad of asynchronous computations *)

(** A computation returns, throws (its promise rejects), or never
    settles. *)
Inductive Outcome (A : Type) :=
| Returned (a : A)
| Thrown (e : JsError)
| Pending.
Arguments Returned {A} a.
Arguments Thrown {A} e.
Arguments Pending {A}.

Definition M (A : Type) : Type := World -> Outcome A * World.

Definition ret {A} (a : A) : M A := fun w => (Returned a, w).

Definition throw {A} (e : JsError) : M A := fun w => (Thrown e, w).

Definition bind {A B} (m : M A) (k : A -> M B) : M B :=
  fun w =>
    match m w with
    | (Returned a, w') => k a w'
    | (Thrown e, w') => (Thrown e, w')
    | (Pending, w') => (Pending, w')
    end.

(** [try { m } catch (e) { h e }]: effects made before the throw stay. *)
Definition try_catch {A} (m : M A) (h : JsError -> M A) : M A :=
  fun w =>
    match m w with
    | (Thrown e, w') => h e w'
    | r => r
    end.

Definition gets {A} (f : World -> A) : M A := fun w => (Returned (f w), w).

Definition modify (f : World -> World) : M unit :=
  fun w => (Returned tt, f w).

(** Reify how a computation settles, and replay a settlement. *)
Definition settle {A} (o : Outcome A) : M A := fun w => (o, w).

End Platform.

Export Platform.

Declare Scope js_scope.
Delimit Scope js_scope with js.
Notation "'let*' x ':=' c1 'in' c2" := (bind c1 (fun x => c2))
  (at level 10, x name, c1 at level 100, c2 at level 200) : js_scope.
Notation "c1 ';;;' c2" := (bind c1 (fun _ => c2))
  (at level 100, c2 at level 200, right associativity) : js_scope.
Local Open Scope js_scope.

Module Timers.

(** Timers due by time [t] and timers still pending after it. *)
Definition due (t : N) (tm : Timer) : bool := fire_at tm <=? t.
Definition callback_event (tm : Timer) : Event :=
  match action tm with AbortCtl c => EvAbort c end.

(** Let the clock reach [t] (never backwards): every timer due by then
    fires, which runs its callback and retires its handle. *)
Definition advance_to (t : N) (w : World) : World :=
  let t' := N.max (now w) t in
  let fired := List.filter (due t') (timers w) in
  let kept := List.filter (fun tm => negb (due t' tm)) (timers w) in
  emit (map callback_event fired) (set_timers kept (set_now t' w)).

(** The time at which controller [c] gets aborted by a pending timer. *)
Fixpoint abort_time (c : nat) (ts : list Timer) : option N :=
  match ts with
  | [] => None
  | tm :: ts' =>
      match action tm with
      | AbortCtl c' =>
          if Nat.eqb c' c then
            Some (match abort_time c ts' with
                  | Some t => N.min (fire_at tm) t
                  | None => fire_at tm
                  end)
          else abort_time c ts'
      end
  end.

(** [new AbortController()] *)
Definition new_AbortController : M nat :=
  fun w => (Returned (next_id w),
            emit [EvNewController (next_id w)] (set_next_id (S (next_id w)) w)).

(** [setTimeout(callback, delay)] *)
Definition setTimeout (a : TimerAction) (delay : N) : M nat :=
  fun w => (Returned (next_id w),
            emit [EvSetTimeout (next_id w) delay]
              (set_timers (mkTimer (next_id w) (now w + delay) a :: timers w)
                 (set_next_id (S (next_id w)) w))).

(** [clearTimeout(id)] *)
Definition clearTimeout (t : nat) : M unit :=
  modify (fun w =>
    emit [EvClearTimeout t]
      (set_timers (List.filter (fun tm => negb (Nat.eqb (tid tm) t)) (timers w)) w)).

End Timers.

Export Timers.

(* ===================================================================== *)
(** ** Cache Storage and the transport                                     *)
(* ===================================================================== *)

Module Net.

Section WithEnv.
Variable env : Env.

(** [caches.open(name)]: throws when the storage is unavailable, and
    creates the named cache when it does not exist yet. *)
Definition caches_open (name : string) : M string :=
  fun w =>
    let w1 := advance_to (now w + cache_latency env) (emit [EvCacheOpen name] w) in
    if available (caches w) then
      match stores (caches w) !! name with
      | Some _ => (Returned name, w1)
      | None =>
          (Returned name,
           set_caches (mkCaches true (<[name := ∅]> (stores (caches w)))) w1)
      end
    else (Thrown (StorageError "caches.open"), w1).

(** What [cache.match(url)] finds in the cache called [name]. *)
Definition stored (cs : CacheStorage) (name url : string) : option Response :=
  match stores cs !! name with
  | Some entries => entries !! url
  | None => None
  end.

(** [cache.match(url)]: the stored response, or [undefined]. *)
Definition cache_match (name url : string) : M (option Response) :=
  fun w =>
    (Returned (stored (caches w) name url),
     advance_to (now w + cache_latency env) (emit [EvCacheMatch name url] w)).

(** A transport call in flight: how it will behave, when it was issued and
    the signal it listens to. *)
Record InFlight := mkInFlight {
  behaviour : NetBehaviour;
  issued_at : N;
  listens_to : option nat
}.

(** Calling the platform's [fetch]: the request leaves. *)
Definition fetch_issue (url : string) (opts : Options) : M InFlight :=
  fun w =>
    (Returned (mkInFlight (transport env (net_calls w)) (now w) (signal opts)),
     emit [EvFetch url opts] (set_net_calls (S (net_calls w)) w)).

Definition settles_at (f : InFlight) : option N :=
  match behaviour f with
  | NetResponds l _ => Some (issued_at f + l)
  | NetRejects l _ => Some (issued_at f + l)
  | NetHangs => None
  end.

Definition settlement (f : InFlight) : Outcome Response :=
  match behaviour f with
  | NetResponds _ r => Returned r
  | NetRejects _ m => Thrown (TypeError m)
  | NetHangs => Pending
  end.

(** Has [controller.abort()] run on controller [c] since it was created?
    The trace is read from its oldest event on. *)
Definition abort_step (c : nat) (state : bool) (e : Event) : bool :=
  match e with
  | EvNewController c' => if Nat.eqb c' c then false else state
  | EvAbort c' => if Nat.eqb c' c then true else state
  | _ => state
  end.

Definition aborted (c : nat) (t : list Event) : bool :=
  fold_left (abort_step c) t false.

(** Awaiting the promise of [fetch]: with a signal that is aborted already
    it rejects with an [AbortError] at once; otherwise it settles as the
    transport behaves, unless a timer aborts its signal first, in which
    case it rejects with an [AbortError] at that time. *)
Definition fetch_await (f : InFlight) : M Response :=
  fun w =>
    let already :=
      match listens_to f with
      | Some c => aborted c (trace w)
      | None => false
      end in
    let abort_at :=
      match listens_to f with
      | Some c => abort_time c (timers w)
      | None => None
      end in
    if already then (Thrown AbortError, w)
    else
      match settles_at f, abort_at with
      | Some s, Some a =>
          if s <? a then (settlement f, advance_to s w)
          else (Thrown AbortError, advance_to a w)
      | Some s, None => (settlement f, advance_to s w)
      | None, Some a => (Thrown AbortError, advance_to a w)
      | None, None => (Pending, w)
      end.

(** [await fetch(url, opts)] by the platform's own [fetch]. *)
Definition platform_fetch (url : string) (opts : Options) : M Response :=
  let* f := fetch_issue url opts in
  fetch_await f.

End WithEnv.

End Net.

Export Net.

(* ===================================================================== *)
(** ** PoorNetworkHandler                                                  *)
(* ===================================================================== *)

Module PoorNetworkHandler.

(** [haystack.includes(needle)] *)
Fixpoint includes (needle haystack : string) : bool :=
  String.prefix needle haystack ||
  match haystack with
  | EmptyString => false
  | String _ rest => includes needle rest
  end.

(** [s.startsWith(p)] *)
Definition startsWith (p s : string) : bool := String.prefix p s.

(** Constructor constants (never reassigned). *)
Definition maxNetworkTimeout : N := 3000.
Definition connectionCheckTimeout : N := 1500.

Definition CACHE_NAME : string := "queen-rose-hiking-trail-v7-1-weather-persist".

(** [this.isSlowConnection = b] and [this.cacheFirstMode = b] *)
Definition set_isSlowConnection (b : bool) : M unit :=
  modify (fun w => set_handler (mkHandler b (cacheFirstMode (handler w))) w).
Definition set_cacheFirstMode (b : bool) : M unit :=
  modify (fun w => set_handler (mkHandler (isSlowConnection (handler w)) b) w).

(** [typeof resource === 'string' ? resource : resource.url] *)
Definition resource_url (resource : Resource) : string :=
  match resource with
  | ResString s => s
  | ResRequest u => u
  end.

(** The guard of line 123: external APIs and absolute URLs that do not
    mention localhost skip the smart handling. *)
Definition skips_smart_handling (url : string) : bool :=
  includes "open-meteo.com" url ||
  startsWith "http" url && negb (includes "localhost" url).

(** [checkConnectionType()] *)
Definition slowConnections : list string := ["slow-2g"; "2g"; "3g"].

Definition checkConnectionType : M unit :=
  let* conn := gets connection in
  match conn with
  | Some effectiveType =>
      if existsb (String.eqb effectiveType) slowConnections then
        set_isSlowConnection true ;;;
        set_cacheFirstMode true
      else
        set_isSlowConnection false ;;;
        set_cacheFirstMode false
  | None => ret tt
  end.

(** [enableCacheFirstMode()] / [disableCacheFirstMode()] *)
Definition enableCacheFirstMode : M unit :=
  set_cacheFirstMode true ;;;
  set_isSlowConnection true.

Definition disableCacheFirstMode : M unit :=
  set_cacheFirstMode false ;;;
  set_isSlowConnection false.

(** [getNetworkStatus()] *)
Record NetworkStatus := mkStatus {
  st_isSlowConnection : bool;
  st_cacheFirstMode : bool;
  st_isOnline : bool
}.

Definition getNetworkStatus (w : World) : NetworkStatus :=
  mkStatus (isSlowConnection (handler w)) (cacheFirstMode (handler w)) (onLine w).

Section WithEnv.
Variable env : Env.

(** [getCachedResponse(url)]: a failure of the Cache Storage gives [null]. *)
Definition getCachedResponse (url : string) : M (option Response) :=
  try_catch
    (let* cache := caches_open env CACHE_NAME in
     let* cachedResponse := cache_match env cache url in
     ret cachedResponse)
    (fun _ => ret None).

(** [originalFetch]: the platform's [fetch], saved before the override. *)
Definition originalFetch (resource : Resource) (options : Options) : M Response :=
  platform_fetch env (resource_url resource) options.

(** The function [setupSmartFetch] installs as [window.fetch]
    (lines 119-181), block by block.  A block yields [None] where the
    source falls out of it without returning. *)

(** Lines 130-140: the cache is tried first in cache-first mode. *)
Definition cache_first_lookup (url : string) : M (option Response) :=
  let* h := gets handler in
  if cacheFirstMode h || isSlowConnection h then
    try_catch (getCachedResponse url) (fun _ => ret None)
  else ret None.

(** Lines 144-160: the body of the [try] around the network attempt. *)
Definition network_attempt (resource : Resource) (options : Options)
  : M (option Response) :=
  let* controller := new_AbortController in
  let* timeoutId := setTimeout (AbortCtl controller) maxNetworkTimeout in
  let* networkResponse :=
    originalFetch resource (with_signal controller options) in
  clearTimeout timeoutId ;;;
  if ok networkResponse then ret (Some networkResponse)
  else ret None.

(** Lines 162-176: its [catch] block. *)
Definition cache_fallback (url : string) (error : JsError)
  : M (option Response) :=
  let* fallback := try_catch (getCachedResponse url) (fun _ => ret None) in
  match fallback with
  | Some cachedResponse => ret (Some cachedResponse)
  | None => throw error
  end.

Definition smartFetch (resource : Resource) (options : Options) : M Response :=
  let url := resource_url resource in
  if skips_smart_handling url then originalFetch resource options
  else
    let* early := cache_first_lookup url in
    match early with
    | Some cachedResponse => ret cachedResponse
    | None =>
        let* attempt :=
          try_catch (network_attempt resource options) (cache_fallback url) in
        match attempt with
        | Some response => ret response
        | None => originalFetch resource options
        end
    end.

(** *** Calls and promises

    A call of an async function runs at once up to its first [await] and
    hands back a promise; the rest runs when the promise is awaited.  A
    promise is embedded as the computation that is left. *)

(** A call of the platform's [fetch]. *)
Definition originalFetch_call (resource : Resource) (options : Options)
  : M (M Response) :=
  let* f := fetch_issue env (resource_url resource) options in
  ret (fetch_await f).

(** A call of the override, cut at its first [await]: at line 124 for a
    request that skips the smart handling, at line 132 in cache-first mode
    (the test of line 130 is made at the call), at line 150 otherwise. *)
Definition smartFetch_call (resource : Resource) (options : Options)
  : M (M Response) :=
  let url := resource_url resource in
  if skips_smart_handling url then originalFetch_call resource options
  else
    let after_attempt (attempt : option Response) : M Response :=
      match attempt with
      | Some response => ret response
      | None => originalFetch resource options
      end in
    let* h := gets handler in
    if cacheFirstMode h || isSlowConnection h then
      ret (let* early := try_catch (getCachedResponse url) (fun _ => ret None) in
           match early with
           | Some cachedResponse => ret cachedResponse
           | None =>
               let* attempt :=
                 try_catch (network_attempt resource options)
                           (cache_fallback url) in
               after_attempt attempt
           end)
    else
      let* controller := new_AbortController in
      let* timeoutId := setTimeout (AbortCtl controller) maxNetworkTimeout in
      let* f :=
        fetch_issue env (resource_url resource) (with_signal controller options) in
      ret (let* attempt :=
             try_catch
               (let* networkResponse := fetch_await f in
                clearTimeout timeoutId ;;;
                if ok networkResponse then ret (Some networkResponse)
                else ret None)
               (cache_fallback url) in
           after_attempt attempt).

(** [window.fetch] when a piece of code calls it: the platform's own until
    [setupSmartFetch()] has run (line 27), the override from then on. *)
Inductive WindowFetch := OriginalFetch | SmartFetch.

Definition window_fetch_call (wf : WindowFetch) (resource : Resource)
           (options : Options) : M (M Response) :=
  match wf with
  | OriginalFetch => originalFetch_call resource options
  | SmartFetch => smartFetch_call resource options
  end.

(** A call of [window.fetch] followed by the wait for its promise. *)
Definition fetch_through (wf : WindowFetch) (resource : Resource)
           (options : Options) : M Response :=
  match wf with
  | OriginalFetch => originalFetch resource options
  | SmartFetch => smartFetch resource options
  end.

(** [checkConnectionQuality()], cut at its only [await]: what runs at once
    when it is called, [fetch] being the [window.fetch] of that moment ... *)
Record Probe := mkProbe {
  startTime : N;
  timeoutId : nat;
  request : M Response
}.

Definition probe_options (controller : nat) : Options :=
  mkOptions (Some controller) (Some "no-cache").

Definition checkConnectionQuality_start (wf : WindowFetch) : M (option Probe) :=
  let* online := gets onLine in
  if negb online then
    set_isSlowConnection true ;;;
    set_cacheFirstMode true ;;;
    ret None
  else
    let* startTime := gets now in
    let* controller := new_AbortController in
    let* timeoutId := setTimeout (AbortCtl controller) connectionCheckTimeout in
    let* request :=
      window_fetch_call wf (ResString "./manifest.json")
                        (probe_options controller) in
    ret (Some (mkProbe startTime timeoutId request)).

(** ... and what runs once the probe's [fetch] has settled as [s]: the
    rest of the [try] block, or the [catch] block. *)
Definition checkConnectionQuality_resume (p : Probe) (s : Outcome Response) : M unit :=
  try_catch
    (let* response := settle s in
     clearTimeout (timeoutId p) ;;;
     let* endTime := gets now in
     let responseTime := endTime - startTime p in
     if ok response && (responseTime <? 1000) then
       set_isSlowConnection false ;;;
       set_cacheFirstMode false
     else
       set_isSlowConnection true ;;;
       set_cacheFirstMode true)
    (fun _ =>
       set_isSlowConnection true ;;;
       set_cacheFirstMode true).

(** Waiting for a promise: its settlement, reified. *)
Definition await_settlement {A} (m : M A) : M (Outcome A) :=
  fun w => let (o, w') := m w in (Returned o, w').

(** The whole of [checkConnectionQuality()], run to completion. *)
Definition checkConnectionQuality (wf : WindowFetch) : M unit :=
  let* started := checkConnectionQuality_start wf in
  match started with
  | None => ret tt
  | Some p =>
      let* s := await_settlement (request p) in
      checkConnectionQuality_resume p s
  end.

(** The listeners of [setupNetworkEventListeners()]; the platform has
    updated [navigator] before it dispatches the event.  They run after
    [init()], so that the check of the online listener calls the
    override. *)
Definition on_online : M unit :=
  modify (set_onLine true) ;;;
  set_isSlowConnection false ;;;
  set_cacheFirstMode false ;;;
  checkConnectionQuality_start SmartFetch ;;;
  ret tt.

Definition on_offline : M unit :=
  modify (set_onLine false) ;;;
  set_isSlowConnection true ;;;
  set_cacheFirstMode true.

Definition on_connection_change (effectiveType : string) : M unit :=
  modify (set_connection (Some effectiveType)) ;;;
  checkConnectionType.

(** [new PoorNetworkHandler()]: the field initialisers, then [init()], up
    to the first suspension.  The check of line 21 runs before
    [setupSmartFetch()] (line 27): its probe is a call of the platform's
    [fetch]. *)
Definition construct : M unit :=
  set_isSlowConnection false ;;;
  set_cacheFirstMode false ;;;
  checkConnectionQuality_start OriginalFetch ;;;
  checkConnectionType.

(** The pieces of handler code the event loop runs without interruption
    once the handler is constructed; [SegQualityCheck] is the start of a
    periodic check (line 30). *)
Inductive Segment :=
| SegOnline
| SegOffline
| SegConnectionChange (effectiveType : string)
| SegQualityCheck
| SegProbeSettled (p : Probe) (s : Outcome Response)
| SegEnableCacheFirst
| SegDisableCacheFirst.

Definition run_segment (seg : Segment) : M unit :=
  match seg with
  | SegOnline => on_online
  | SegOffline => on_offline
  | SegConnectionChange et => on_connection_change et
  | SegQualityCheck => checkConnectionQuality_start SmartFetch ;;; ret tt
  | SegProbeSettled p s => checkConnectionQuality_resume p s
  | SegEnableCacheFirst => enableCacheFirstMode
  | SegDisableCacheFirst => disableCacheFirstMode
  end.

(** The world after a list of segments, run one after the other. *)
Definition run_segments (segs : list Segment) (w : World) : World :=
  fold_left (fun w seg => snd (run_segment seg w)) segs w.

End WithEnv.

End PoorNetworkHandler.

Export PoorNetworkHandler.

(* ===================================================================== *)
(** ** NetworkStatusIndicator                                              *)
(* ===================================================================== *)

Module NetworkStatusIndicator.

(** The style properties of the indicator element the class writes. *)
Record Element := mkElement {
  textContent : string;
  backgroundColor : string;
  transform : string;
  opacity : string
}.

(** An invocation of [show] or [hide]: what an observer of the indicator
    is told. *)
Inductive Call :=
| CallShow (message color : string)
| CallHide.

Record Indicator := mkIndicator {
  indicator : option Element;
  currentStatus : string;
  isVisible : bool;
  hide_timeouts : nat;       (* armed 3000ms timeouts of the 'good' case *)
  calls : list Call
}.

Definition log_call (c : Call) (st : Indicator) : Indicator :=
  mkIndicator (indicator st) (currentStatus st) (isVisible st)
              (hide_timeouts st) (calls st ++ [c]).

(** [show(message, backgroundColor)] *)
Definition show (message color : string) (st : Indicator) : Indicator :=
  let st := log_call (CallShow message color) st in
  match indicator st with
  | None => st
  | Some _ =>
      mkIndicator (Some (mkElement message color "translateY(0)" "1"))
                  (currentStatus st) true (hide_timeouts st) (calls st)
  end.

(** [hide()] *)
Definition hide (st : Indicator) : Indicator :=
  let st := log_call CallHide st in
  match indicator st with
  | None => st
  | Some el =>
      if negb (isVisible st) then st
      else
        mkIndicator
          (Some (mkElement (textContent el) (backgroundColor el)
                           "translateY(-100px)" "0"))
          (currentStatus st) false (hide_timeouts st) (calls st)
  end.

(** The [switch] of [updateStatus]: message, colour, [shouldShow], and
    whether the case arms the hide timeout. *)
Definition status_case (status : string) : string * string * bool * bool :=
  if String.eqb status "offline" then
    ("📱 Offline Mode", "#f44336", true, false)
  else if String.eqb status "slow" then
    ("🐌 Slow Connection - Using Cache", "#ff9800", true, false)
  else if String.eqb status "good" then
    ("✅ Good Connection", "#4caf50", true, true)
  else (EmptyString, EmptyString, false, false).

(** [updateStatus(status)] *)
Definition updateStatus (status : string) (st : Indicator) : Indicator :=
  if String.eqb (currentStatus st) status then st
  else
    let '(message, color, shouldShow, arms) := status_case status in
    let st1 :=
      mkIndicator (indicator st) status (isVisible st)
                  (if arms then S (hide_timeouts st) else hide_timeouts st)
                  (calls st) in
    if shouldShow then show message color st1 else hide st1.

(** The callback of the 'good' timeout. *)
Definition hide_timeout_fired (st : Indicator) : Indicator :=
  let st1 :=
    mkIndicator (indicator st) (currentStatus st) (isVisible st)
                (Nat.pred (hide_timeouts st)) (calls st) in
  if String.eqb (currentStatus st1) "good" then hide st1 else st1.

(** The constructor and [createIndicator()]. *)
Definition construct : Indicator :=
  mkIndicator (Some (mkElement EmptyString EmptyString "translateY(-100px)" "0"))
              "unknown" false 0 [].

(** The status [checkInitialStatus()] derives from the handler's snapshot
    (lines 354-366). *)
Definition status_of (s : NetworkStatus) : string :=
  if negb (st_isOnline s) then "offline"
  else if st_isSlowConnection s then "slow"
  else "good".

(** A run of status updates, in order. *)
Definition updates (l : list string) (st : Indicator) : Indicator :=
  fold_left (fun st status => updateStatus status st) l st.

(** The call [updateStatus] makes for a status it accepts. *)
Definition call_for (status : string) : Call :=
  let '(message, color, shouldShow, _) := status_case status in
  if shouldShow then CallShow message color else CallHide.

(** The statuses of a run that differ from the one before them, [prev]
    being the status before the run. *)
Fixpoint changes (prev : string) (l : list string) : list string :=
  match l with
  | [] => []
  | s :: l' =>
      if String.eqb prev s then changes prev l'
      else s :: changes s l'
  end.

End NetworkStatusIndicator.

(* ===================================================================== *)
(** ** Observations on a run                                               *)
(* ===================================================================== *)

Module Observe.

(** What [getCachedResponse(url)] finds in world [w]. *)
Definition cached (w : World) (url : string) : option Response :=
  if available (caches w) then stored (caches w) CACHE_NAME url else None.

(** The test of line 130. *)
Definition cache_first (w : World) : bool :=
  cacheFirstMode (handler w) || isSlowConnection (handler w).

(** The number of cache lookups started: each call of [getCachedResponse]
    opens the cache once. *)
Definition is_cache_open (e : Event) : bool :=
  match e with EvCacheOpen _ => true | _ => false end.

Definition cache_attempts (t : list Event) : nat :=
  length (List.filter is_cache_open t).

(** Ids are handed out in increasing order: a pending timer and the
    controller it aborts are older than the next id. *)
Definition timer_fresh (n : nat) (tm : Timer) : bool :=
  (tid tm <? n)%nat && match action tm with AbortCtl c => (c <? n)%nat end.

Definition fresh_ids (w : World) : bool :=
  forallb (timer_fresh (next_id w)) (timers w).

(** Does the transport settle strictly before [limit]? *)
Definition in_time (limit : N) (b : NetBehaviour) : bool :=
  match b with
  | NetResponds l _ => l <? limit
  | NetRejects l _ => l <? limit
  | NetHangs => false
  end.

(** What the cache-first block of a resolution finds (lines 130-140), and
    whether it looks at all. *)
Definition early (w : World) (url : string) : option Response :=
  if cache_first w then cached w url else None.

Definition early_lookups (w : World) : nat :=
  if cache_first w then 1%nat else 0%nat.

(** The network attempt of a resolution throws: the transport rejects, or
    the deadline aborts it. *)
Definition attempt_failed (b : NetBehaviour) : bool :=
  match b with
  | NetResponds l _ => negb (l <? maxNetworkTimeout)
  | NetRejects _ _ => true
  | NetHangs => true
  end.

(** The network attempt is answered in time, with a status that is not
    ok. *)
Definition answered_not_ok (b : NetBehaviour) : bool :=
  match b with
  | NetResponds l r => (l <? maxNetworkTimeout) && negb (ok r)
  | _ => false
  end.

(** The probe is answered ok in under a second (line 98). *)
Definition probe_good (b : NetBehaviour) : bool :=
  match b with
  | NetResponds l r => ok r && (l <? 1000)
  | _ => false
  end.

(** The two flags of the handler say the same. *)
Definition flags_agree (w : World) : Prop :=
  isSlowConnection (handler w) = cacheFirstMode (handler w).

(** What a run changed and what it left alone: [fetches] transport calls
    and [lookups] cache lookups were made, the handler's fields and the
    content of the caches are untouched. *)
Record Effects (w w' : World) (fetches lookups : nat) : Prop := mkEffects {
  eff_handler : handler w' = handler w;
  eff_onLine : onLine w' = onLine w;
  eff_available : available (caches w') = available (caches w);
  eff_stored : forall name url,
      stored (caches w') name url = stored (caches w) name url;
  eff_net : net_calls w' = (net_calls w + fetches)%nat;
  eff_lookups :
    cache_attempts (trace w') = (cache_attempts (trace w) + lookups)%nat;
  eff_now : now w <= now w';
  eff_ids : (next_id w <= next_id w')%nat;
  eff_trace : forall e, In e (trace w) -> In e (trace w');
  eff_fresh : fresh_ids w = true -> fresh_ids w' = true
}.

End Observe.

Export Observe.

(* ===================================================================== *)
(** ** Concrete worlds and transports                                      *)
(* ===================================================================== *)

Module Examples.

Definition data_json : string := "/data.json".

Definition fresh_response : Response := mkResponse 200 "fresh".
Definition stale_response : Response := mkResponse 200 "stale".
Definition server_error : Response := mkResponse 500 "Internal Server Error".

Definition empty_caches : CacheStorage := mkCaches true ∅.
Definition caches_holding (url : string) (r : Response) : CacheStorage :=
  mkCaches true {[ CACHE_NAME := {[ url := r ]} ]}.

Definition good_mode : Handler := mkHandler false false.
Definition degraded_mode : Handler := mkHandler true true.

(** A world at time 0 with no timer pending and no call made yet. *)
Definition boot (h : Handler) (online : bool) (cs : CacheStorage) : World :=
  mkWorld 0 online None h cs [] 0 0 [].

Definition answers_after (l : N) (r : Response) : Env :=
  mkEnv (fun _ => NetResponds l r) 5.
Definition fails_after (l : N) (m : string) : Env :=
  mkEnv (fun _ => NetRejects l m) 5.
Definition never_answers : Env := mkEnv (fun _ => NetHangs) 5.
(** The first call is answered with a 500 after 100ms, later calls never. *)
Definition error_then_silence : Env :=
  mkEnv (fun n => match n with
                  | O => NetResponds 100 server_error
                  | S _ => NetHangs
                  end) 5.

Definition dns_failure : Env := fails_after 100 "Failed to fetch".

(** The first call is answered with a 500 after 2000ms, later calls
    never. *)
Definition late_error_then_silence : Env :=
  mkEnv (fun n => match n with
                  | O => NetResponds 2000 server_error
                  | S _ => NetHangs
                  end) 5.

(** Good mode, online, with or without a stale entry for [data_json]. *)
Definition good_world_stale : World :=
  boot good_mode true (caches_holding data_json stale_response).
Definition good_world_empty : World := boot good_mode true empty_caches.

(** Cache-first mode, offline with a stale entry, or online with none. *)
Definition offline_world_stale : World :=
  boot degraded_mode false (caches_holding data_json stale_response).
Definition slow_world_empty : World := boot degraded_mode true empty_caches.

(** Cache-first mode, online, with a stale entry under the absolute URL
    of a same-origin resource (the [url] of a [Request] object is always
    absolute). *)
Definition absolute_data_json : string := "https://queenrose.example/data.json".
Definition slow_world_absolute : World :=
  boot degraded_mode true (caches_holding absolute_data_json stale_response).

(** Online with a copy of the manifest in the cache, in either mode. *)
Definition manifest_json : string := "./manifest.json".
Definition manifest_copy : Response := mkResponse 200 "manifest".
Definition slow_world_manifest : World :=
  boot degraded_mode true (caches_holding manifest_json manifest_copy).
Definition good_world_manifest : World :=
  boot good_mode true (caches_holding manifest_json manifest_copy).

End Examples.

Export Examples.

(* ===================================================================== *)
(** ** weather_offline.js: descriptions and hiking advice                  *)
(* ===================================================================== *)

Module WeatherAdvice.

(** The values the code reads from the arrays of the forecast JSON: a
    number or [null]; [undefined], which an index past the end of an array
    yields, is the [None] of [option].  Weather codes are WMO codes,
    non-negative integers; temperatures are taken with their exact
    value. *)
Inductive Value (A : Type) :=
| Null
| Num (x : A).
Arguments Null {A}.
Arguments Num {A} x.

(** [Number(v)] for a value that is not [undefined]: [null] converts
    to 0. *)
Definition Number (v : Value N) : N :=
  match v with
  | Null => 0
  | Num n => n
  end.

(** The conversion [<], [<=] and [>] apply to an operand before they
    compare it with a number: [null] converts to 0. *)
Definition ToNumber (v : Value Q) : Q :=
  match v with
  | Null => 0%Q
  | Num q => q
  end.

(** [String(n)] for a non-negative integer [n] below 2^53, which prints
    as its decimal digits. *)
Definition String_of_N (n : N) : string :=
  NilEmpty.string_of_uint (N.to_uint n).

(** [String(v)], as string concatenation converts a weather code. *)
Definition String_of_code (v : option (Value N)) : string :=
  match v with
  | None => "undefined"
  | Some Null => "null"
  | Some (Num n) => String_of_N n
  end.

(** Comparisons of two numbers, on their exact values. *)
Definition gt (x y : Q) : bool := negb (Qle_bool x y).
Definition lt (x y : Q) : bool := negb (Qle_bool y x).
Definition le (x y : Q) : bool := Qle_bool x y.

Record Description := mkDescription { text : string; icon : string }.

(** The object literal [descriptions] of [getWeatherDescriptionAndIcon]. *)
Definition descriptions : list (N * Description) :=
  [ (0, mkDescription "Clear sky" "☀️");
    (1, mkDescription "Mainly clear" "🌤️");
    (2, mkDescription "Partly cloudy" "🌥️");
    (3, mkDescription "Overcast" "☁️");
    (45, mkDescription "Fog" "🌫️");
    (48, mkDescription "Depositing rime fog" "🌫️");
    (51, mkDescription "Light drizzle" "🌦️");
    (53, mkDescription "Moderate drizzle" "🌦️");
    (55, mkDescription "Dense drizzle" "🌦️");
    (61, mkDescription "Slight rain" "🌧️");
    (63, mkDescription "Moderate rain" "🌧️");
    (65, mkDescription "Heavy rain" "🌧️");
    (80, mkDescription "Slight rain showers" "🌦️");
    (81, mkDescription "Moderate rain showers" "🌦️");
    (82, mkDescription "Violent rain showers" "⛈️");
    (95, mkDescription "Thunderstorm" "⛈️") ].

(** [descriptions[code]] *)
Fixpoint property (code : N) (o : list (N * Description)) : option Description :=
  match o with
  | [] => None
  | (k, d) :: o' => if N.eqb k code then Some d else property code o'
  end.

(** [descriptions[weatherCode]]: the key is [String(weatherCode)], which
    is one of the keys of the table for these numbers only. *)
Definition description_of (weatherCode : option (Value N)) : option Description :=
  match weatherCode with
  | Some (Num code) => property code descriptions
  | _ => None
  end.

(** [getWeatherDescriptionAndIcon(weatherCode)] *)
Definition getWeatherDescriptionAndIcon (weatherCode : option (Value N))
  : Description :=
  match description_of weatherCode with
  | Some d => d
  | None => mkDescription ("Unknown code: " ++ String_of_code weatherCode) "❓"
  end.

(** The sentences [getHikingRecommendation] can push. *)
Definition advice_extreme_heat : string :=
  "Extreme heat! Hike very early or very late. Carry extra water (at least 1L per hour per person). Watch for signs of heatstroke.".
Definition advice_hot : string :=
  "Hot conditions. Start early, stay hydrated, and take frequent breaks in shade.".
Definition advice_freezing : string :=
  "Freezing temperatures expected, especially at night/higher elevations. Pack warm layers, hat, gloves, and consider insulated water bottles.".
Definition advice_cold : string :=
  "Cold temperatures, especially in the morning/evening. Dress in layers.".
Definition advice_rain : string :=
  "Rain expected. Pack full waterproof gear (jacket and pants). Trails may be slippery.".
Definition advice_drizzle : string :=
  "Light drizzle possible. A waterproof jacket is recommended. Trails might become slippery.".
Definition advice_thunderstorm : string :=
  "Thunderstorms likely. Avoid exposed areas and high ridges. Check radar and be prepared to turn back or seek shelter. Start very early.".
Definition advice_severe : string :=
  "Potential for severe weather (thunderstorms with hail/squalls). Monitor conditions closely and be prepared to alter plans.".
Definition advice_fog : string :=
  "Fog expected, reducing visibility. Hike with caution, use GPS, and stay on marked trails.".
Definition advice_good : string :=
  "Generally good hiking conditions. Enjoy your hike!".
Definition advice_check : string :=
  "Check detailed forecast and prepare accordingly for prevailing conditions.".
Definition advice_incomplete : string :=
  "Weather data incomplete for recommendation.".

(** [list.includes(code)] *)
Definition includes_code (l : list N) (code : N) : bool :=
  existsb (N.eqb code) l.

(** [advice.push(s)] *)
Definition push (s : string) (advice : list string) : list string :=
  advice ++ [s].

(** The array [advice] of [getHikingRecommendation] when it is joined:
    [code] is [Number(weatherCode)], and [maxTemp] and [minTemp] are the
    numbers the comparisons convert their operands to. *)
Definition hiking_advice (code : N) (maxTemp minTemp : Q) : list string :=
  let advice := [] in
  let advice :=
    if gt maxTemp 32 then push advice_extreme_heat advice
    else if gt maxTemp 28 then push advice_hot advice
    else if lt maxTemp 5 || lt minTemp 0 then push advice_freezing advice
    else if lt minTemp 5 then push advice_cold advice
    else advice in
  let advice :=
    if includes_code [61; 63; 65; 80; 81; 82] code then push advice_rain advice
    else if includes_code [51; 53; 55] code then push advice_drizzle advice
    else advice in
  let advice :=
    if N.eqb code 95 then push advice_thunderstorm advice
    else if startsWith "9" (String_of_N code) then push advice_severe advice
    else advice in
  let advice :=
    if N.eqb code 45 || N.eqb code 48 then push advice_fog advice
    else advice in
  let advice :=
    if Nat.eqb (length advice) 0 then
      if includes_code [0; 1; 2] code && gt maxTemp 10 && le maxTemp 28
      then push advice_good advice
      else push advice_check advice
    else advice in
  advice.

(** [array.join(sep)] *)
Fixpoint join (sep : string) (l : list string) : string :=
  match l with
  | [] => EmptyString
  | [s] => s
  | s :: l' => s ++ sep ++ join sep l'
  end.

(** [getHikingRecommendation(weatherCode, maxTemp, minTemp)]: the test of
    line 88 is on [undefined] only, so that a [null] goes on and counts
    as 0. *)
Definition getHikingRecommendation
           (weatherCode : option (Value N)) (maxTemp minTemp : option (Value Q))
  : string :=
  match weatherCode, maxTemp, minTemp with
  | Some code, Some maxT, Some minT =>
      join " " (hiking_advice (Number code) (ToNumber maxT) (ToNumber minT))
  | _, _, _ => advice_incomplete
  end.

End WeatherAdvice.

(* ===================================================================== *)
(** ** weather_offline.js: fetching, caching and displaying the forecast   *)
(* ===================================================================== *)

Module WeatherOffline.

Import WeatherAdvice.

Definition NELSHOOGTE_LAT : Q := (-25853 # 1000)%Q.
Definition NELSHOOGTE_LON : Q := (307616 # 10000)%Q.

(** The template literal, with the two numbers printed as JavaScript
    prints them. *)
Definition WEATHER_API_URL : string :=
  "https://api.open-meteo.com/v1/forecast?latitude=-25.853&longitude=30.7616&daily=weathercode,temperature_2m_max,temperature_2m_min&timezone=auto&forecast_days=7".

(** The part of the forecast JSON the code reads: [data.daily] and its
    four arrays.  Each is an array, or [None] when [daily] lacks it (or
    holds [null] in its place): the code tests [data.daily] only, and
    reading [length] or an index of a missing array throws a TypeError. *)
Record Daily := mkDaily {
  time : option (list string);
  weathercode : option (list (Value N));
  temperature_2m_max : option (list (Value Q));
  temperature_2m_min : option (list (Value Q))
}.

(** [daily] is [None] when [data.daily] is missing or falsy. *)
Record ForecastData := mkForecast { daily : option Daily }.

(** A row of [db.weather_cache]. *)
Record WeatherEntry := mkEntry {
  id : N;
  latitude : Q;
  longitude : Q;
  forecastData : option ForecastData;
  lastFetchedTimestamp : N
}.

(** The Dexie table [db.weather_cache], keyed by the field [id] of its rows
    (the schema is declared outside this file; the code reads with
    [get(1)] what it wrote with [id: 1]); when the database is not
    [working] its operations reject. *)
Record Database := mkDb {
  working : bool;
  weather_cache : gmap N WeatherEntry
}.

(** What [displayWeatherData] puts into a day card. *)
Record Card := mkCard {
  card_time : option string;
  card_icon : string;
  card_text : string;
  card_max : option (Value Q);
  card_min : option (Value Q);
  card_recommendation : string;
  card_offline_style : bool
}.

(** The children of the forecast container: the two fixed messages written
    through [innerHTML], the offline notice with the timestamp it prints,
    and the day cards. *)
Inductive Node :=
| LoadingMessage
| NoDataMessage
| OfflineNotice (lastFetched : N)
| DayCard (c : Card).

(** The two elements the code looks up by id, when they exist: the text of
    [#weather-last-updated] and the children of
    [#weather-forecast-container]. *)
Record Dom := mkDom {
  lastUpdatedDiv : option string;
  forecastContainer : option (list Node)
}.

Record App := mkApp {
  world : World;
  db : Database;
  dom : Dom
}.

(** What the code of this file can throw or catch; [ReadsUndefined] is
    the TypeError of reading a property of [undefined], [array] being the
    array of [daily] that is missing. *)
Inductive AppError :=
| FetchError (e : JsError)
| HttpError (status : N)
| SyntaxError
| DexieError
| ReadsUndefined (array : string).

Inductive Settled (A : Type) :=
| Done (a : A)
| Failed (e : AppError)
| Waiting.
Arguments Done {A} a.
Arguments Failed {A} e.
Arguments Waiting {A}.

Definition W (A : Type) : Type := App -> Settled A * App.

Definition wret {A} (a : A) : W A := fun s => (Done a, s).
Definition wthrow {A} (e : AppError) : W A := fun s => (Failed e, s).
Definition wbind {A B} (m : W A) (k : A -> W B) : W B :=
  fun s =>
    match m s with
    | (Done a, s') => k a s'
    | (Failed e, s') => (Failed e, s')
    | (Waiting, s') => (Waiting, s')
    end.
Definition wtry {A} (m : W A) (h : AppError -> W A) : W A :=
  fun s =>
    match m s with
    | (Failed e, s') => h e s'
    | r => r
    end.
Definition wgets {A} (f : App -> A) : W A := fun s => (Done (f s), s).
Definition wmodify (f : App -> App) : W unit := fun s => (Done tt, f s).

(** A platform computation run inside the page. *)
Definition lift {A} (m : M A) : W A :=
  fun s =>
    match m (world s) with
    | (Returned a, w') => (Done a, mkApp w' (db s) (dom s))
    | (Thrown e, w') => (Failed (FetchError e), mkApp w' (db s) (dom s))
    | (Pending, w') => (Waiting, mkApp w' (db s) (dom s))
    end.

Definition set_db (d : Database) (s : App) : App := mkApp (world s) d (dom s).
Definition set_dom (d : Dom) (s : App) : App := mkApp (world s) (db s) d.

(** [lastUpdatedDiv.textContent = t] / [.innerHTML = t], for a text
    without markup. *)
Definition write_lastUpdated (t : string) : W unit :=
  wmodify (fun s => set_dom (mkDom (Some t) (forecastContainer (dom s))) s).

(** [if (lastUpdatedDiv) lastUpdatedDiv.textContent = t] *)
Definition write_lastUpdated_if_found (t : string) : W unit :=
  fun s =>
    match lastUpdatedDiv (dom s) with
    | Some _ => write_lastUpdated t s
    | None => (Done tt, s)
    end.

(** [forecastContainer.innerHTML = ...] replaces the children. *)
Definition write_container (children : list Node) : W unit :=
  wmodify (fun s => set_dom (mkDom (lastUpdatedDiv (dom s)) (Some children)) s).

(** [forecastContainer.appendChild(n)] *)
Definition appendChild (n : Node) : W unit :=
  wmodify (fun s =>
    match forecastContainer (dom s) with
    | Some children =>
        set_dom (mkDom (lastUpdatedDiv (dom s)) (Some (children ++ [n]))) s
    | None => s
    end).

(** [db.weather_cache.get(key)] and [db.weather_cache.put(entry)] *)
Definition db_get (key : N) : W (option WeatherEntry) :=
  fun s =>
    if working (db s) then (Done (weather_cache (db s) !! key), s)
    else (Failed DexieError, s).

Definition db_put (entry : WeatherEntry) : W unit :=
  fun s =>
    if working (db s) then
      (Done tt,
       set_db (mkDb true (<[id entry := entry]> (weather_cache (db s)))) s)
    else (Failed DexieError, s).

Notation "'let+' x ':=' c1 'in' c2" := (wbind c1 (fun x => c2))
  (at level 10, x name, c1 at level 100, c2 at level 200).
Notation "c1 ';;+' c2" := (wbind c1 (fun _ => c2))
  (at level 100, c2 at level 200, right associativity).

(** [getCachedWeatherData()] *)
Definition getCachedWeatherData : W (option WeatherEntry) :=
  wtry
    (let+ cachedWeather := db_get 1 in
     match cachedWeather with
     | Some entry => wret (Some entry)
     | None => wret None
     end)
    (fun _ => wret None).

Definition offline_suffix : string := " (📱 Offline - showing cached data)".
Definition recent_suffix : string := " (✅ Recent data)".
Definition stale_suffix (hoursOld : Z) : string :=
  " (⚠️ Data is " ++ String_of_N (Z.to_N hoursOld) ++ " hours old)".

(** [array[i]]: [undefined] out of range. *)
Definition at_index {A} (l : list A) (i : nat) : option A := nth_error l i.

(** [daily.name.length] and [daily.name[i]], where [daily] may lack the
    array. *)
Definition length_of {A} (name : string) (array : option (list A)) : W nat :=
  match array with
  | Some l => wret (length l)
  | None => wthrow (ReadsUndefined name)
  end.

Definition element_of {A} (name : string) (array : option (list A)) (i : nat)
  : W (option A) :=
  match array with
  | Some l => wret (at_index l i)
  | None => wthrow (ReadsUndefined name)
  end.

Section Page.

(** The platform functions the page relies on: the [window.fetch] in
    effect, [response.json()] and [Date.prototype.toLocaleString]. *)
Variable window_fetch : Resource -> Options -> M Response.
Variable json : Response -> Settled (option ForecastData).
Variable toLocaleString : N -> string.

(** The card made of [dayData] (lines 200-217). *)
Definition card_of (time : option string) (weathercode : option (Value N))
           (temperature_2m_max temperature_2m_min : option (Value Q))
           (isOffline : bool) : Card :=
  let weatherInfo := getWeatherDescriptionAndIcon weathercode in
  let dailyRecommendation :=
    getHikingRecommendation weathercode temperature_2m_max temperature_2m_min in
  mkCard time (icon weatherInfo) (text weatherInfo)
         temperature_2m_max temperature_2m_min dailyRecommendation isOffline.

(** The card of day [i] (the body of the loop of [displayWeatherData]):
    [dayData] reads the four arrays in turn. *)
Definition day_card (d : Daily) (isOffline : bool) (i : nat) : W Card :=
  let+ time := element_of "time" (time d) i in
  let+ weathercode := element_of "weathercode" (weathercode d) i in
  let+ temperature_2m_max :=
    element_of "temperature_2m_max" (temperature_2m_max d) i in
  let+ temperature_2m_min :=
    element_of "temperature_2m_min" (temperature_2m_min d) i in
  wret (card_of time weathercode temperature_2m_max temperature_2m_min
                isOffline).

(** The status text of [displayWeatherData]. *)
Definition status_text (lastFetched now : N) (isOffline : bool) : string :=
  let cacheAge := (Z.of_N now - Z.of_N lastFetched)%Z in
  let hoursOld := (cacheAge / (1000 * 60 * 60))%Z in
  "Last updated: " ++ toLocaleString lastFetched ++
  (if isOffline then offline_suffix
   else if (hoursOld >? 6)%Z then stale_suffix hoursOld
   else recent_suffix).

(** The iterations of the loop of line 193 for the given indices. *)
Fixpoint append_days (d : Daily) (isOffline : bool) (indices : list nat) : W unit :=
  match indices with
  | [] => wret tt
  | i :: rest =>
      let+ card := day_card d isOffline i in
      appendChild (DayCard card) ;;+
      append_days d isOffline rest
  end.

(** [displayWeatherData()] *)
Definition displayWeatherData : W unit :=
  let+ page := wgets dom in
  match forecastContainer page, lastUpdatedDiv page with
  | Some _, Some _ =>
      write_container [LoadingMessage] ;;+
      let+ cachedData := getCachedWeatherData in
      match cachedData with
      | Some entry =>
          match forecastData entry with
          | Some forecast =>
              match daily forecast with
              | Some d =>
                  let+ online := wgets (fun s => onLine (world s)) in
                  let+ now := wgets (fun s => now (world s)) in
                  let isOffline := negb online in
                  write_lastUpdated
                    (status_text (lastFetchedTimestamp entry) now isOffline) ;;+
                  write_container [] ;;+
                  (if isOffline
                   then appendChild (OfflineNotice (lastFetchedTimestamp entry))
                   else wret tt) ;;+
                  let+ days := length_of "time" (time d) in
                  append_days d isOffline (seq 0 days)
              | None =>
                  write_lastUpdated "No cached weather data available." ;;+
                  write_container [NoDataMessage]
              end
          | None =>
              write_lastUpdated "No cached weather data available." ;;+
              write_container [NoDataMessage]
          end
      | None =>
          write_lastUpdated "No cached weather data available." ;;+
          write_container [NoDataMessage]
      end
  | _, _ => wret tt
  end.

(** [fetchAndCacheWeatherData(isManualRefresh)] *)
Definition fetchAndCacheWeatherData (isManualRefresh : bool) : W bool :=
  (if negb isManualRefresh
   then write_lastUpdated_if_found "Fetching live weather data..."
   else wret tt) ;;+
  wtry
    (let+ response := lift (window_fetch (ResString WEATHER_API_URL) no_options) in
     if negb (ok response) then wthrow (HttpError (status response))
     else
       let+ data := (fun s => (json response, s)) in
       match data with
       | Some forecast =>
           match daily forecast with
           | Some _ =>
               let+ timestamp := wgets (fun s => now (world s)) in
               let weatherEntry :=
                 mkEntry 1 NELSHOOGTE_LAT NELSHOOGTE_LON (Some forecast)
                         timestamp in
               db_put weatherEntry ;;+
               displayWeatherData ;;+
               wret true
           | None =>
               write_lastUpdated_if_found
                 "Error: Invalid weather data format from server." ;;+
               wret false
           end
       | None =>
           write_lastUpdated_if_found
             "Error: Invalid weather data format from server." ;;+
           wret false
       end)
    (fun _ =>
       write_lastUpdated_if_found
         "Error fetching live weather. Displaying cached data if available." ;;+
       displayWeatherData ;;+
       wret false).

(** The body of [initWeatherFeature()] after the listeners are set. *)
Definition initWeatherFeature : W unit :=
  displayWeatherData ;;+
  let+ online := wgets (fun s => onLine (world s)) in
  if online then
    wtry (fetchAndCacheWeatherData false ;;+ wret tt) (fun _ => wret tt)
  else
    let+ page := wgets dom in
    match lastUpdatedDiv page with
    | Some currentText =>
        if negb (includes "Offline" currentText)
        then write_lastUpdated (currentText ++ offline_suffix)
        else wret tt
    | None => wret tt
    end.

(** The click listener of the refresh button. *)
Definition on_refresh_click : W bool :=
  write_lastUpdated_if_found "Refreshing weather data manually..." ;;+
  fetchAndCacheWeatherData true.

End Page.

(** Does [daily] hold the four arrays the loop of [displayWeatherData]
    reads? *)
Definition complete (d : Daily) : bool :=
  match time d, weathercode d, temperature_2m_max d, temperature_2m_min d with
  | Some _, Some _, Some _, Some _ => true
  | _, _, _, _ => false
  end.

(** The forecast [displayWeatherData] finds in the table, with the time
    it was stored. *)
Definition cached_daily (database : Database) : option (N * Daily) :=
  if working database then
    match weather_cache database !! 1 with
    | Some entry =>
        match forecastData entry with
        | Some forecast =>
            match daily forecast with
            | Some d => Some (lastFetchedTimestamp entry, d)
            | None => None
            end
        | None => None
        end
    | None => None
    end
  else None.

(** Both elements [displayWeatherData] looks up are on the page. *)
Definition elements_present (page : Dom) : bool :=
  match lastUpdatedDiv page, forecastContainer page with
  | Some _, Some _ => true
  | _, _ => false
  end.

End WeatherOffline.

(* ===================================================================== *)
(** ** Concrete pages and forecasts                                        *)
(* ===================================================================== *)

Module WeatherExamples.

Import WeatherOffline.

(** Two days, the second without a weather code and a minimum. *)
Definition two_days : Daily :=
  mkDaily (Some ["2024-06-01"; "2024-06-02"])
          (Some [WeatherAdvice.Num 1])
          (Some [WeatherAdvice.Num (20 # 1)%Q; WeatherAdvice.Num (30 # 1)%Q])
          (Some [WeatherAdvice.Num (10 # 1)%Q]).

(** A [daily] object without any of the arrays. *)
Definition no_arrays : Daily := mkDaily None None None None.
Definition forecast_without_arrays : ForecastData := mkForecast (Some no_arrays).

Definition two_day_forecast : ForecastData := mkForecast (Some two_days).

Definition stored_entry : WeatherEntry :=
  mkEntry 1 NELSHOOGTE_LAT NELSHOOGTE_LON (Some two_day_forecast) 0.

Definition broken_entry : WeatherEntry :=
  mkEntry 1 NELSHOOGTE_LAT NELSHOOGTE_LON (Some forecast_without_arrays) 0.

(** Both elements present, still empty. *)
Definition blank_page : Dom := mkDom (Some EmptyString) (Some []).

Definition online_without_forecast : App :=
  mkApp good_world_empty (mkDb true ∅) blank_page.
Definition online_with_forecast : App :=
  mkApp good_world_empty (mkDb true {[ 1 := stored_entry ]}) blank_page.
Definition offline_without_forecast : App :=
  mkApp offline_world_stale (mkDb true ∅) blank_page.
Definition offline_with_forecast : App :=
  mkApp offline_world_stale (mkDb true {[ 1 := stored_entry ]}) blank_page.
Definition offline_with_broken_forecast : App :=
  mkApp offline_world_stale (mkDb true {[ 1 := broken_entry ]}) blank_page.

(** A body that parses to the two-day forecast, one that parses to the
    forecast without arrays, and a date format. *)
Definition parses_to_forecast (r : Response) : Settled (option ForecastData) :=
  Done (Some two_day_forecast).
Definition parses_without_arrays (r : Response)
  : Settled (option ForecastData) :=
  Done (Some forecast_without_arrays).
Definition short_date (t : N) : string := "6/1/2024, 12:00:00 AM".

End WeatherExamples.

(* ===================================================================== *)
(** ** The indicator's listeners and timers                                *)
(* ===================================================================== *)

Module IndicatorEvents.

Import NetworkStatusIndicator.

(** The callback of the 5000ms interval of [setupEventListeners()]
    (lines 343-349), run in world [w]. *)
Definition poll (w : World) (st : Indicator) : Indicator :=
  let status := getNetworkStatus w in
  if st_isSlowConnection status && onLine w then updateStatus "slow" st
  else if onLine w && negb (st_isSlowConnection status) then updateStatus "good" st
  else st.

(** The callback of the 2000ms timeout of [checkInitialStatus()]
    (lines 359-369); [handler_loaded] is [window.poorNetworkHandler]. *)
Definition initial_check_fired (handler_loaded : bool) (w : World)
           (st : Indicator) : Indicator :=
  if handler_loaded then
    if st_isSlowConnection (getNetworkStatus w) then updateStatus "slow" st
    else updateStatus "good" st
  else updateStatus "good" st.

(** What can happen to the indicator once it is constructed. *)
Inductive Event :=
| Online                                   (* the window's online event *)
| Offline                                  (* the window's offline event *)
| Poll (w : World)
| InitialCheck (handler_loaded : bool) (w : World)
| CheckedOffline                           (* checkInitialStatus() while offline *)
| HideTimeout.                             (* the 3000ms timeout of 'good' *)

Definition step (ev : Event) (st : Indicator) : Indicator :=
  match ev with
  | Online => updateStatus "online" st
  | Offline => updateStatus "offline" st
  | Poll w => poll w st
  | InitialCheck handler_loaded w => initial_check_fired handler_loaded w st
  | CheckedOffline => updateStatus "offline" st
  | HideTimeout => hide_timeout_fired st
  end.

Definition run (evs : list Event) (st : Indicator) : Indicator :=
  fold_left (fun st ev => step ev st) evs st.

(** The element agrees with the fields: shown, it carries the message and
    colour of the current status; hidden, it is moved out and transparent. *)
Definition consistent (st : Indicator) : Prop :=
  match indicator st with
  | None => False
  | Some el =>
      if isVisible st then
        transform el = "translateY(0)" /\ opacity el = "1" /\
        status_case (currentStatus st)
        = (textContent el, backgroundColor el, true,
           String.eqb (currentStatus st) "good")
      else
        transform el = "translateY(-100px)" /\ opacity el = "0"
  end.

End IndicatorEvents.

(* ===================================================================== *)
(** ** What a computation leaves alone                                     *)
(* ===================================================================== *)

Module Behaviour.

(** The handler's flags, the navigator and the content of the caches are
    the same in [w'] as in [w]. *)
Record Untouched (w w' : World) : Prop := mkUntouched {
  un_handler : handler w' = handler w;
  un_onLine : onLine w' = onLine w;
  un_connection : connection w' = connection w;
  un_available : available (caches w') = available (caches w);
  un_stored : forall name url,
      stored (caches w') name url = stored (caches w) name url
}.

(** A computation that leaves them alone, however it settles. *)
Definition quiet {A} (m : M A) : Prop :=
  forall w, Untouched w (snd (m w)).

(** [needle] occurs in [s]. *)
Definition occurs_in (needle s : string) : Prop :=
  exists before after, s = (before ++ needle ++ after)%string.

End Behaviour.

Export Behaviour.

(* ===================================================================== *)
(** ** Basic facts                                                         *)
(* ===================================================================== *)

Section BasicFacts.

Lemma cache_attempts_app (t1 t2 : list Event) :
  cache_attempts (t1 ++ t2) = (cache_attempts t1 + cache_attempts t2)%nat.
Proof.
  unfold cache_attempts. now rewrite List.filter_app, List.length_app.
Qed.

Lemma cache_attempts_callbacks (ts : list Timer) :
  cache_attempts (map callback_event ts) = 0%nat.
Proof.
  induction ts as [|tm ts IH]; [reflexivity|].
  unfold cache_attempts in *. simpl.
  unfold callback_event at 1. destruct (action tm). simpl. exact IH.
Qed.

Lemma timer_fresh_mono (n m : nat) (tm : Timer) :
  (n <= m)%nat -> timer_fresh n tm = true -> timer_fresh m tm = true.
Proof.
  unfold timer_fresh. destruct (action tm) as [c].
  rewrite !andb_true_iff, !Nat.ltb_lt. lia.
Qed.

Lemma forallb_filter_keep {A} (p q : A -> bool) (l : list A) :
  forallb p l = true -> forallb p (List.filter q l) = true.
Proof.
  induction l as [|a l IH]; simpl; [trivial|].
  rewrite andb_true_iff. intros [Ha Hl].
  destruct (q a); simpl; [rewrite Ha; simpl|]; auto.
Qed.

Lemma forallb_weaken {A} (p q : A -> bool) (l : list A) :
  (forall a, p a = true -> q a = true) ->
  forallb p l = true -> forallb q l = true.
Proof.
  intros Hpq. rewrite !forallb_forall. auto.
Qed.

Lemma stored_insert_empty (cs : gmap string (gmap string Response))
      (name0 name url : string) :
  cs !! name0 = None ->
  stored (mkCaches true (<[name0 := ∅]> cs)) name url
  = stored (mkCaches true cs) name url.
Proof.
  intros Hnone. unfold stored. simpl.
  destruct (decide (name0 = name)) as [->|Hne].
  - rewrite lookup_insert_eq, Hnone. apply lookup_empty.
  - now rewrite lookup_insert_ne.
Qed.

(** A fresh controller is aborted by no pending timer. *)
Lemma abort_time_fresh (n : nat) (ts : list Timer) :
  forallb (timer_fresh n) ts = true -> abort_time n ts = None.
Proof.
  induction ts as [|tm ts IH]; simpl; [trivial|].
  rewrite andb_true_iff. intros [Hf Hts].
  unfold timer_fresh in Hf. destruct (action tm) as [c].
  apply andb_true_iff in Hf as [_ Hc]. apply Nat.ltb_lt in Hc.
  destruct (Nat.eqb_spec c n); [lia|]. auto.
Qed.

(** A controller is not aborted when it is created, and the state of its
    signal changes with its own events only. *)
Lemma aborted_snoc (c : nat) (t : list Event) (e : Event) :
  aborted c (t ++ [e]) = abort_step c (aborted c t) e.
Proof. unfold aborted. now rewrite fold_left_app. Qed.

Lemma aborted_app (c : nat) (t1 t2 : list Event) :
  aborted c (t1 ++ t2) = fold_left (abort_step c) t2 (aborted c t1).
Proof. unfold aborted. now rewrite fold_left_app. Qed.

Lemma effects_refl (w : World) : Effects w w 0 0.
Proof.
  constructor; auto; try lia.
Qed.

Lemma effects_trans (w1 w2 w3 : World) (f1 f2 l1 l2 : nat) :
  Effects w1 w2 f1 l1 -> Effects w2 w3 f2 l2 ->
  Effects w1 w3 (f1 + f2) (l1 + l2).
Proof.
  intros [] []. constructor; try congruence; try lia; auto.
Qed.

Lemma cache_attempts_single (e : Event) :
  cache_attempts [e] = if is_cache_open e then 1%nat else 0%nat.
Proof. unfold cache_attempts. simpl. now destruct (is_cache_open e). Qed.

Lemma timer_fresh_new (n : nat) (t : N) :
  timer_fresh (S (S n)) (mkTimer (S n) t (AbortCtl n)) = true.
Proof.
  unfold timer_fresh. simpl. rewrite andb_true_iff, !Nat.ltb_lt. lia.
Qed.

Lemma fresh_older (n m : nat) (ts : list Timer) :
  (n <= m)%nat ->
  forallb (timer_fresh n) ts = true -> forallb (timer_fresh m) ts = true.
Proof.
  intros Hnm. apply forallb_weaken. intros tm. now apply timer_fresh_mono.
Qed.

End BasicFacts.

(** The guard of line 123 on some URLs: the weather API and an absolute
    URL of the application's own origin skip the smart handling, relative
    URLs and localhost do not. *)
Example skips_weather_api :
  skips_smart_handling "https://api.open-meteo.com/v1/forecast" = true.
Proof. reflexivity. Qed.

Example skips_absolute_same_origin :
  skips_smart_handling "https://queenrose.example/data.json" = true.
Proof. reflexivity. Qed.

Example handles_relative_url : skips_smart_handling "./manifest.json" = false.
Proof. reflexivity. Qed.

Example handles_localhost :
  skips_smart_handling "http://localhost:8000/data.json" = false.
Proof. reflexivity. Qed.

(* ===================================================================== *)
(** ** The blocks of the fetch override                                    *)
(* ===================================================================== *)

#[local] Arguments timer_fresh : simpl never.
#[local] Arguments aborted : simpl never.

(** Ids stay fresh in a world built from [w] by the platform primitives. *)
Ltac fresh_goal :=
  unfold fresh_ids; simpl; intros ?;
  repeat match goal with
         | |- context [if ?c then _ else _] => destruct c; simpl
         end;
  rewrite ?timer_fresh_new; simpl;
  repeat apply forallb_filter_keep;
  first [ assumption | eapply fresh_older; [|eassumption]; lia ].

(** Discharges the fields of [Effects] for such a world. *)
Ltac effects_fields :=
  constructor;
  [ reflexivity | reflexivity | simpl; try reflexivity
  | simpl; try reflexivity
  | simpl; try lia
  | simpl;
    rewrite ?cache_attempts_app, ?cache_attempts_callbacks,
      ?cache_attempts_single; simpl; try lia
  | simpl; try lia | simpl; try lia
  | simpl; intros ? ?; rewrite ?in_app_iff; tauto
  | fresh_goal ].

(** An event emitted on the way is in the final trace. *)
Ltac deadline_set := simpl; rewrite ?in_app_iff; simpl; tauto.

Section Blocks.
Variable env : Env.

(** A cache lookup always returns: what is stored under the URL, or
    nothing when the storage fails.  It takes two storage operations at
    most and touches neither the handler nor the stored responses. *)
Lemma getCachedResponse_run (url : string) (w : World) :
  exists w',
    getCachedResponse env url w = (Returned (cached w url), w') /\
    Effects w w' 0 1 /\
    now w' <= now w + 2 * cache_latency env /\
    next_id w' = next_id w.
Proof.
  unfold getCachedResponse, try_catch, bind, caches_open, cache_match, cached, ret.
  destruct (available (caches w)) eqn:Hav.
  - destruct (stores (caches w) !! CACHE_NAME) eqn:Hst.
    + eexists. split; [reflexivity|]. simpl.
      split; [effects_fields|].
      split; [lia|reflexivity].
    + eexists. split.
      { simpl. unfold stored at 1. simpl.
        rewrite lookup_insert_eq, lookup_empty.
        unfold stored. now rewrite Hst. }
      simpl. split; [effects_fields|].
      * now rewrite Hav.
      * intros name u. now rewrite stored_insert_empty.
      * split; [lia|reflexivity].
  - eexists. split; [reflexivity|]. simpl.
    split; [effects_fields|].
    split; [lia|reflexivity].
Qed.

Lemma cache_first_lookup_run (url : string) (w : World) :
  exists w',
    cache_first_lookup env url w = (Returned (early w url), w') /\
    Effects w w' 0 (early_lookups w) /\
    now w' <= now w + 2 * cache_latency env /\
    next_id w' = next_id w.
Proof.
  unfold cache_first_lookup, bind, gets, early, early_lookups, cache_first.
  destruct (cacheFirstMode (handler w) || isSlowConnection (handler w)).
  - destruct (getCachedResponse_run url w) as (w' & E & He & Hn & Hi).
    exists w'. unfold try_catch. rewrite E. auto.
  - exists w. split; [reflexivity|]. split; [apply effects_refl|].
    split; [lia|reflexivity].
Qed.

(** Any call of the platform's [fetch] is one transport call and no cache
    lookup, however it settles. *)
Lemma platform_fetch_effects (url : string) (opts : Options) (w : World) :
  Effects w (snd (platform_fetch env url opts w)) 1 0.
Proof.
  unfold platform_fetch, bind, fetch_issue, fetch_await. simpl.
  destruct (match signal opts with
            | Some c => aborted c _
            | None => false
            end); [effects_fields|].
  destruct (settles_at _) as [s|];
    destruct (match signal opts with
              | Some c => abort_time c (timers w)
              | None => None
              end) as [a|]; simpl;
    try destruct (s <? a); simpl; effects_fields.
Qed.

(** The network attempt of a resolution, by how the transport behaves:
    [next_id w] is the controller the attempt creates. *)
Lemma network_attempt_responds (resource : Resource) (options : Options)
      (w : World) (l : N) (r : Response) :
  fresh_ids w = true ->
  transport env (net_calls w) = NetResponds l r ->
  l < maxNetworkTimeout ->
  exists w',
    network_attempt env resource options w
    = (Returned (if ok r then Some r else None), w') /\
    Effects w w' 1 0 /\
    now w' = now w + l /\
    In (EvSetTimeout (S (next_id w)) maxNetworkTimeout) (trace w').
Proof.
  intros Hfresh Htr Hl.
  unfold network_attempt, bind, new_AbortController, setTimeout, originalFetch,
    platform_fetch, bind, fetch_issue, fetch_await, clearTimeout, modify.
  simpl. rewrite Htr. simpl. rewrite !aborted_snoc. simpl.
  rewrite Nat.eqb_refl. rewrite (abort_time_fresh _ _ Hfresh).
  destruct (N.ltb_spec (now w + l) (now w + maxNetworkTimeout)); [|lia].
  simpl. destruct (ok r); eexists; (split; [reflexivity|]); simpl;
    (split; [effects_fields|split; [lia|deadline_set]]).
Qed.

Lemma network_attempt_rejects (resource : Resource) (options : Options)
      (w : World) (l : N) (m : string) :
  fresh_ids w = true ->
  transport env (net_calls w) = NetRejects l m ->
  l < maxNetworkTimeout ->
  exists w',
    network_attempt env resource options w = (Thrown (TypeError m), w') /\
    Effects w w' 1 0 /\
    now w' = now w + l /\
    In (EvSetTimeout (S (next_id w)) maxNetworkTimeout) (trace w').
Proof.
  intros Hfresh Htr Hl.
  unfold network_attempt, bind, new_AbortController, setTimeout, originalFetch,
    platform_fetch, bind, fetch_issue, fetch_await, clearTimeout, modify.
  simpl. rewrite Htr. simpl. rewrite !aborted_snoc. simpl.
  rewrite Nat.eqb_refl. rewrite (abort_time_fresh _ _ Hfresh).
  destruct (N.ltb_spec (now w + l) (now w + maxNetworkTimeout)); [|lia].
  simpl. eexists; (split; [reflexivity|]); simpl;
    (split; [effects_fields|split; [lia|deadline_set]]).
Qed.

Lemma network_attempt_times_out (resource : Resource) (options : Options)
      (w : World) :
  fresh_ids w = true ->
  in_time maxNetworkTimeout (transport env (net_calls w)) = false ->
  exists w',
    network_attempt env resource options w = (Thrown AbortError, w') /\
    Effects w w' 1 0 /\
    now w' = now w + maxNetworkTimeout /\
    In (EvAbort (next_id w)) (trace w') /\
    In (EvSetTimeout (S (next_id w)) maxNetworkTimeout) (trace w').
Proof.
  intros Hfresh Hlate.
  unfold network_attempt, bind, new_AbortController, setTimeout, originalFetch,
    platform_fetch, bind, fetch_issue, fetch_await, clearTimeout, modify.
  simpl. rewrite !aborted_snoc. simpl.
  rewrite Nat.eqb_refl. rewrite (abort_time_fresh _ _ Hfresh).
  assert (Hdue : forall ts,
    In (EvAbort (next_id w))
       (map callback_event
          (List.filter (due (N.max (now w) (now w + maxNetworkTimeout)))
             (mkTimer (S (next_id w)) (now w + maxNetworkTimeout)
                (AbortCtl (next_id w)) :: ts)))).
  { intros ts. simpl. unfold due at 1. simpl.
    destruct (N.leb_spec (now w + maxNetworkTimeout)
                (N.max (now w) (now w + maxNetworkTimeout))); [|lia].
    now left. }
  destruct (transport env (net_calls w)) as [l r|l m|]; simpl in Hlate |- *;
    try (apply N.ltb_ge in Hlate;
         destruct (N.ltb_spec (now w + l) (now w + maxNetworkTimeout)); [lia|]);
    (eexists; split; [reflexivity|]; split; [effects_fields|];
     split; [simpl; lia|]; split; [|deadline_set]);
    unfold advance_to, emit at 1; cbn [trace];
    apply in_or_app; right; apply Hdue.
Qed.

Lemma cached_effects (w w' : World) (f l : nat) (url : string) :
  Effects w w' f l -> cached w' url = cached w url.
Proof.
  intros E. unfold cached.
  now rewrite (eff_available _ _ _ _ E), (eff_stored _ _ _ _ E).
Qed.

Lemma cache_fallback_run (url : string) (error : JsError) (w : World) :
  exists w',
    cache_fallback env url error w
    = (match cached w url with
       | Some c => Returned (Some c)
       | None => Thrown error
       end, w') /\
    Effects w w' 0 1 /\
    now w' <= now w + 2 * cache_latency env.
Proof.
  destruct (getCachedResponse_run url w) as (w' & E & He & Hn & _).
  exists w'. unfold cache_fallback, bind, try_catch. rewrite E.
  destruct (cached w url); auto.
Qed.

(** *** The fetch override, case by case *)

Section Resolution.
Variables (resource : Resource) (options : Options) (w : World).
Let url := resource_url resource.
Hypothesis Hsmart : skips_smart_handling url = false.

Lemma smartFetch_hit (c : Response) :
  early w url = Some c ->
  exists w',
    smartFetch env resource options w = (Returned c, w') /\
    Effects w w' 0 1 /\
    now w' <= now w + 2 * cache_latency env.
Proof.
  intros Hearly.
  destruct (cache_first_lookup_run url w) as (w1 & E1 & Eff1 & Hn1 & _).
  exists w1. unfold smartFetch. fold url. rewrite Hsmart.
  unfold bind. rewrite E1, Hearly.
  assert (early_lookups w = 1%nat) as <-; [|auto].
  unfold early, early_lookups in *. now destruct (cache_first w).
Qed.

Hypothesis Hfresh : fresh_ids w = true.
Hypothesis Hearly : early w url = None.

Lemma smartFetch_network_ok (l : N) (r : Response) :
  transport env (net_calls w) = NetResponds l r ->
  l < maxNetworkTimeout ->
  ok r = true ->
  exists w',
    smartFetch env resource options w = (Returned r, w') /\
    Effects w w' 1 (early_lookups w) /\
    now w' <= now w + 2 * cache_latency env + l /\
    In (EvSetTimeout (S (next_id w)) maxNetworkTimeout) (trace w').
Proof.
  intros Htr Hl Hok.
  destruct (cache_first_lookup_run url w) as (w1 & E1 & Eff1 & Hn1 & Hid1).
  assert (Htr1 : transport env (net_calls w1) = NetResponds l r)
    by now rewrite (eff_net _ _ _ _ Eff1), Nat.add_0_r.
  destruct (network_attempt_responds resource options w1 l r
              (eff_fresh _ _ _ _ Eff1 Hfresh) Htr1 Hl)
    as (w2 & E2 & Eff2 & Hn2 & Hset).
  exists w2. unfold smartFetch. fold url. rewrite Hsmart.
  unfold bind, try_catch. rewrite E1, Hearly, E2, Hok.
  split; [reflexivity|]. split; [|split; [lia|now rewrite <- Hid1]].
  replace (early_lookups w) with (early_lookups w + 0)%nat by lia.
  exact (effects_trans _ _ _ _ _ _ _ Eff1 Eff2).
Qed.

Lemma smartFetch_network_not_ok (l : N) (r : Response) :
  transport env (net_calls w) = NetResponds l r ->
  l < maxNetworkTimeout ->
  ok r = false ->
  exists w1,
    smartFetch env resource options w = originalFetch env resource options w1 /\
    Effects w w1 1 (early_lookups w) /\
    now w1 <= now w + 2 * cache_latency env + l /\
    In (EvSetTimeout (S (next_id w)) maxNetworkTimeout) (trace w1).
Proof.
  intros Htr Hl Hok.
  destruct (cache_first_lookup_run url w) as (w1 & E1 & Eff1 & Hn1 & Hid1).
  assert (Htr1 : transport env (net_calls w1) = NetResponds l r)
    by now rewrite (eff_net _ _ _ _ Eff1), Nat.add_0_r.
  destruct (network_attempt_responds resource options w1 l r
              (eff_fresh _ _ _ _ Eff1 Hfresh) Htr1 Hl)
    as (w2 & E2 & Eff2 & Hn2 & Hset).
  exists w2. unfold smartFetch. fold url. rewrite Hsmart.
  unfold bind, try_catch. rewrite E1, Hearly, E2, Hok.
  split; [reflexivity|]. split; [|split; [lia|now rewrite <- Hid1]].
  replace (early_lookups w) with (early_lookups w + 0)%nat by lia.
  exact (effects_trans _ _ _ _ _ _ _ Eff1 Eff2).
Qed.

Lemma smartFetch_network_rejects (l : N) (m : string) :
  transport env (net_calls w) = NetRejects l m ->
  l < maxNetworkTimeout ->
  exists w',
    smartFetch env resource options w
    = (match cached w url with
       | Some c => Returned c
       | None => Thrown (TypeError m)
       end, w') /\
    Effects w w' 1 (early_lookups w + 1) /\
    now w' <= now w + 4 * cache_latency env + l /\
    In (EvSetTimeout (S (next_id w)) maxNetworkTimeout) (trace w').
Proof.
  intros Htr Hl.
  destruct (cache_first_lookup_run url w) as (w1 & E1 & Eff1 & Hn1 & Hid1).
  assert (Htr1 : transport env (net_calls w1) = NetRejects l m)
    by now rewrite (eff_net _ _ _ _ Eff1), Nat.add_0_r.
  destruct (network_attempt_rejects resource options w1 l m
              (eff_fresh _ _ _ _ Eff1 Hfresh) Htr1 Hl)
    as (w2 & E2 & Eff2 & Hn2 & Hset).
  destruct (cache_fallback_run url (TypeError m) w2) as (w3 & E3 & Eff3 & Hn3).
  pose proof (effects_trans _ _ _ _ _ _ _ Eff1 Eff2) as Eff12.
  rewrite (cached_effects _ _ _ _ url Eff12) in E3.
  exists w3. unfold smartFetch. fold url. rewrite Hsmart.
  unfold bind, try_catch. rewrite E1, Hearly, E2, E3.
  split; [now destruct (cached w url)|]. split; [|split; [lia|]].
  - replace 1%nat with (0 + 1 + 0)%nat at 1 by lia.
    replace (early_lookups w + 1)%nat with (early_lookups w + 0 + 1)%nat by lia.
    exact (effects_trans _ _ _ _ _ _ _ Eff12 Eff3).
  - apply (eff_trace _ _ _ _ Eff3). now rewrite <- Hid1.
Qed.

Lemma smartFetch_network_times_out :
  in_time maxNetworkTimeout (transport env (net_calls w)) = false ->
  exists w',
    smartFetch env resource options w
    = (match cached w url with
       | Some c => Returned c
       | None => Thrown AbortError
       end, w') /\
    Effects w w' 1 (early_lookups w + 1) /\
    now w + maxNetworkTimeout <= now w' /\
    now w' <= now w + maxNetworkTimeout + 4 * cache_latency env /\
    In (EvAbort (next_id w)) (trace w') /\
    In (EvSetTimeout (S (next_id w)) maxNetworkTimeout) (trace w').
Proof.
  intros Hlate.
  destruct (cache_first_lookup_run url w) as (w1 & E1 & Eff1 & Hn1 & Hid1).
  assert (Hlate1 : in_time maxNetworkTimeout (transport env (net_calls w1)) = false)
    by now rewrite (eff_net _ _ _ _ Eff1), Nat.add_0_r.
  destruct (network_attempt_times_out resource options w1
              (eff_fresh _ _ _ _ Eff1 Hfresh) Hlate1)
    as (w2 & E2 & Eff2 & Hn2 & Hab & Hset).
  destruct (cache_fallback_run url AbortError w2) as (w3 & E3 & Eff3 & Hn3).
  pose proof (effects_trans _ _ _ _ _ _ _ Eff1 Eff2) as Eff12.
  rewrite (cached_effects _ _ _ _ url Eff12) in E3.
  exists w3. unfold smartFetch. fold url. rewrite Hsmart.
  unfold bind, try_catch. rewrite E1, Hearly, E2, E3.
  split; [now destruct (cached w url)|]. split; [|split; [|split; [|split]]].
  - replace 1%nat with (0 + 1 + 0)%nat at 1 by lia.
    replace (early_lookups w + 1)%nat with (early_lookups w + 0 + 1)%nat by lia.
    exact (effects_trans _ _ _ _ _ _ _ Eff12 Eff3).
  - pose proof (eff_now _ _ _ _ Eff1). pose proof (eff_now _ _ _ _ Eff3). lia.
  - lia.
  - apply (eff_trace _ _ _ _ Eff3). now rewrite <- Hid1.
  - apply (eff_trace _ _ _ _ Eff3). now rewrite <- Hid1.
Qed.

(** The whole table: how many transport calls and cache lookups a
    resolution makes that was not served from the cache at once. *)
Lemma smartFetch_counts :
  let b := transport env (net_calls w) in
  let w' := snd (smartFetch env resource options w) in
  Effects w w'
    (if answered_not_ok b then 2 else 1)
    (early_lookups w + if attempt_failed b then 1 else 0) /\
  In (EvSetTimeout (S (next_id w)) maxNetworkTimeout) (trace w').
Proof.
  intros b w'. subst w'. unfold answered_not_ok, attempt_failed.
  destruct b as [l r|l m|] eqn:Hb; subst b.
  - destruct (N.ltb_spec l maxNetworkTimeout) as [Hl|Hl]; simpl.
    + destruct (ok r) eqn:Hok; simpl.
      * destruct (smartFetch_network_ok l r Hb Hl Hok) as (w' & E & Eff & _ & Hs).
        rewrite E. simpl. now rewrite Nat.add_0_r.
      * destruct (smartFetch_network_not_ok l r Hb Hl Hok)
          as (w1 & E & Eff & _ & Hs).
        rewrite E. rewrite Nat.add_0_r. split.
        -- replace (early_lookups w) with (early_lookups w + 0)%nat by lia.
           exact (effects_trans _ _ _ _ _ _ _ Eff
                    (platform_fetch_effects _ options w1)).
        -- apply (eff_trace _ _ _ _ (platform_fetch_effects _ options w1)), Hs.
    + destruct smartFetch_network_times_out as (w' & E & Eff & _ & _ & _ & Hs).
      { rewrite Hb. simpl. apply N.ltb_ge, Hl. }
      rewrite E. simpl. auto.
  - destruct (N.ltb_spec l maxNetworkTimeout) as [Hl|Hl]; simpl.
    + destruct (smartFetch_network_rejects l m Hb Hl) as (w' & E & Eff & _ & Hs).
      rewrite E. simpl. auto.
    + destruct smartFetch_network_times_out as (w' & E & Eff & _ & _ & _ & Hs).
      { rewrite Hb. simpl. apply N.ltb_ge, Hl. }
      rewrite E. simpl. auto.
  - destruct smartFetch_network_times_out as (w' & E & Eff & _ & _ & _ & Hs).
    { now rewrite Hb. }
    rewrite E. simpl. auto.
Qed.

End Resolution.

End Blocks.

(* ===================================================================== *)
(** ** The connection-quality check                                        *)
(* ===================================================================== *)

Section Monitor.
Variable env : Env.

(** Awaiting the promise of a call of the override is a run of the
    override. *)
Lemma smartFetch_call_spec (resource : Resource) (options : Options) (w : World) :
  (let* promise := smartFetch_call env resource options in promise) w
  = smartFetch env resource options w.
Proof.
  unfold smartFetch_call, smartFetch, originalFetch_call, originalFetch,
    platform_fetch, cache_first_lookup, bind, gets, ret.
  destruct (skips_smart_handling (resource_url resource)); [reflexivity|].
  destruct (cacheFirstMode (handler w) || isSlowConnection (handler w));
    [reflexivity|].
  unfold network_attempt, try_catch, originalFetch, platform_fetch, bind,
    new_AbortController, setTimeout, fetch_issue, ret.
  cbn beta iota. reflexivity.
Qed.

Lemma window_fetch_call_spec (wf : WindowFetch) (resource : Resource)
      (options : Options) (w : World) :
  (let* promise := window_fetch_call env wf resource options in promise) w
  = fetch_through env wf resource options w.
Proof.
  destruct wf; [reflexivity|apply smartFetch_call_spec].
Qed.

(** A call always hands back its promise. *)
Lemma window_fetch_call_returns (wf : WindowFetch) (resource : Resource)
      (options : Options) (w : World) :
  exists promise, fst (window_fetch_call env wf resource options w)
                  = Returned promise.
Proof.
  destruct wf; simpl;
    unfold smartFetch_call, originalFetch_call, bind, gets, ret, fetch_issue,
      new_AbortController, setTimeout; simpl;
    repeat match goal with
           | |- context [if ?c then _ else _] => destruct c
           end; simpl; eexists; reflexivity.
Qed.

(** A call of the override writes none of the handler's flags. *)
Lemma smartFetch_call_handler (resource : Resource) (options : Options)
      (w : World) :
  handler (snd (smartFetch_call env resource options w)) = handler w.
Proof.
  unfold smartFetch_call, originalFetch_call, bind, gets, ret, fetch_issue,
    new_AbortController, setTimeout.
  destruct (skips_smart_handling (resource_url resource)); [reflexivity|].
  simpl.
  destruct (cacheFirstMode (handler w) || isSlowConnection (handler w));
    reflexivity.
Qed.

Lemma checkConnectionQuality_offline (wf : WindowFetch) (w : World) :
  onLine w = false ->
  checkConnectionQuality env wf w
  = (Returned tt, set_handler (mkHandler true true) w).
Proof.
  intros Hoff.
  unfold checkConnectionQuality, checkConnectionQuality_start, bind, gets,
    set_isSlowConnection, set_cacheFirstMode, modify, ret.
  simpl. rewrite Hoff. reflexivity.
Qed.

(** A check made while online, as one run: the controller and the timeout
    of the probe are set up, the [window.fetch] of the moment is run on
    the probe's request, and the check resumes with its settlement. *)
Lemma checkConnectionQuality_online_run (wf : WindowFetch) (w : World) :
  onLine w = true ->
  exists p,
    startTime p = now w /\
    timeoutId p = S (next_id w) /\
    checkConnectionQuality env wf w
    = bind (await_settlement
              (fetch_through env wf (ResString "./manifest.json")
                            (probe_options (next_id w))))
           (checkConnectionQuality_resume p)
           (snd (bind new_AbortController
                   (fun c => setTimeout (AbortCtl c) connectionCheckTimeout) w)).
Proof.
  intros Hon.
  set (w1 := snd (bind new_AbortController
                    (fun c => setTimeout (AbortCtl c) connectionCheckTimeout) w)).
  pose proof (window_fetch_call_spec wf (ResString "./manifest.json")
                (probe_options (next_id w)) w1) as Hcall.
  destruct (window_fetch_call_returns wf (ResString "./manifest.json")
              (probe_options (next_id w)) w1) as [promise Hp].
  exists (mkProbe (now w) (S (next_id w)) promise).
  split; [reflexivity|]. split; [reflexivity|].
  unfold checkConnectionQuality, checkConnectionQuality_start, bind, gets, ret,
    await_settlement in *.
  rewrite Hon. simpl.
  change (snd (setTimeout (AbortCtl (next_id w)) connectionCheckTimeout
                 (snd (new_AbortController w)))) with w1 in *.
  unfold new_AbortController, setTimeout in *. simpl in *.
  fold w1.
  destruct (window_fetch_call env wf (ResString "./manifest.json")
              (probe_options (next_id w)) w1) as [o w2].
  simpl in Hp. subst o. simpl. now rewrite <- Hcall.
Qed.

(** The check of line 21, made before the override is installed. *)
Lemma checkConnectionQuality_online (w : World) :
  onLine w = true ->
  fresh_ids w = true ->
  exists w',
    checkConnectionQuality env OriginalFetch w = (Returned tt, w') /\
    handler w' = (if probe_good (transport env (net_calls w))
                  then mkHandler false false else mkHandler true true) /\
    onLine w' = true /\
    net_calls w' = S (net_calls w) /\
    In (EvFetch "./manifest.json" (probe_options (next_id w))) (trace w').
Proof.
  intros Hon Hfresh.
  unfold checkConnectionQuality, checkConnectionQuality_start,
    checkConnectionQuality_resume, window_fetch_call, originalFetch_call,
    await_settlement, bind, gets, try_catch,
    settle, new_AbortController, setTimeout, fetch_issue, fetch_await,
    clearTimeout, modify, set_isSlowConnection, set_cacheFirstMode, ret.
  simpl. rewrite Hon. simpl. rewrite !aborted_snoc. simpl.
  rewrite Nat.eqb_refl.
  rewrite (abort_time_fresh _ _ Hfresh).
  destruct (transport env (net_calls w)) as [l r|l m|]; simpl.
  - destruct (N.ltb_spec (now w + l) (now w + connectionCheckTimeout)); simpl.
    + replace (N.max (now w) (now w + l) - now w) with l by lia.
      destruct (ok r && (l <? 1000)); simpl;
        eexists; (split; [reflexivity|]); simpl;
        repeat split; auto; deadline_set.
    + destruct (N.ltb_spec l 1000); [unfold connectionCheckTimeout in *; lia|].
      rewrite andb_false_r.
      eexists; (split; [reflexivity|]); simpl;
        repeat split; auto; deadline_set.
  - destruct (now w + l <? now w + connectionCheckTimeout); simpl;
      eexists; (split; [reflexivity|]); simpl;
      repeat split; auto; deadline_set.
  - eexists; (split; [reflexivity|]); simpl;
      repeat split; auto; deadline_set.
Qed.

(** A check made after the override is installed, in cache-first mode with
    a copy of the manifest in the cache: the probe is answered by the
    cache, and the platform's [fetch] is not called. *)
Lemma checkConnectionQuality_served_from_cache (w : World) (r : Response) :
  onLine w = true ->
  cache_first w = true ->
  cached w "./manifest.json" = Some r ->
  exists w',
    checkConnectionQuality env SmartFetch w = (Returned tt, w') /\
    handler w' = (if ok r && (now w' - now w <? 1000)
                  then mkHandler false false else mkHandler true true) /\
    onLine w' = true /\
    net_calls w' = net_calls w /\
    now w' <= now w + 2 * cache_latency env.
Proof.
  intros Hon Hmode Hcopy.
  destruct (checkConnectionQuality_online_run SmartFetch w Hon)
    as (p & Hstart & Hid & ->).
  set (w1 := snd (bind new_AbortController
                    (fun c => setTimeout (AbortCtl c) connectionCheckTimeout) w)).
  assert (Hearly : early w1 (resource_url (ResString "./manifest.json")) = Some r).
  { unfold early, cache_first, cached in *. subst w1. simpl.
    unfold cache_first in Hmode. simpl in Hmode. now rewrite Hmode. }
  destruct (smartFetch_hit env (ResString "./manifest.json")
              (probe_options (next_id w)) w1 eq_refl r Hearly)
    as (w2 & E & Eff & Hnow).
  unfold bind, await_settlement, fetch_through. rewrite E.
  unfold checkConnectionQuality_resume, try_catch, bind, settle, clearTimeout,
    modify, gets, set_isSlowConnection, set_cacheFirstMode.
  simpl. rewrite Hstart.
  assert (Hon2 : onLine w2 = true) by now rewrite (eff_onLine _ _ _ _ Eff).
  assert (Hnet : net_calls w2 = net_calls w)
    by (rewrite (eff_net _ _ _ _ Eff); simpl; lia).
  assert (Hn1 : now w1 = now w) by reflexivity.
  destruct (ok r && (now w2 - now w <? 1000)) eqn:Hverdict;
    eexists; (split; [reflexivity|]); simpl;
    rewrite Hon2, Hnet, Hverdict; repeat split; lia.
Qed.

(** The start of a check writes the flags only when the platform reports
    offline. *)
Lemma checkConnectionQuality_start_handler (wf : WindowFetch) (w : World) :
  handler (snd (checkConnectionQuality_start env wf w))
  = if onLine w then handler w else mkHandler true true.
Proof.
  unfold checkConnectionQuality_start, bind, gets, set_isSlowConnection,
    set_cacheFirstMode, modify, ret.
  destruct (onLine w); simpl; [|reflexivity].
  unfold new_AbortController, setTimeout. simpl.
  match goal with
  | |- context [window_fetch_call env wf ?r ?o ?w1] =>
      assert (H : handler (snd (window_fetch_call env wf r o w1)) = handler w);
      [|destruct (window_fetch_call env wf r o w1) as [[promise|e|] w2];
        exact H]
  end.
  destruct wf; simpl; [reflexivity|].
  now rewrite smartFetch_call_handler.
Qed.

End Monitor.

(* ===================================================================== *)
(** ** Properties of the fetch override                                    *)
(* ===================================================================== *)

(** C1, as stated, fails: with an empty cache and a transport that answers
    200 after 200ms, the resolution returns the network response, and a
    cache lookup made right after it still finds nothing. *)
Lemma C1_network_response_is_not_stored :
  fst (smartFetch (answers_after 200 fresh_response) (ResString data_json)
         no_options good_world_empty)
  = Returned fresh_response /\
  fst (getCachedResponse (answers_after 200 fresh_response) data_json
         (snd (smartFetch (answers_after 200 fresh_response)
                 (ResString data_json) no_options good_world_empty)))
  = Returned None.
Proof. vm_compute. split; reflexivity. Qed.

(** C1 (amended): when the network attempt of a resolution is answered
    with an ok response before the deadline, the resolution returns that
    response and leaves the cache as it was: every lookup made right after
    it finds what it would have found before. *)
Theorem C1_network_success_returned_cache_untouched
        (env : Env) (resource : Resource) (options : Options) (w : World)
        (l : N) (r : Response) :
  skips_smart_handling (resource_url resource) = false ->
  fresh_ids w = true ->
  early w (resource_url resource) = None ->
  transport env (net_calls w) = NetResponds l r ->
  l < maxNetworkTimeout ->
  ok r = true ->
  fst (smartFetch env resource options w) = Returned r /\
  forall url,
    fst (getCachedResponse env url (snd (smartFetch env resource options w)))
    = fst (getCachedResponse env url w).
Proof.
  intros Hsmart Hfresh Hearly Htr Hl Hok.
  destruct (smartFetch_network_ok env resource options w Hsmart Hfresh Hearly
              l r Htr Hl Hok) as (w' & E & Eff & _).
  rewrite E. simpl. split; [reflexivity|]. intros url.
  destruct (getCachedResponse_run env url w') as (? & -> & _).
  destruct (getCachedResponse_run env url w) as (? & -> & _).
  simpl. now rewrite (cached_effects _ _ _ _ url Eff).
Qed.

Lemma C1_network_success_witness :
  fst (smartFetch (answers_after 500 fresh_response) (ResString data_json)
         no_options slow_world_empty)
  = Returned fresh_response /\
  forall url,
    fst (getCachedResponse (answers_after 500 fresh_response) url
           (snd (smartFetch (answers_after 500 fresh_response)
                   (ResString data_json) no_options slow_world_empty)))
    = fst (getCachedResponse (answers_after 500 fresh_response) url
             slow_world_empty).
Proof.
  apply (C1_network_success_returned_cache_untouched
           (answers_after 500 fresh_response) (ResString data_json) no_options
           slow_world_empty 500 fresh_response);
    reflexivity.
Defined.

(** C2, as stated, fails: in good mode, when the transport answers the
    first call with a 500, the resolution never consults the cache and
    issues two network fetches. *)
Lemma C2_second_fetch_after_error_status :
  net_calls good_world_stale = 0%nat /\
  net_calls (snd (smartFetch error_then_silence (ResString data_json)
                    no_options good_world_stale))
  = 2%nat /\
  cache_attempts
    (trace (snd (smartFetch error_then_silence (ResString data_json)
                   no_options good_world_stale)))
  = 0%nat.
Proof. vm_compute. repeat split; reflexivity. Qed.

(** C2 (amended): a resolution served from the cache at once makes one
    cache lookup and no network fetch.  Otherwise the network is attempted;
    if that attempt rejects or is aborted at the deadline, the cache is
    looked up exactly once more as fallback and no further network fetch is
    issued; if it is answered with an ok response nothing else is tried; if
    it is answered with a status that is not ok, no cache fallback is made
    and a second network fetch is issued as last resort.  A resolution thus
    issues at most two network fetches, and exactly one unless the first
    answer is not ok. *)
Theorem C2_fallback_hops
        (env : Env) (resource : Resource) (options : Options) (w : World) :
  skips_smart_handling (resource_url resource) = false ->
  fresh_ids w = true ->
  let b := transport env (net_calls w) in
  let w' := snd (smartFetch env resource options w) in
  let fetches := (net_calls w' - net_calls w)%nat in
  let lookups := (cache_attempts (trace w') - cache_attempts (trace w))%nat in
  match early w (resource_url resource) with
  | Some _ => fetches = 0%nat /\ lookups = 1%nat
  | None =>
      fetches = (if answered_not_ok b then 2 else 1)%nat /\
      lookups = (early_lookups w + if attempt_failed b then 1 else 0)%nat
  end /\
  (fetches <= 2)%nat.
Proof.
  intros Hsmart Hfresh b w' fetches lookups.
  subst fetches lookups w' b.
  destruct (early w (resource_url resource)) as [c|] eqn:Hearly.
  - destruct (smartFetch_hit env resource options w Hsmart c Hearly)
      as (w' & E & Eff & _).
    rewrite E. simpl.
    rewrite (eff_net _ _ _ _ Eff), (eff_lookups _ _ _ _ Eff). lia.
  - destruct (smartFetch_counts env resource options w Hsmart Hfresh Hearly)
      as [Eff _].
    rewrite (eff_net _ _ _ _ Eff), (eff_lookups _ _ _ _ Eff).
    destruct (answered_not_ok _), (attempt_failed _); lia.
Qed.

Lemma C2_fallback_hops_witness :
  ((net_calls (snd (smartFetch dns_failure (ResString data_json) no_options
                      slow_world_empty))
    - net_calls slow_world_empty = 1)%nat /\
   (cache_attempts
      (trace (snd (smartFetch dns_failure (ResString data_json) no_options
                     slow_world_empty)))
    - cache_attempts (trace slow_world_empty) = 1 + 1)%nat) /\
  (net_calls (snd (smartFetch dns_failure (ResString data_json) no_options
                     slow_world_empty))
   - net_calls slow_world_empty <= 2)%nat.
Proof.
  exact (C2_fallback_hops dns_failure (ResString data_json) no_options
           slow_world_empty eq_refl eq_refl).
Defined.

(** C4, as stated, fails: when the first call is answered with a 500 after
    100ms and the transport stays silent afterwards, the resolution never
    settles. *)
Lemma C4_last_resort_fetch_can_hang :
  fst (smartFetch error_then_silence (ResString data_json) no_options
         good_world_stale)
  = Pending.
Proof. vm_compute. reflexivity. Qed.

(** C4 (amended): when the network attempt of a resolution has not settled
    within the deadline of 3000ms, its controller is aborted and the
    resolution settles, with the cached response or else with the abort
    failure, no later than the deadline plus four cache operations after it
    was called, whether or not the transport ever answers.  A resolution
    can stay pending only in the last-resort fetch, which has no deadline:
    after a first answer, in time, whose status is not ok. *)
Theorem C4_deadline_unblocks
        (env : Env) (resource : Resource) (options : Options) (w : World) :
  skips_smart_handling (resource_url resource) = false ->
  fresh_ids w = true ->
  (early w (resource_url resource) = None ->
   in_time maxNetworkTimeout (transport env (net_calls w)) = false ->
   fst (smartFetch env resource options w)
   = match cached w (resource_url resource) with
     | Some c => Returned c
     | None => Thrown AbortError
     end /\
   In (EvAbort (next_id w)) (trace (snd (smartFetch env resource options w))) /\
   now (snd (smartFetch env resource options w))
   <= now w + maxNetworkTimeout + 4 * cache_latency env) /\
  (fst (smartFetch env resource options w) = Pending ->
   early w (resource_url resource) = None /\
   answered_not_ok (transport env (net_calls w)) = true).
Proof.
  intros Hsmart Hfresh. split.
  - intros Hearly Hlate.
    destruct (smartFetch_network_times_out env resource options w
                Hsmart Hfresh Hearly Hlate) as (w' & E & _ & _ & Hn & Hab & _).
    rewrite E. simpl. auto.
  - destruct (early w (resource_url resource)) as [c|] eqn:Hearly.
    { destruct (smartFetch_hit env resource options w Hsmart c Hearly)
        as (w' & E & _).
      rewrite E. discriminate. }
    intros Hp. split; [reflexivity|].
    unfold answered_not_ok.
    destruct (transport env (net_calls w)) as [l r|l m|] eqn:Htr.
    + destruct (N.ltb_spec l maxNetworkTimeout) as [Hl|Hl]; simpl.
      * destruct (ok r) eqn:Hok; [|reflexivity].
        destruct (smartFetch_network_ok env resource options w
                    Hsmart Hfresh Hearly l r Htr Hl Hok) as (w' & E & _).
        rewrite E in Hp. discriminate.
      * destruct (smartFetch_network_times_out env resource options w
                    Hsmart Hfresh Hearly) as (w' & E & _).
        { rewrite Htr. simpl. apply N.ltb_ge, Hl. }
        rewrite E in Hp. simpl in Hp. destruct (cached w _); discriminate.
    + destruct (N.ltb_spec l maxNetworkTimeout) as [Hl|Hl].
      * destruct (smartFetch_network_rejects env resource options w
                    Hsmart Hfresh Hearly l m Htr Hl) as (w' & E & _).
        rewrite E in Hp. simpl in Hp. destruct (cached w _); discriminate.
      * destruct (smartFetch_network_times_out env resource options w
                    Hsmart Hfresh Hearly) as (w' & E & _).
        { rewrite Htr. simpl. apply N.ltb_ge, Hl. }
        rewrite E in Hp. simpl in Hp. destruct (cached w _); discriminate.
    + destruct (smartFetch_network_times_out env resource options w
                  Hsmart Hfresh Hearly) as (w' & E & _).
      { now rewrite Htr. }
      rewrite E in Hp. simpl in Hp. destruct (cached w _); discriminate.
Qed.

Lemma C4_deadline_unblocks_witness :
  (fst (smartFetch never_answers (ResString data_json) no_options
          good_world_stale)
   = Returned stale_response /\
   In (EvAbort 0)
      (trace (snd (smartFetch never_answers (ResString data_json) no_options
                     good_world_stale))) /\
   now (snd (smartFetch never_answers (ResString data_json) no_options
               good_world_stale))
   <= 0 + 3000 + 4 * 5) /\
  answered_not_ok (transport error_then_silence 0) = true.
Proof.
  split.
  - exact (proj1 (C4_deadline_unblocks never_answers (ResString data_json)
                    no_options good_world_stale eq_refl eq_refl)
             eq_refl eq_refl).
  - exact (proj2 (proj2 (C4_deadline_unblocks error_then_silence
                           (ResString data_json) no_options good_world_stale
                           eq_refl eq_refl)
                    eq_refl)).
Defined.

(** C5, as stated, fails: in cache-first mode, with an entry in the cache
    under its URL, a request for an absolute same-origin URL (and so any
    [Request] object) is handed to the platform's fetch by the guard of
    line 123: it returns the network response, after one network call. *)
Lemma C5_absolute_url_skips_the_cache :
  cache_first slow_world_absolute = true /\
  cached slow_world_absolute absolute_data_json = Some stale_response /\
  fst (smartFetch (answers_after 200 fresh_response)
         (ResRequest absolute_data_json) no_options slow_world_absolute)
  = Returned fresh_response /\
  net_calls (snd (smartFetch (answers_after 200 fresh_response)
                    (ResRequest absolute_data_json) no_options
                    slow_world_absolute))
  = S (net_calls slow_world_absolute) /\
  fresh_response <> stale_response.
Proof. vm_compute. repeat split; try reflexivity. discriminate. Qed.

(** C5 (amended): in cache-first mode, a resolution the guard of line 123
    does not pass through and whose URL has a cache entry returns that
    entry and issues no network call; when the lookup misses, the
    resolution goes on to the network attempt: a deadline is set, the
    transport is called, and an ok answer in time is what it returns. *)
Theorem C5_cache_first_hit_or_fall_through
        (env : Env) (resource : Resource) (options : Options) (w : World) :
  skips_smart_handling (resource_url resource) = false ->
  cache_first w = true ->
  (forall c,
      cached w (resource_url resource) = Some c ->
      fst (smartFetch env resource options w) = Returned c /\
      net_calls (snd (smartFetch env resource options w)) = net_calls w) /\
  (cached w (resource_url resource) = None ->
   fresh_ids w = true ->
   (net_calls w < net_calls (snd (smartFetch env resource options w)))%nat /\
   In (EvSetTimeout (S (next_id w)) maxNetworkTimeout)
      (trace (snd (smartFetch env resource options w))) /\
   forall l r,
     transport env (net_calls w) = NetResponds l r ->
     l < maxNetworkTimeout ->
     ok r = true ->
     fst (smartFetch env resource options w) = Returned r).
Proof.
  intros Hsmart Hmode. split.
  - intros c Hc.
    assert (Hearly : early w (resource_url resource) = Some c)
      by (unfold early; now rewrite Hmode).
    destruct (smartFetch_hit env resource options w Hsmart c Hearly)
      as (w' & E & Eff & _).
    rewrite E. simpl. rewrite (eff_net _ _ _ _ Eff). auto.
  - intros Hmiss Hfresh.
    assert (Hearly : early w (resource_url resource) = None)
      by (unfold early; now rewrite Hmode).
    destruct (smartFetch_counts env resource options w Hsmart Hfresh Hearly)
      as [Eff Hset].
    split; [|split; [exact Hset|]].
    + rewrite (eff_net _ _ _ _ Eff). destruct (answered_not_ok _); lia.
    + intros l r Htr Hl Hok.
      destruct (smartFetch_network_ok env resource options w Hsmart Hfresh
                  Hearly l r Htr Hl Hok) as (w' & E & _).
      now rewrite E.
Qed.

Lemma C5_cache_first_witness :
  (fst (smartFetch never_answers (ResString data_json) no_options
          offline_world_stale)
   = Returned stale_response /\
   net_calls (snd (smartFetch never_answers (ResString data_json) no_options
                     offline_world_stale))
   = net_calls offline_world_stale) /\
  (net_calls slow_world_empty
   < net_calls (snd (smartFetch (answers_after 500 fresh_response)
                       (ResString data_json) no_options slow_world_empty)))%nat /\
  fst (smartFetch (answers_after 500 fresh_response) (ResString data_json)
         no_options slow_world_empty)
  = Returned fresh_response.
Proof.
  split; [|split].
  - exact (proj1 (C5_cache_first_hit_or_fall_through never_answers
                    (ResString data_json) no_options offline_world_stale
                    eq_refl eq_refl)
             stale_response eq_refl).
  - exact (proj1 (proj2 (C5_cache_first_hit_or_fall_through
                           (answers_after 500 fresh_response)
                           (ResString data_json) no_options slow_world_empty
                           eq_refl eq_refl)
                    eq_refl eq_refl)).
  - exact (proj2 (proj2 (proj2 (C5_cache_first_hit_or_fall_through
                                  (answers_after 500 fresh_response)
                                  (ResString data_json) no_options
                                  slow_world_empty eq_refl eq_refl)
                           eq_refl eq_refl))
             500 fresh_response eq_refl eq_refl eq_refl).
Defined.

(** C6: when the network attempt of a resolution rejects with a transport
    error and the fallback lookup finds nothing, the resolution rejects
    with that very error; when the deadline aborted the attempt and the
    fallback lookup finds nothing, it rejects with the abort failure, which
    is no transport error. *)
Theorem C6_failure_surfaced_after_fallback_miss
        (env : Env) (resource : Resource) (options : Options) (w : World) :
  skips_smart_handling (resource_url resource) = false ->
  fresh_ids w = true ->
  cached w (resource_url resource) = None ->
  (forall l m,
      transport env (net_calls w) = NetRejects l m ->
      l < maxNetworkTimeout ->
      fst (smartFetch env resource options w) = Thrown (TypeError m)) /\
  (in_time maxNetworkTimeout (transport env (net_calls w)) = false ->
   fst (smartFetch env resource options w) = Thrown AbortError /\
   forall m, fst (smartFetch env resource options w) <> Thrown (TypeError m)).
Proof.
  intros Hsmart Hfresh Hmiss.
  assert (Hearly : early w (resource_url resource) = None)
    by (unfold early; destruct (cache_first w); auto).
  split.
  - intros l m Htr Hl.
    destruct (smartFetch_network_rejects env resource options w Hsmart Hfresh
                Hearly l m Htr Hl) as (w' & E & _).
    rewrite E, Hmiss. reflexivity.
  - intros Hlate.
    destruct (smartFetch_network_times_out env resource options w Hsmart
                Hfresh Hearly Hlate) as (w' & E & _).
    rewrite E, Hmiss. simpl. split; [reflexivity|discriminate].
Qed.

Lemma C6_failure_surfaced_witness :
  fst (smartFetch dns_failure (ResString data_json) no_options good_world_empty)
  = Thrown (TypeError "Failed to fetch") /\
  fst (smartFetch never_answers (ResString data_json) no_options
         good_world_empty)
  = Thrown AbortError.
Proof.
  split.
  - exact (proj1 (C6_failure_surfaced_after_fallback_miss dns_failure
                    (ResString data_json) no_options good_world_empty
                    eq_refl eq_refl eq_refl)
             100 "Failed to fetch" eq_refl eq_refl).
  - exact (proj1 (proj2 (C6_failure_surfaced_after_fallback_miss never_answers
                           (ResString data_json) no_options good_world_empty
                           eq_refl eq_refl eq_refl)
                    eq_refl)).
Defined.

(** C10: a request whose URL contains 'open-meteo.com', or starts with
    'http' and does not contain 'localhost', is handed to the platform's
    fetch as it is, with the caller's own options: one transport call, no
    cache lookup, no controller and no timeout.  A URL outside this set
    gets the policy: the cache is looked up or a deadline is set. *)
Theorem C10_external_requests_pass_through
        (env : Env) (resource : Resource) (options : Options) (w : World) :
  (includes "open-meteo.com" (resource_url resource) = true \/
   (startsWith "http" (resource_url resource) = true /\
    includes "localhost" (resource_url resource) = false) ->
   smartFetch env resource options w
   = platform_fetch env (resource_url resource) options w /\
   net_calls (snd (smartFetch env resource options w)) = S (net_calls w) /\
   In (EvFetch (resource_url resource) options)
      (trace (snd (smartFetch env resource options w))) /\
   cache_attempts (trace (snd (smartFetch env resource options w)))
   = cache_attempts (trace w) /\
   next_id (snd (smartFetch env resource options w)) = next_id w) /\
  (includes "open-meteo.com" (resource_url resource) = false ->
   startsWith "http" (resource_url resource) = false \/
   includes "localhost" (resource_url resource) = true ->
   fresh_ids w = true ->
   (cache_attempts (trace w)
    < cache_attempts (trace (snd (smartFetch env resource options w))))%nat \/
   In (EvSetTimeout (S (next_id w)) maxNetworkTimeout)
      (trace (snd (smartFetch env resource options w)))).
Proof.
  split.
  - intros Hext.
    assert (Hskip : skips_smart_handling (resource_url resource) = true).
    { unfold skips_smart_handling.
      destruct Hext as [-> | [-> ->]]; [reflexivity|apply orb_true_r]. }
    assert (E : smartFetch env resource options w
                = platform_fetch env (resource_url resource) options w).
    { unfold smartFetch. now rewrite Hskip. }
    rewrite E. split; [reflexivity|].
    pose proof (platform_fetch_effects env (resource_url resource) options w)
      as Eff.
    split; [rewrite (eff_net _ _ _ _ Eff); lia|].
    split; [|split; [rewrite (eff_lookups _ _ _ _ Eff); lia|]].
    + unfold platform_fetch, bind, fetch_issue, fetch_await. simpl.
      destruct (match signal options with
                | Some c => aborted c _
                | None => false
                end); simpl; [rewrite in_app_iff; simpl; tauto|].
      destruct (settles_at _) as [t|];
        destruct (match signal options with
                  | Some c => abort_time c (timers w)
                  | None => None
                  end) as [a|]; simpl;
        try destruct (t <? a); simpl; rewrite ?in_app_iff; simpl; tauto.
    + unfold platform_fetch, bind, fetch_issue, fetch_await. simpl.
      destruct (match signal options with
                | Some c => aborted c _
                | None => false
                end); simpl; [reflexivity|].
      destruct (settles_at _) as [t|];
        destruct (match signal options with
                  | Some c => abort_time c (timers w)
                  | None => None
                  end) as [a|]; simpl;
        try destruct (t <? a); reflexivity.
  - intros Hmeteo Hlocal Hfresh.
    assert (Hsmart : skips_smart_handling (resource_url resource) = false).
    { unfold skips_smart_handling. rewrite Hmeteo.
      destruct Hlocal as [-> | ->]; [reflexivity|apply andb_false_r]. }
    destruct (early w (resource_url resource)) as [c|] eqn:Hearly.
    + left.
      destruct (smartFetch_hit env resource options w Hsmart c Hearly)
        as (w' & E & Eff & _).
      rewrite E. simpl. rewrite (eff_lookups _ _ _ _ Eff). lia.
    + right.
      apply (smartFetch_counts env resource options w Hsmart Hfresh Hearly).
Qed.

Lemma C10_pass_through_witness :
  smartFetch never_answers (ResString "https://queenrose.example/data.json")
    no_options offline_world_stale
  = platform_fetch never_answers "https://queenrose.example/data.json"
      no_options offline_world_stale /\
  ((cache_attempts (trace offline_world_stale)
    < cache_attempts
        (trace (snd (smartFetch never_answers (ResString data_json)
                       no_options offline_world_stale))))%nat \/
   In (EvSetTimeout 1 maxNetworkTimeout)
      (trace (snd (smartFetch never_answers (ResString data_json) no_options
                     offline_world_stale)))).
Proof.
  split.
  - exact (proj1 (proj1 (C10_external_requests_pass_through never_answers
                           (ResString "https://queenrose.example/data.json")
                           no_options offline_world_stale)
                    (or_intror (conj eq_refl eq_refl)))).
  - exact (proj2 (C10_external_requests_pass_through never_answers
                    (ResString data_json) no_options offline_world_stale)
             eq_refl (or_introl eq_refl) eq_refl).
Defined.

(** C3: the claim is that the timeout of a resolution, and of a probe, is
    cleared on every exit path.  The code clears it only after the fetch
    has answered: when the transport rejects after 100ms, the resolution
    settles at 110ms, with the cached response or with the failure, and
    the probe of the first check ends at 100ms, each with its timeout
    still pending; a later check, whose probe is a resolution of the
    override, ends at 110ms with both timeouts pending.  On the success
    path the timeouts are gone. *)
Theorem C3_timeout_left_pending_after_transport_error :
  (fst (smartFetch dns_failure (ResString data_json) no_options good_world_stale)
   = Returned stale_response /\
   now (snd (smartFetch dns_failure (ResString data_json) no_options
               good_world_stale)) = 110 /\
   timers (snd (smartFetch dns_failure (ResString data_json) no_options
                  good_world_stale))
   = [mkTimer 1 3000 (AbortCtl 0)]) /\
  (fst (smartFetch dns_failure (ResString data_json) no_options good_world_empty)
   = Thrown (TypeError "Failed to fetch") /\
   now (snd (smartFetch dns_failure (ResString data_json) no_options
               good_world_empty)) = 110 /\
   timers (snd (smartFetch dns_failure (ResString data_json) no_options
                  good_world_empty))
   = [mkTimer 1 3000 (AbortCtl 0)]) /\
  (fst (checkConnectionQuality dns_failure OriginalFetch good_world_empty)
   = Returned tt /\
   now (snd (checkConnectionQuality dns_failure OriginalFetch good_world_empty))
   = 100 /\
   timers (snd (checkConnectionQuality dns_failure OriginalFetch good_world_empty))
   = [mkTimer 1 1500 (AbortCtl 0)]) /\
  (fst (checkConnectionQuality dns_failure SmartFetch good_world_empty)
   = Returned tt /\
   now (snd (checkConnectionQuality dns_failure SmartFetch good_world_empty))
   = 110 /\
   timers (snd (checkConnectionQuality dns_failure SmartFetch good_world_empty))
   = [mkTimer 3 3000 (AbortCtl 2); mkTimer 1 1500 (AbortCtl 0)]) /\
  timers (snd (smartFetch (answers_after 200 fresh_response)
                 (ResString data_json) no_options good_world_empty)) = [] /\
  timers (snd (checkConnectionQuality (answers_after 200 fresh_response)
                 OriginalFetch good_world_empty)) = [] /\
  timers (snd (checkConnectionQuality (answers_after 200 fresh_response)
                 SmartFetch good_world_empty)) = [].
Proof. vm_compute. repeat split; reflexivity. Qed.

(* ===================================================================== *)
(** ** Properties of the connection-quality check                          *)
(* ===================================================================== *)

(** The check of line 21, made before the override is installed: while
    the platform reports offline it marks the connection slow and
    cache-first at once, which the indicator reads as offline, and issues
    no probe.  Otherwise one probe is issued: an ok answer in under 1000ms
    marks the connection good; a probe aborted at its 1500ms timeout, a
    transport error, or an answer after 1000ms or more marks it slow.  The
    check itself never rejects. *)
Theorem first_quality_check_classifies (env : Env) (w : World) :
  (onLine w = false ->
   fst (checkConnectionQuality env OriginalFetch w) = Returned tt /\
   handler (snd (checkConnectionQuality env OriginalFetch w)) = mkHandler true true /\
   NetworkStatusIndicator.status_of
     (getNetworkStatus (snd (checkConnectionQuality env OriginalFetch w)))
   = "offline" /\
   net_calls (snd (checkConnectionQuality env OriginalFetch w)) = net_calls w /\
   trace (snd (checkConnectionQuality env OriginalFetch w)) = trace w) /\
  (onLine w = true ->
   fresh_ids w = true ->
   fst (checkConnectionQuality env OriginalFetch w) = Returned tt /\
   net_calls (snd (checkConnectionQuality env OriginalFetch w)) = S (net_calls w) /\
   In (EvFetch "./manifest.json" (probe_options (next_id w)))
      (trace (snd (checkConnectionQuality env OriginalFetch w))) /\
   (forall l r,
       transport env (net_calls w) = NetResponds l r ->
       ok r = true ->
       l < 1000 ->
       handler (snd (checkConnectionQuality env OriginalFetch w))
       = mkHandler false false /\
       NetworkStatusIndicator.status_of
         (getNetworkStatus (snd (checkConnectionQuality env OriginalFetch w)))
       = "good") /\
   (in_time connectionCheckTimeout (transport env (net_calls w)) = false \/
    (exists l m, transport env (net_calls w) = NetRejects l m) \/
    (exists l r, transport env (net_calls w) = NetResponds l r /\ 1000 <= l) ->
    handler (snd (checkConnectionQuality env OriginalFetch w))
    = mkHandler true true /\
    NetworkStatusIndicator.status_of
      (getNetworkStatus (snd (checkConnectionQuality env OriginalFetch w)))
    = "slow")).
Proof.
  split.
  - intros Hoff. rewrite (checkConnectionQuality_offline env _ w Hoff). simpl.
    unfold NetworkStatusIndicator.status_of. simpl. rewrite Hoff. auto.
  - intros Hon Hfresh.
    destruct (checkConnectionQuality_online env w Hon Hfresh)
      as (w' & E & Hh & Hon' & Hnet & Hev).
    rewrite E. simpl.
    unfold NetworkStatusIndicator.status_of, getNetworkStatus. simpl.
    rewrite Hon', Hh. simpl.
    split; [reflexivity|]. split; [exact Hnet|]. split; [exact Hev|]. split.
    + intros l r -> Hok Hl. simpl. rewrite Hok.
      destruct (N.ltb_spec l 1000); [|lia]. auto.
    + assert (Hbad : in_time connectionCheckTimeout (transport env (net_calls w))
                     = false \/
                     (exists l m, transport env (net_calls w) = NetRejects l m) \/
                     (exists l r, transport env (net_calls w) = NetResponds l r /\
                                  1000 <= l) ->
                     probe_good (transport env (net_calls w)) = false).
      { intros [Hlate | [(l & m & ->) | (l & r & -> & Hl)]].
        - destruct (transport env (net_calls w)) as [l r| |]; try reflexivity.
          simpl in *. apply N.ltb_ge in Hlate.
          destruct (N.ltb_spec l 1000);
            [unfold connectionCheckTimeout in *; lia|].
          apply andb_false_r.
        - reflexivity.
        - simpl. destruct (N.ltb_spec l 1000); [lia|]. apply andb_false_r. }
      intros Hcase. rewrite (Hbad Hcase). auto.
Qed.

(** C7: the claim is that a quality check issues a probe whose ok answer
    in under 1000ms marks the connection good, while a timeout or a
    network error marks it slow.  The first check (line 21) does; every
    later one calls [fetch] after [setupSmartFetch()] has replaced it (line
    27), so that its probe is a resolution of the override.  With a copy
    of the manifest in the cache, a check in cache-first mode is answered
    by the cache after 10ms and marks the connection good although the
    transport is silent and the platform's fetch was never called, and a
    check in network-first mode marks it good although the transport
    rejected; with nothing cached and a silent transport the check ends at
    3010ms, the probe's own 1500ms timeout having no effect.  The first
    check marks all three slow, the last one at 1500ms. *)
Theorem C7_later_checks_are_answered_by_the_override :
  (fst (checkConnectionQuality never_answers SmartFetch slow_world_manifest)
   = Returned tt /\
   handler (snd (checkConnectionQuality never_answers SmartFetch
                   slow_world_manifest))
   = mkHandler false false /\
   NetworkStatusIndicator.status_of
     (getNetworkStatus
        (snd (checkConnectionQuality never_answers SmartFetch
                slow_world_manifest)))
   = "good" /\
   net_calls (snd (checkConnectionQuality never_answers SmartFetch
                     slow_world_manifest)) = 0%nat /\
   now (snd (checkConnectionQuality never_answers SmartFetch
               slow_world_manifest)) = 10) /\
  (fst (checkConnectionQuality dns_failure SmartFetch good_world_manifest)
   = Returned tt /\
   handler (snd (checkConnectionQuality dns_failure SmartFetch
                   good_world_manifest))
   = mkHandler false false /\
   NetworkStatusIndicator.status_of
     (getNetworkStatus
        (snd (checkConnectionQuality dns_failure SmartFetch
                good_world_manifest)))
   = "good") /\
  (handler (snd (checkConnectionQuality never_answers SmartFetch
                   good_world_empty))
   = mkHandler true true /\
   now (snd (checkConnectionQuality never_answers SmartFetch good_world_empty))
   = 3010) /\
  (handler (snd (checkConnectionQuality never_answers OriginalFetch
                   slow_world_manifest))
   = mkHandler true true /\
   handler (snd (checkConnectionQuality dns_failure OriginalFetch
                   good_world_manifest))
   = mkHandler true true /\
   handler (snd (checkConnectionQuality never_answers OriginalFetch
                   good_world_empty))
   = mkHandler true true /\
   now (snd (checkConnectionQuality never_answers OriginalFetch
               good_world_empty))
   = 1500).
Proof. vm_compute. repeat split; reflexivity. Qed.

(** A later check whose first answer is a 500 that arrives after 2000ms:
    the override falls to its last-resort fetch (line 180) with the
    probe's own options, whose signal the probe's timeout has aborted at
    1500ms; that fetch rejects at once, and the check ends at 2000ms,
    marking the connection slow, after two calls of the platform's
    fetch. *)
Example later_check_with_aborted_signal :
  fst (checkConnectionQuality late_error_then_silence SmartFetch good_world_empty)
  = Returned tt /\
  now (snd (checkConnectionQuality late_error_then_silence SmartFetch
              good_world_empty)) = 2000 /\
  handler (snd (checkConnectionQuality late_error_then_silence SmartFetch
                  good_world_empty)) = mkHandler true true /\
  net_calls (snd (checkConnectionQuality late_error_then_silence SmartFetch
                    good_world_empty)) = 2%nat /\
  aborted 0 (trace (snd (checkConnectionQuality late_error_then_silence
                           SmartFetch good_world_empty))) = true.
Proof. vm_compute. repeat split; reflexivity. Qed.

(* ===================================================================== *)
(** ** The two flags of the handler                                        *)
(* ===================================================================== *)

Section Flags.
Variable env : Env.

Lemma checkConnectionType_agrees {A} (o : Outcome A) (w : World) :
  flags_agree w ->
  flags_agree
    (snd (match o with
          | Returned _ => checkConnectionType w
          | Thrown e => (Thrown e, w)
          | Pending => (Pending, w)
          end)).
Proof.
  intros Hw. destruct o; [|exact Hw|exact Hw].
  unfold flags_agree, checkConnectionType, bind, gets, set_isSlowConnection,
    set_cacheFirstMode, modify in *. simpl.
  destruct (connection w) as [et|]; simpl; [|exact Hw].
  match goal with |- context [if ?c then _ else _] => destruct c end;
    reflexivity.
Qed.

Lemma checkConnectionQuality_start_agrees (wf : WindowFetch) (w : World) :
  flags_agree w -> flags_agree (snd (checkConnectionQuality_start env wf w)).
Proof.
  intros Hw. unfold flags_agree.
  rewrite (checkConnectionQuality_start_handler env wf w).
  destruct (onLine w); [exact Hw|reflexivity].
Qed.

Lemma construct_agrees (w : World) :
  flags_agree (snd (PoorNetworkHandler.construct env w)).
Proof.
  unfold PoorNetworkHandler.construct, bind, set_isSlowConnection,
    set_cacheFirstMode, modify.
  match goal with
  | |- context [checkConnectionQuality_start env OriginalFetch ?w1] =>
      pose proof (checkConnectionQuality_start_agrees OriginalFetch w1 eq_refl)
        as H;
      destruct (checkConnectionQuality_start env OriginalFetch w1) as [o w2]
  end.
  apply checkConnectionType_agrees, H.
Qed.

(** Every piece of handler code that runs without interruption keeps the
    two flags equal: it writes both or neither. *)
Lemma run_segment_agrees (seg : Segment) (w : World) :
  flags_agree w -> flags_agree (snd (run_segment env seg w)).
Proof.
  intros Hw.
  destruct seg as [| |et| |p s| |]; cbn [run_segment].
  - unfold on_online, bind, set_isSlowConnection, set_cacheFirstMode, modify, ret.
    match goal with
    | |- context [checkConnectionQuality_start env SmartFetch ?w1] =>
        pose proof (checkConnectionQuality_start_agrees SmartFetch w1 eq_refl)
          as H;
        destruct (checkConnectionQuality_start env SmartFetch w1)
          as [[started|e|] w2]
    end; exact H.
  - reflexivity.
  - unfold on_connection_change, bind, modify.
    apply (checkConnectionType_agrees (Returned tt)). exact Hw.
  - unfold bind, ret.
    pose proof (checkConnectionQuality_start_agrees SmartFetch w Hw) as H.
    destruct (checkConnectionQuality_start env SmartFetch w)
      as [[started|e|] w2]; exact H.
  - unfold flags_agree in *.
    unfold checkConnectionQuality_resume, bind, try_catch, settle, gets,
      set_isSlowConnection, set_cacheFirstMode, clearTimeout, modify, ret.
    destruct s as [r|e|]; simpl; try reflexivity; [|exact Hw].
    match goal with |- context [if ?c then _ else _] => destruct c end;
      reflexivity.
  - reflexivity.
  - reflexivity.
Qed.

Lemma run_segments_agree (segs : list Segment) (w : World) :
  flags_agree w -> flags_agree (run_segments env segs w).
Proof.
  revert w. induction segs as [|seg segs IH]; intros w Hw; simpl; [exact Hw|].
  apply IH, run_segment_agrees, Hw.
Qed.

End Flags.

(** C9: after the constructor, and after any sequence of the pieces of
    handler code that write the flags (the online, offline and
    connection-change listeners, the start of a quality check, the
    continuation of a check once its probe has settled in any way, and the
    two manual overrides), isSlowConnection and cacheFirstMode are equal,
    and so are the two fields of the snapshot of getNetworkStatus. *)
Theorem C9_flags_always_agree (env : Env) (w0 : World) (segs : list Segment) :
  isSlowConnection
    (handler (run_segments env segs (snd (PoorNetworkHandler.construct env w0))))
  = cacheFirstMode
      (handler (run_segments env segs (snd (PoorNetworkHandler.construct env w0))))
  /\
  st_isSlowConnection
    (getNetworkStatus
       (run_segments env segs (snd (PoorNetworkHandler.construct env w0))))
  = st_cacheFirstMode
      (getNetworkStatus
         (run_segments env segs (snd (PoorNetworkHandler.construct env w0)))).
Proof.
  pose proof (run_segments_agree env segs _ (construct_agrees env w0)) as H.
  split; exact H.
Qed.

(* ===================================================================== *)
(** ** Properties of the status indicator                                  *)
(* ===================================================================== *)

Section Indicator.
Import NetworkStatusIndicator.

Lemma show_observed (message color : string) (st : Indicator) :
  calls (show message color st) = calls st ++ [CallShow message color] /\
  currentStatus (show message color st) = currentStatus st.
Proof.
  unfold show, log_call. simpl. destruct (indicator st); simpl; auto.
Qed.

Lemma hide_observed (st : Indicator) :
  calls (hide st) = calls st ++ [CallHide] /\
  currentStatus (hide st) = currentStatus st.
Proof.
  unfold hide, log_call. simpl.
  destruct (indicator st); simpl; auto.
  destruct (isVisible st); simpl; auto.
Qed.

Lemma updateStatus_same (st : Indicator) :
  updateStatus (currentStatus st) st = st.
Proof.
  unfold updateStatus. now rewrite String.eqb_refl.
Qed.

Lemma updateStatus_changed (status : string) (st : Indicator) :
  String.eqb (currentStatus st) status = false ->
  calls (updateStatus status st) = calls st ++ [call_for status] /\
  currentStatus (updateStatus status st) = status.
Proof.
  intros Hne. unfold updateStatus, call_for. rewrite Hne.
  destruct (status_case status) as [[[message color] shouldShow] arms].
  destruct shouldShow.
  - match goal with
    | |- context [show ?m ?c ?s] => destruct (show_observed m c s) as [-> ->]
    end. auto.
  - match goal with
    | |- context [hide ?s] => destruct (hide_observed s) as [-> ->]
    end. auto.
Qed.

Lemma updates_observed (l : list string) (st : Indicator) :
  calls (updates l st)
  = calls st ++ map call_for (changes (currentStatus st) l).
Proof.
  revert st. induction l as [|s l IH]; intros st; simpl.
  - now rewrite app_nil_r.
  - unfold updates in *. simpl.
    destruct (String.eqb (currentStatus st) s) eqn:Hs.
    + apply String.eqb_eq in Hs. subst s.
      rewrite updateStatus_same. apply IH.
    + destruct (updateStatus_changed s st Hs) as [Hc Hcur].
      rewrite IH, Hc, Hcur. simpl. now rewrite <- app_assoc.
Qed.

End Indicator.

(** C8: over any run of status updates, [show] or [hide] is invoked once
    for each update that differs from the status current before it and
    never for an update equal to it, which leaves the indicator as it is;
    from the constructed indicator, 'good' followed by 'good' invokes
    [show] exactly once. *)
Theorem C8_notified_only_on_change
        (l : list string) (st : NetworkStatusIndicator.Indicator) :
  NetworkStatusIndicator.calls (NetworkStatusIndicator.updates l st)
  = NetworkStatusIndicator.calls st
    ++ map NetworkStatusIndicator.call_for
         (NetworkStatusIndicator.changes
            (NetworkStatusIndicator.currentStatus st) l) /\
  NetworkStatusIndicator.updateStatus
    (NetworkStatusIndicator.currentStatus st) st = st /\
  NetworkStatusIndicator.calls
    (NetworkStatusIndicator.updates ["good"; "good"]
       NetworkStatusIndicator.construct)
  = [NetworkStatusIndicator.CallShow "✅ Good Connection" "#4caf50"].
Proof.
  split; [apply updates_observed|].
  split; [apply updateStatus_same|reflexivity].
Qed.

(* ===================================================================== *)
(** ** Properties of the hiking advice                                     *)
(* ===================================================================== *)

Section Advice.
Import WeatherAdvice.

Lemma gt_true (x y : Q) : gt x y = true <-> (y < x)%Q.
Proof.
  unfold gt. rewrite negb_true_iff, <- not_true_iff_false, Qle_bool_iff.
  split; [apply Qnot_le_lt|apply Qlt_not_le].
Qed.

Lemma gt_false (x y : Q) : gt x y = false <-> (x <= y)%Q.
Proof.
  unfold gt. rewrite negb_false_iff. apply Qle_bool_iff.
Qed.

Lemma lt_true (x y : Q) : lt x y = true <-> (x < y)%Q.
Proof. apply gt_true. Qed.

Lemma lt_false (x y : Q) : lt x y = false <-> (y <= x)%Q.
Proof. apply gt_false. Qed.

Lemma le_true (x y : Q) : le x y = true <-> (x <= y)%Q.
Proof. apply Qle_bool_iff. Qed.

Lemma le_false (x y : Q) : le x y = false <-> (y < x)%Q.
Proof.
  unfold le. rewrite <- not_true_iff_false, Qle_bool_iff.
  split; [apply Qnot_le_lt|apply Qlt_not_le].
Qed.

Lemma includes_code_spec (l : list N) (code : N) :
  includes_code l code = true <-> In code l.
Proof.
  unfold includes_code. rewrite existsb_exists. split.
  - intros (x & Hin & Heq). apply N.eqb_eq in Heq. now subst.
  - intros Hin. exists code. split; [assumption|apply N.eqb_refl].
Qed.

End Advice.

(** Walks through the tests of [hiking_advice], one case per path. *)
Ltac split_advice :=
  repeat (cbn [app length Nat.eqb WeatherAdvice.push andb orb];
          match goal with
          | |- context [if ?b then _ else _] => destruct b eqn:?
          end);
  cbn [app length Nat.eqb WeatherAdvice.push andb orb].

(** Turns the recorded outcomes of the tests into facts. *)
Ltac advice_facts :=
  repeat match goal with
         | H : _ && _ = true |- _ => apply andb_true_iff in H as [? ?]
         | H : _ || _ = false |- _ => apply orb_false_iff in H as [? ?]
         | H : WeatherAdvice.gt _ _ = true |- _ => apply gt_true in H
         | H : WeatherAdvice.gt _ _ = false |- _ => apply gt_false in H
         | H : WeatherAdvice.lt _ _ = true |- _ => apply lt_true in H
         | H : WeatherAdvice.lt _ _ = false |- _ => apply lt_false in H
         | H : WeatherAdvice.le _ _ = true |- _ => apply le_true in H
         | H : WeatherAdvice.le _ _ = false |- _ => apply le_false in H
         | H : WeatherAdvice.includes_code _ _ = true |- _ =>
             apply includes_code_spec in H; simpl in H
         | H : (_ =? _) = true |- _ => apply N.eqb_eq in H
         end.

(** Closes a path on which two tests on the code cannot both succeed. *)
Ltac refute_codes :=
  exfalso; advice_facts;
  repeat match goal with
         | H : _ || _ = true |- _ => apply orb_true_iff in H as [H | H]
         end;
  advice_facts;
  repeat match goal with
         | H : _ \/ _ |- _ => destruct H as [H | H]
         | H : False |- _ => destruct H
         end;
  subst;
  try discriminate;
  match goal with
  | H : startsWith _ _ = true |- _ => vm_compute in H; discriminate H
  end.

Section AdviceFacts.
Import WeatherAdvice.

(** The joined advice is the sentence for good conditions exactly on a
    clear or partly cloudy day that is neither hot nor cold. *)
Lemma good_advice_iff (code : N) (maxT minT : Q) :
  join " " (hiking_advice code maxT minT) = advice_good
  <->
  (code <= 2 /\ (10 < maxT)%Q /\ (maxT <= 28)%Q /\ (5 <= minT)%Q).
Proof.
  unfold hiking_advice.
  split.
  - split_advice; intros H; try (vm_compute in H; discriminate H).
    advice_facts.
    repeat split; try assumption; try lra.
    match goal with
    | Hc : _ \/ _ |- _ => destruct Hc as [<- | [<- | [<- | []]]]; lia
    end.
  - intros (Hc & H10 & H28 & H5).
    assert (E1 : gt maxT 32 = false) by (apply gt_false; lra).
    assert (E2 : gt maxT 28 = false) by (apply gt_false; lra).
    assert (E3 : lt maxT 5 = false) by (apply lt_false; lra).
    assert (E4 : lt minT 0 = false) by (apply lt_false; lra).
    assert (E5 : lt minT 5 = false) by (apply lt_false; lra).
    assert (E6 : gt maxT 10 = true) by (apply gt_true; lra).
    assert (E7 : le maxT 28 = true) by (apply le_true; lra).
    rewrite E1, E2, E3, E4, E5, E6, E7.
    assert (Hcode : code = 0 \/ code = 1 \/ code = 2) by lia.
    destruct Hcode as [-> | [-> | ->]]; reflexivity.
Qed.

(** The advice holds one or two sentences, and joins to a text that is
    not empty. *)
Lemma advice_one_or_two (code : N) (maxT minT : Q) :
  (1 <= length (hiking_advice code maxT minT) <= 2)%nat /\
  join " " (hiking_advice code maxT minT) <> EmptyString.
Proof.
  unfold hiking_advice.
  split_advice;
    first [ solve [split; [cbn; lia | vm_compute; discriminate]]
          | refute_codes ].
Qed.

End AdviceFacts.

(** X1: the recommendation is the sentence 'Generally good hiking
    conditions. Enjoy your hike!' exactly when none of the three arguments
    is undefined, the code is 0, 1 or 2, the maximum is above 10 and at
    most 28 degrees, and the minimum is at least 5 degrees, a null
    counting as 0 in each place: a null code with a maximum of 20 and a
    minimum of 10 gets the sentence. *)
Theorem X1_good_conditions_iff
        (weatherCode : option (WeatherAdvice.Value N))
        (maxTemp minTemp : option (WeatherAdvice.Value Q)) :
  (WeatherAdvice.getHikingRecommendation weatherCode maxTemp minTemp
   = WeatherAdvice.advice_good
   <->
   exists code maxT minT,
     weatherCode = Some code /\ maxTemp = Some maxT /\ minTemp = Some minT /\
     WeatherAdvice.Number code <= 2 /\
     (10 < WeatherAdvice.ToNumber maxT)%Q /\
     (WeatherAdvice.ToNumber maxT <= 28)%Q /\
     (5 <= WeatherAdvice.ToNumber minT)%Q) /\
  WeatherAdvice.getHikingRecommendation
    (Some WeatherAdvice.Null) (Some (WeatherAdvice.Num (20 # 1)%Q))
    (Some (WeatherAdvice.Num (10 # 1)%Q))
  = WeatherAdvice.advice_good.
Proof.
  split; [|reflexivity].
  unfold WeatherAdvice.getHikingRecommendation.
  destruct weatherCode as [code|], maxTemp as [maxT|], minTemp as [minT|];
    try (split; [intros H; vm_compute in H; discriminate H
                |intros (? & ? & ? & ? & ? & ? & _); discriminate]).
  rewrite good_advice_iff. split.
  - intros H. exists code, maxT, minT. tauto.
  - intros (c & a & b & Hc & Ha & Hb & H).
    injection Hc as <-. injection Ha as <-. injection Hb as <-. exact H.
Qed.

(** X2: the advice holds one or two sentences, never none and never more
    (at most one about the temperature and one about the weather
    condition, the conditions excluding each other), and the
    recommendation is never the empty string, whatever the arguments:
    numbers, null or undefined. *)
Theorem X2_one_or_two_pieces_of_advice (code : N) (maxT minT : Q) :
  (1 <= length (WeatherAdvice.hiking_advice code maxT minT) <= 2)%nat /\
  forall weatherCode maxTemp minTemp,
    WeatherAdvice.getHikingRecommendation weatherCode maxTemp minTemp
    <> EmptyString.
Proof.
  split; [apply advice_one_or_two|].
  intros weatherCode maxTemp minTemp.
  unfold WeatherAdvice.getHikingRecommendation.
  destruct weatherCode as [c|], maxTemp as [a|], minTemp as [b|];
    try (vm_compute; discriminate).
  apply advice_one_or_two.
Qed.

(** X3: when the maximum is above 28 degrees the advice is about heat and
    never about cold, however low the minimum: a hot day with a freezing
    night gets no advice on freezing or cold temperatures. *)
Theorem X3_heat_advice_shadows_cold (code : N) (maxT minT : Q) :
  (28 < maxT)%Q ->
  ~ In WeatherAdvice.advice_freezing (WeatherAdvice.hiking_advice code maxT minT) /\
  ~ In WeatherAdvice.advice_cold (WeatherAdvice.hiking_advice code maxT minT) /\
  (In WeatherAdvice.advice_extreme_heat (WeatherAdvice.hiking_advice code maxT minT) \/
   In WeatherAdvice.advice_hot (WeatherAdvice.hiking_advice code maxT minT)).
Proof.
  intros Hhot. unfold WeatherAdvice.hiking_advice.
  assert (E : WeatherAdvice.gt maxT 28 = true) by (apply gt_true; lra).
  rewrite E.
  split_advice; cbn [In];
    (split; [|split]);
    solve [ intros H; repeat destruct H as [H | H]; discriminate H || destruct H
          | left; left; reflexivity
          | right; left; reflexivity ].
Qed.

Lemma X3_heat_advice_witness :
  ~ In WeatherAdvice.advice_freezing
       (WeatherAdvice.hiking_advice 0 (30 # 1)%Q (-2 # 1)%Q) /\
  ~ In WeatherAdvice.advice_cold
       (WeatherAdvice.hiking_advice 0 (30 # 1)%Q (-2 # 1)%Q) /\
  (In WeatherAdvice.advice_extreme_heat
      (WeatherAdvice.hiking_advice 0 (30 # 1)%Q (-2 # 1)%Q) \/
   In WeatherAdvice.advice_hot
      (WeatherAdvice.hiking_advice 0 (30 # 1)%Q (-2 # 1)%Q)).
Proof.
  apply (X3_heat_advice_shadows_cold 0 (30 # 1)%Q (-2 # 1)%Q). reflexivity.
Defined.

(** X4: the advice for the weather condition is given whatever the
    temperatures: the rain codes always get the rain advice, the drizzle
    codes the drizzle advice, code 95 the thunderstorm advice and the fog
    codes the fog advice. *)
Theorem X4_condition_advice_is_never_dropped (code : N) (maxT minT : Q) :
  (In code [61; 63; 65; 80; 81; 82] ->
   In WeatherAdvice.advice_rain (WeatherAdvice.hiking_advice code maxT minT)) /\
  (In code [51; 53; 55] ->
   In WeatherAdvice.advice_drizzle (WeatherAdvice.hiking_advice code maxT minT)) /\
  (code = 95 ->
   In WeatherAdvice.advice_thunderstorm (WeatherAdvice.hiking_advice code maxT minT)) /\
  (In code [45; 48] ->
   In WeatherAdvice.advice_fog (WeatherAdvice.hiking_advice code maxT minT)).
Proof.
  unfold WeatherAdvice.hiking_advice.
  repeat split; intros Hc; simpl in Hc;
    repeat match goal with
           | H : _ \/ _ |- _ => destruct H as [H | H]
           | H : False |- _ => destruct H
           end;
    subst code;
    cbn [WeatherAdvice.includes_code existsb N.eqb Pos.eqb orb];
    split_advice; cbn [In]; tauto.
Qed.

Lemma X4_condition_advice_witness :
  In WeatherAdvice.advice_rain
     (WeatherAdvice.hiking_advice 63 (35 # 1)%Q (20 # 1)%Q) /\
  In WeatherAdvice.advice_fog
     (WeatherAdvice.hiking_advice 48 (2 # 1)%Q (-3 # 1)%Q).
Proof.
  split.
  - apply (proj1 (X4_condition_advice_is_never_dropped 63 (35 # 1)%Q (20 # 1)%Q)).
    simpl. tauto.
  - apply (proj2 (proj2 (proj2
             (X4_condition_advice_is_never_dropped 48 (2 # 1)%Q (-3 # 1)%Q)))).
    simpl. tauto.
Defined.

Section ConditionAdvice.
Import WeatherAdvice.

(** Decides whether a sentence is among the one or two of a path. *)
Ltac sentence_among :=
  cbn [In];
  first [ solve [split; [reflexivity | intros _; tauto]]
        | solve [split;
                 [ intros H;
                   repeat destruct H as [H | H];
                   first [discriminate H | destruct H]
                 | intros H; discriminate H ]] ].

(** Which codes get which advice for their weather condition. *)
Lemma rain_advice_iff (code : N) (maxT minT : Q) :
  In advice_rain (hiking_advice code maxT minT)
  <-> includes_code [61; 63; 65; 80; 81; 82] code = true.
Proof. unfold hiking_advice. split_advice; sentence_among. Qed.

Lemma drizzle_advice_iff (code : N) (maxT minT : Q) :
  In advice_drizzle (hiking_advice code maxT minT)
  <-> includes_code [51; 53; 55] code = true.
Proof.
  unfold hiking_advice.
  destruct (includes_code [61; 63; 65; 80; 81; 82] code) eqn:Hrain.
  - split.
    + split_advice; cbn [In]; intros H;
        repeat destruct H as [H | H]; first [discriminate H | destruct H].
    + intros H. exfalso. advice_facts.
      repeat match goal with
             | H : _ \/ _ |- _ => destruct H as [H | H]
             | H : False |- _ => destruct H
             end; subst; discriminate.
  - split_advice; sentence_among.
Qed.

Lemma thunderstorm_advice_iff (code : N) (maxT minT : Q) :
  In advice_thunderstorm (hiking_advice code maxT minT) <-> code = 95.
Proof.
  unfold hiking_advice. rewrite <- N.eqb_eq.
  split_advice; sentence_among.
Qed.

Lemma severe_advice_iff (code : N) (maxT minT : Q) :
  In advice_severe (hiking_advice code maxT minT)
  <-> (code <> 95 /\ startsWith "9" (String_of_N code) = true).
Proof.
  unfold hiking_advice. rewrite <- N.eqb_neq.
  destruct (code =? 95) eqn:H95.
  - split.
    + split_advice; cbn [In]; intros H;
        repeat destruct H as [H | H]; first [discriminate H | destruct H].
    + intros [H _]. discriminate H.
  - split_advice;
      first [ sentence_among
            | cbn [In]; split;
              [ intros _; split; reflexivity
              | intros _; tauto ]
            | cbn [In]; split;
              [ intros H; repeat destruct H as [H | H];
                first [discriminate H | destruct H]
              | intros [_ H]; discriminate H ] ].
Qed.

Lemma fog_advice_iff (code : N) (maxT minT : Q) :
  In advice_fog (hiking_advice code maxT minT) <-> (code = 45 \/ code = 48).
Proof.
  unfold hiking_advice. rewrite <- !N.eqb_eq, <- orb_true_iff.
  split_advice; sentence_among.
Qed.

End ConditionAdvice.

(** X5: the table of descriptions and the advice agree on the codes they
    know: a code has a description exactly when it is at most 3 or the
    advice holds the sentence on rain, drizzle, thunderstorms or fog,
    whatever the temperatures.  The codes that get the sentence on severe
    weather (96, 99, ...) have no description: they are shown as
    'Unknown code' followed by the code (printed in digits, as every
    integer below 2^53 is). *)
Theorem X5_descriptions_cover_advised_codes (code : N) (maxT minT : Q) :
  ((exists d, WeatherAdvice.property code WeatherAdvice.descriptions = Some d)
   <->
   (code <= 3 \/
    In WeatherAdvice.advice_rain (WeatherAdvice.hiking_advice code maxT minT) \/
    In WeatherAdvice.advice_drizzle (WeatherAdvice.hiking_advice code maxT minT) \/
    In WeatherAdvice.advice_thunderstorm
       (WeatherAdvice.hiking_advice code maxT minT) \/
    In WeatherAdvice.advice_fog (WeatherAdvice.hiking_advice code maxT minT))) /\
  (code < 2 ^ 53 ->
   In WeatherAdvice.advice_severe (WeatherAdvice.hiking_advice code maxT minT) ->
   WeatherAdvice.getWeatherDescriptionAndIcon (Some (WeatherAdvice.Num code))
   = WeatherAdvice.mkDescription
       ("Unknown code: " ++ WeatherAdvice.String_of_N code) "❓").
Proof.
  rewrite rain_advice_iff, drizzle_advice_iff, thunderstorm_advice_iff,
    fog_advice_iff, severe_advice_iff, !includes_code_spec.
  split; [split|intros _].
  - intros [d Hd]. unfold WeatherAdvice.descriptions in Hd.
    cbn [WeatherAdvice.property] in Hd.
    repeat match type of Hd with
           | (if (?k =? code) then _ else _) = _ =>
               destruct (N.eqb_spec k code) as [<- | _];
               [ first [ left; lia | right; simpl; tauto ] | ]
           end.
    discriminate Hd.
  - intros [Hc | H].
    + assert (H : code = 0 \/ code = 1 \/ code = 2 \/ code = 3) by lia.
      destruct H as [-> | [-> | [-> | ->]]]; eexists; reflexivity.
    + simpl in H.
      repeat match goal with
             | H : _ \/ _ |- _ => destruct H as [H | H]
             | H : False |- _ => destruct H
             end; subst; eexists; reflexivity.
  - intros [Hnot Hnine].
    unfold WeatherAdvice.getWeatherDescriptionAndIcon,
      WeatherAdvice.description_of, WeatherAdvice.descriptions.
    cbn [WeatherAdvice.property].
    repeat match goal with
           | |- context [if (?k =? code) then _ else _] =>
               destruct (N.eqb_spec k code) as [<- | _];
               [ first [ now contradiction Hnot
                       | vm_compute in Hnine; discriminate Hnine ] | ]
           end.
    reflexivity.
Qed.

Lemma X5_descriptions_witness :
  (exists d, WeatherAdvice.property 61 WeatherAdvice.descriptions = Some d) /\
  WeatherAdvice.getWeatherDescriptionAndIcon (Some (WeatherAdvice.Num 96))
  = WeatherAdvice.mkDescription "Unknown code: 96" "❓".
Proof.
  split.
  - apply (proj1 (X5_descriptions_cover_advised_codes 61 (20 # 1)%Q (10 # 1)%Q)).
    right. left. simpl. tauto.
  - apply (proj2 (X5_descriptions_cover_advised_codes 96 (20 # 1)%Q (10 # 1)%Q));
      [reflexivity|simpl; tauto].
Defined.

(* ===================================================================== *)
(** ** What the fetch override leaves alone                                *)
(* ===================================================================== *)

Section Quiet.
Variable env : Env.

Lemma untouched_refl (w : World) : Untouched w w.
Proof. constructor; reflexivity. Qed.

Lemma untouched_trans (w1 w2 w3 : World) :
  Untouched w1 w2 -> Untouched w2 w3 -> Untouched w1 w3.
Proof.
  intros [] []. constructor; congruence.
Qed.

Lemma untouched_effects (w w' : World) (f l : nat) :
  connection w' = connection w -> Effects w w' f l -> Untouched w w'.
Proof.
  intros Hc []. constructor; assumption.
Qed.

Lemma quiet_ret {A} (a : A) : quiet (ret a).
Proof. intros w. apply untouched_refl. Qed.

Lemma quiet_throw {A} (e : JsError) : quiet (@throw A e).
Proof. intros w. apply untouched_refl. Qed.

Lemma quiet_gets {A} (f : World -> A) : quiet (gets f).
Proof. intros w. apply untouched_refl. Qed.

Lemma quiet_bind {A B} (m : M A) (k : A -> M B) :
  quiet m -> (forall a, quiet (k a)) -> quiet (bind m k).
Proof.
  intros Hm Hk w. unfold bind. specialize (Hm w).
  destruct (m w) as [[a|e|] w1]; simpl in *; try assumption.
  eapply untouched_trans; [eassumption|apply Hk].
Qed.

Lemma quiet_try_catch {A} (m : M A) (h : JsError -> M A) :
  quiet m -> (forall e, quiet (h e)) -> quiet (try_catch m h).
Proof.
  intros Hm Hh w. unfold try_catch. specialize (Hm w).
  destruct (m w) as [[a|e|] w1]; simpl in *; try assumption.
  eapply untouched_trans; [eassumption|apply Hh].
Qed.

Lemma quiet_new_AbortController : quiet new_AbortController.
Proof. intros w. constructor; reflexivity. Qed.

Lemma quiet_setTimeout (a : TimerAction) (d : N) : quiet (setTimeout a d).
Proof. intros w. constructor; reflexivity. Qed.

Lemma quiet_clearTimeout (t : nat) : quiet (clearTimeout t).
Proof. intros w. constructor; reflexivity. Qed.

Lemma quiet_platform_fetch (url : string) (opts : Options) :
  quiet (platform_fetch env url opts).
Proof.
  intros w. unfold platform_fetch, bind, fetch_issue, fetch_await. simpl.
  destruct (match signal opts with
            | Some c => aborted c _
            | None => false
            end); simpl; [constructor; reflexivity|].
  destruct (settles_at _) as [t|];
    destruct (match signal opts with
              | Some c => abort_time c (timers w)
              | None => None
              end) as [a|]; simpl;
    try destruct (t <? a); simpl; constructor; reflexivity.
Qed.

Lemma quiet_getCachedResponse (url : string) : quiet (getCachedResponse env url).
Proof.
  intros w. destruct (getCachedResponse_run env url w) as (w' & E & Eff & _).
  rewrite E. simpl. apply (untouched_effects _ _ _ _) with (2 := Eff).
  revert E.
  unfold getCachedResponse, try_catch, bind, caches_open, cache_match, ret.
  destruct (available (caches w));
    [destruct (stores (caches w) !! CACHE_NAME)|];
    intros E; apply (f_equal snd) in E; simpl in E; subst w'; reflexivity.
Qed.

Lemma quiet_smartFetch (resource : Resource) (options : Options) :
  quiet (smartFetch env resource options).
Proof.
  unfold smartFetch, originalFetch.
  destruct (skips_smart_handling (resource_url resource));
    [apply quiet_platform_fetch|].
  apply quiet_bind.
  - unfold cache_first_lookup. apply quiet_bind; [apply quiet_gets|].
    intros h. destruct (cacheFirstMode h || isSlowConnection h);
      [|apply quiet_ret].
    apply quiet_try_catch; [apply quiet_getCachedResponse|].
    intros _. apply quiet_ret.
  - intros [c|]; [apply quiet_ret|].
    apply quiet_bind.
    + apply quiet_try_catch.
      * unfold network_attempt, originalFetch.
        apply quiet_bind; [apply quiet_new_AbortController|]. intros c.
        apply quiet_bind; [apply quiet_setTimeout|]. intros t.
        apply quiet_bind; [apply quiet_platform_fetch|]. intros r.
        apply quiet_bind; [apply quiet_clearTimeout|]. intros _.
        destruct (ok r); apply quiet_ret.
      * intros e. unfold cache_fallback.
        apply quiet_bind.
        -- apply quiet_try_catch; [apply quiet_getCachedResponse|].
           intros _. apply quiet_ret.
        -- intros [c|]; [apply quiet_ret|apply quiet_throw].
    + intros [r|]; [apply quiet_ret|apply quiet_platform_fetch].
Qed.

End Quiet.

(** X6: on every path and for every URL, the fetch override changes
    neither the handler's flags nor the navigator's state, and it never
    writes to the caches: every cache holds after the call what it held
    before. *)
Theorem X6_fetch_override_never_writes
        (env : Env) (resource : Resource) (options : Options) (w : World) :
  handler (snd (smartFetch env resource options w)) = handler w /\
  onLine (snd (smartFetch env resource options w)) = onLine w /\
  connection (snd (smartFetch env resource options w)) = connection w /\
  available (caches (snd (smartFetch env resource options w)))
  = available (caches w) /\
  forall name url,
    stored (caches (snd (smartFetch env resource options w))) name url
    = stored (caches w) name url.
Proof.
  destruct (quiet_smartFetch env resource options w). auto.
Qed.

(* ===================================================================== *)
(** ** The policy under the monitor's modes                                *)
(* ===================================================================== *)

Section Modes.
Variable env : Env.

Lemma cache_first_lookup_skipped (url : string) (w : World) :
  cache_first w = false ->
  cache_first_lookup env url w = (Returned None, w).
Proof.
  intros Hmode. unfold cache_first_lookup, bind, gets. simpl.
  unfold cache_first in Hmode. now rewrite Hmode.
Qed.

(** A resolution in good mode whose transport does not settle in time. *)
Lemma good_mode_timeout_run (resource : Resource) (options : Options)
      (w : World) (c : Response) :
  skips_smart_handling (resource_url resource) = false ->
  fresh_ids w = true ->
  cache_first w = false ->
  in_time maxNetworkTimeout (transport env (net_calls w)) = false ->
  cached w (resource_url resource) = Some c ->
  fst (smartFetch env resource options w) = Returned c /\
  net_calls (snd (smartFetch env resource options w)) = S (net_calls w) /\
  now w + maxNetworkTimeout <= now (snd (smartFetch env resource options w)) /\
  now (snd (smartFetch env resource options w))
  <= now w + maxNetworkTimeout + 2 * cache_latency env.
Proof.
  intros Hsmart Hfresh Hmode Hlate Hc.
  destruct (network_attempt_times_out env resource options w Hfresh Hlate)
    as (w2 & E2 & Eff2 & Hn2 & _).
  destruct (cache_fallback_run env (resource_url resource) AbortError w2)
    as (w3 & E3 & Eff3 & Hn3).
  rewrite (cached_effects _ _ _ _ _ Eff2), Hc in E3.
  unfold smartFetch. rewrite Hsmart. unfold bind, try_catch.
  rewrite (cache_first_lookup_skipped _ w Hmode), E2, E3. simpl.
  split; [reflexivity|].
  split; [rewrite (eff_net _ _ _ _ Eff3), (eff_net _ _ _ _ Eff2); lia|].
  pose proof (eff_now _ _ _ _ Eff3). lia.
Qed.

End Modes.

(** X7: in good mode a request whose transport does not settle within the
    deadline is answered with the cached copy of its URL, after one
    transport call, and no earlier than 3000ms after the call and no later
    than two cache operations after that: a cached copy does not shorten
    the wait. *)
Theorem X7_stale_copy_only_after_the_deadline
        (env : Env) (resource : Resource) (options : Options) (w : World)
        (c : Response) :
  skips_smart_handling (resource_url resource) = false ->
  fresh_ids w = true ->
  cache_first w = false ->
  in_time maxNetworkTimeout (transport env (net_calls w)) = false ->
  cached w (resource_url resource) = Some c ->
  fst (smartFetch env resource options w) = Returned c /\
  net_calls (snd (smartFetch env resource options w)) = S (net_calls w) /\
  now w + maxNetworkTimeout <= now (snd (smartFetch env resource options w)) /\
  now (snd (smartFetch env resource options w))
  <= now w + maxNetworkTimeout + 2 * cache_latency env.
Proof.
  apply good_mode_timeout_run.
Qed.

Lemma X7_stale_copy_witness :
  fst (smartFetch never_answers (ResString data_json) no_options good_world_stale)
  = Returned stale_response /\
  net_calls (snd (smartFetch never_answers (ResString data_json) no_options
                    good_world_stale)) = 1%nat /\
  0 + 3000 <= now (snd (smartFetch never_answers (ResString data_json)
                          no_options good_world_stale)) /\
  now (snd (smartFetch never_answers (ResString data_json) no_options
              good_world_stale)) <= 0 + 3000 + 2 * 5.
Proof.
  exact (X7_stale_copy_only_after_the_deadline never_answers
           (ResString data_json) no_options good_world_stale stale_response
           eq_refl eq_refl eq_refl eq_refl eq_refl).
Defined.

(** X8: in cache-first mode the fallback lookup never helps: once the
    first lookup has missed, a network attempt that fails makes the
    resolution reject, with the transport's error or with the abort
    failure, after two cache lookups and one transport call. *)
Theorem X8_fallback_is_futile_in_cache_first_mode
        (env : Env) (resource : Resource) (options : Options) (w : World) :
  skips_smart_handling (resource_url resource) = false ->
  fresh_ids w = true ->
  cache_first w = true ->
  cached w (resource_url resource) = None ->
  attempt_failed (transport env (net_calls w)) = true ->
  fst (smartFetch env resource options w)
  = Thrown (match transport env (net_calls w) with
            | NetRejects l m =>
                if l <? maxNetworkTimeout then TypeError m else AbortError
            | _ => AbortError
            end) /\
  net_calls (snd (smartFetch env resource options w)) = S (net_calls w) /\
  cache_attempts (trace (snd (smartFetch env resource options w)))
  = (cache_attempts (trace w) + 2)%nat.
Proof.
  intros Hsmart Hfresh Hmode Hmiss Hfail.
  assert (Hearly : early w (resource_url resource) = None)
    by (unfold early; now rewrite Hmode).
  assert (Hlook : early_lookups w = 1%nat)
    by (unfold early_lookups; now rewrite Hmode).
  destruct (transport env (net_calls w)) as [l r|l m|] eqn:Htr;
    simpl in Hfail.
  - apply negb_true_iff in Hfail.
    destruct (smartFetch_network_times_out env resource options w Hsmart
                Hfresh Hearly) as (w' & E & Eff & _).
    { now rewrite Htr. }
    rewrite E, Hmiss. simpl.
    rewrite (eff_net _ _ _ _ Eff), (eff_lookups _ _ _ _ Eff), Hlook.
    repeat split; lia.
  - destruct (N.ltb_spec l maxNetworkTimeout) as [Hl|Hl].
    + destruct (smartFetch_network_rejects env resource options w Hsmart
                  Hfresh Hearly l m Htr Hl) as (w' & E & Eff & _).
      rewrite E, Hmiss. simpl.
      rewrite (eff_net _ _ _ _ Eff), (eff_lookups _ _ _ _ Eff), Hlook.
      repeat split; lia.
    + destruct (smartFetch_network_times_out env resource options w Hsmart
                  Hfresh Hearly) as (w' & E & Eff & _).
      { rewrite Htr. simpl. now apply N.ltb_ge. }
      rewrite E, Hmiss. simpl.
      rewrite (eff_net _ _ _ _ Eff), (eff_lookups _ _ _ _ Eff), Hlook.
      repeat split; lia.
  - destruct (smartFetch_network_times_out env resource options w Hsmart
                Hfresh Hearly) as (w' & E & Eff & _).
    { now rewrite Htr. }
    rewrite E, Hmiss. simpl.
    rewrite (eff_net _ _ _ _ Eff), (eff_lookups _ _ _ _ Eff), Hlook.
    repeat split; lia.
Qed.

Lemma X8_fallback_is_futile_witness :
  fst (smartFetch dns_failure (ResString data_json) no_options slow_world_empty)
  = Thrown (TypeError "Failed to fetch") /\
  net_calls (snd (smartFetch dns_failure (ResString data_json) no_options
                    slow_world_empty)) = 1%nat /\
  cache_attempts
    (trace (snd (smartFetch dns_failure (ResString data_json) no_options
                   slow_world_empty))) = 2%nat.
Proof.
  exact (X8_fallback_is_futile_in_cache_first_mode dns_failure
           (ResString data_json) no_options slow_world_empty
           eq_refl eq_refl eq_refl eq_refl eq_refl).
Defined.



(** X10: a cache lookup never rejects and never stays pending.  When the
    Cache Storage is unavailable it finds nothing and changes nothing;
    otherwise it answers with the entry stored under the URL, if any, and
    leaves the named cache in existence: a cache that did not exist is
    created empty, every other cache and every entry stays as it was. *)
Theorem X10_cache_lookup_creates_the_cache
        (env : Env) (url : string) (w : World) :
  fst (getCachedResponse env url w)
  = Returned (if available (caches w)
              then stored (caches w) CACHE_NAME url else None) /\
  (available (caches w) = false ->
   caches (snd (getCachedResponse env url w)) = caches w) /\
  (available (caches w) = true ->
   stores (caches (snd (getCachedResponse env url w))) !! CACHE_NAME
   = Some (match stores (caches w) !! CACHE_NAME with
           | Some entries => entries
           | None => ∅
           end) /\
   forall name,
     name <> CACHE_NAME ->
     stores (caches (snd (getCachedResponse env url w))) !! name
     = stores (caches w) !! name).
Proof.
  unfold getCachedResponse, try_catch, bind, caches_open, cache_match, ret.
  destruct (available (caches w)) eqn:Hav.
  - destruct (stores (caches w) !! CACHE_NAME) as [entries|] eqn:Hst; simpl.
    + split; [reflexivity|]. split; [discriminate|]. intros _.
      split; [assumption|reflexivity].
    + split.
      { unfold stored. simpl. rewrite lookup_insert_eq, lookup_empty.
        now rewrite Hst. }
      split; [discriminate|]. intros _.
      split; [apply lookup_insert_eq|].
      intros name Hne. now apply lookup_insert_ne.
  - simpl. split; [reflexivity|]. split; [reflexivity|discriminate].
Qed.

Lemma X10_cache_lookup_witness :
  caches (snd (getCachedResponse never_answers data_json
                 (boot good_mode true (mkCaches false ∅))))
  = mkCaches false ∅ /\
  stores (caches (snd (getCachedResponse never_answers data_json
                         good_world_empty))) !! CACHE_NAME
  = Some ∅.
Proof.
  split.
  - exact (proj1 (proj2 (X10_cache_lookup_creates_the_cache never_answers
                           data_json (boot good_mode true (mkCaches false ∅))))
             eq_refl).
  - exact (proj1 (proj2 (proj2 (X10_cache_lookup_creates_the_cache
                                  never_answers data_json good_world_empty))
                    eq_refl)).
Defined.

(* ===================================================================== *)
(** ** The guard of the fetch override                                     *)
(* ===================================================================== *)

Section Guard.

Lemma startsWith_spec (p s : string) :
  startsWith p s = true <-> exists rest, s = (p ++ rest)%string.
Proof.
  unfold startsWith. revert s.
  induction p as [|a p IH]; intros s; simpl.
  - split; [intros _; now exists s|intros _; now destruct s].
  - destruct s as [|b s]; simpl.
    + split; [discriminate|intros [rest H]; discriminate H].
    + destruct (Ascii.ascii_dec a b) as [->|Hne].
      * rewrite IH. split; intros [rest H]; exists rest.
        -- now rewrite H.
        -- now injection H.
      * split; [discriminate|]. intros [rest H]. injection H as H1 H2.
        now subst.
Qed.

Lemma includes_here (needle s : string) :
  String.prefix needle s = true -> includes needle s = true.
Proof.
  intros H. destruct s as [|a s].
  - change (String.prefix needle EmptyString || false = true). now rewrite H.
  - change (String.prefix needle (String a s) || includes needle s = true).
    now rewrite H.
Qed.

Lemma includes_later (needle : string) (a : ascii) (s : string) :
  includes needle s = true -> includes needle (String a s) = true.
Proof.
  intros H. change (String.prefix needle (String a s) || includes needle s = true).
  rewrite H. apply orb_true_r.
Qed.

Lemma includes_spec (needle s : string) :
  includes needle s = true <-> occurs_in needle s.
Proof.
  unfold occurs_in. split.
  - induction s as [|a s IH].
    + change (String.prefix needle EmptyString || false = true -> 
              exists before after, EmptyString = (before ++ needle ++ after)%string).
      rewrite orb_false_r. intros H.
      apply startsWith_spec in H as [rest H]. now exists EmptyString, rest.
    + change (String.prefix needle (String a s) || includes needle s = true ->
              exists before after, String a s = (before ++ needle ++ after)%string).
      rewrite orb_true_iff. intros [H | H].
      * apply startsWith_spec in H as [rest H]. now exists EmptyString, rest.
      * destruct (IH H) as (before & after & ->).
        now exists (String a before), after.
  - intros (before & after & ->).
    induction before as [|a before IH].
    + apply includes_here, startsWith_spec. now exists after.
    + apply includes_later, IH.
Qed.

End Guard.

(** X11: a URL skips the smart handling exactly when 'open-meteo.com'
    occurs somewhere in it, or it begins with 'http' and 'localhost'
    occurs nowhere in it. *)
Theorem X11_guard_by_substrings (url : string) :
  skips_smart_handling url = true <->
  (occurs_in "open-meteo.com" url \/
   ((exists rest, url = ("http" ++ rest)%string) /\
    ~ occurs_in "localhost" url)).
Proof.
  unfold skips_smart_handling.
  rewrite orb_true_iff, andb_true_iff, negb_true_iff.
  rewrite includes_spec, startsWith_spec.
  rewrite <- (includes_spec "localhost"), not_true_iff_false.
  reflexivity.
Qed.

(** X12: the manual overrides steer the policy.  After
    enableCacheFirstMode a request whose URL has a cached copy is answered
    with that copy and no transport call; after disableCacheFirstMode the
    same request goes to the network and is answered with the transport's
    ok response, not with the cached copy. *)
Theorem X12_manual_overrides_steer_the_policy
        (env : Env) (resource : Resource) (options : Options) (w : World)
        (c : Response) :
  skips_smart_handling (resource_url resource) = false ->
  cached w (resource_url resource) = Some c ->
  (fst (smartFetch env resource options (snd (enableCacheFirstMode w)))
   = Returned c /\
   net_calls (snd (smartFetch env resource options (snd (enableCacheFirstMode w))))
   = net_calls w) /\
  (fresh_ids w = true ->
   forall l r,
     transport env (net_calls w) = NetResponds l r ->
     l < maxNetworkTimeout ->
     ok r = true ->
     fst (smartFetch env resource options (snd (disableCacheFirstMode w)))
     = Returned r /\
     net_calls (snd (smartFetch env resource options
                       (snd (disableCacheFirstMode w))))
     = S (net_calls w)).
Proof.
  intros Hsmart Hc. split.
  - destruct (smartFetch_hit env resource options
                (snd (enableCacheFirstMode w)) Hsmart c)
      as (w' & E & Eff & _); [exact Hc|].
    rewrite E. simpl. rewrite (eff_net _ _ _ _ Eff). simpl. auto.
  - intros Hfresh l r Htr Hl Hok.
    destruct (smartFetch_network_ok env resource options
                (snd (disableCacheFirstMode w)) Hsmart Hfresh eq_refl
                l r Htr Hl Hok)
      as (w' & E & Eff & _).
    rewrite E. simpl. rewrite (eff_net _ _ _ _ Eff). simpl. split; [reflexivity|lia].
Qed.

Lemma X12_manual_overrides_witness :
  fst (smartFetch (answers_after 200 fresh_response) (ResString data_json)
         no_options (snd (enableCacheFirstMode good_world_stale)))
  = Returned stale_response /\
  fst (smartFetch (answers_after 200 fresh_response) (ResString data_json)
         no_options (snd (disableCacheFirstMode offline_world_stale)))
  = Returned fresh_response.
Proof.
  split.
  - exact (proj1 (proj1 (X12_manual_overrides_steer_the_policy
                           (answers_after 200 fresh_response)
                           (ResString data_json) no_options good_world_stale
                           stale_response eq_refl eq_refl))).
  - exact (proj1 (proj2 (X12_manual_overrides_steer_the_policy
                           (answers_after 200 fresh_response)
                           (ResString data_json) no_options
                           offline_world_stale stale_response eq_refl eq_refl)
                    eq_refl 200 fresh_response eq_refl eq_refl eq_refl)).
Defined.

(* ===================================================================== *)
(** ** The indicator over its events                                       *)
(* ===================================================================== *)

Section IndicatorRuns.
Import NetworkStatusIndicator IndicatorEvents.

(** The three statuses with a message, and what their case yields. *)
Lemma status_case_shown (status : string) :
  (status = "offline" \/ status = "slow" \/ status = "good") /\
  (exists message color,
      status_case status = (message, color, true, String.eqb status "good"))
  \/
  (status <> "offline" /\ status <> "slow" /\ status <> "good") /\
  status_case status = (EmptyString, EmptyString, false, false).
Proof.
  unfold status_case.
  destruct (String.eqb_spec status "offline") as [->|H1];
    [left; split; [auto|eexists; eexists; reflexivity]|].
  destruct (String.eqb_spec status "slow") as [->|H2];
    [left; split; [auto|eexists; eexists; reflexivity]|].
  destruct (String.eqb_spec status "good") as [->|H3];
    [left; split; [auto|eexists; eexists; reflexivity]|].
  right. auto.
Qed.

Lemma consistent_construct : consistent construct.
Proof. unfold consistent. simpl. auto. Qed.

Lemma consistent_present (st : Indicator) :
  consistent st -> indicator st <> None.
Proof.
  unfold consistent. destruct (indicator st); [discriminate|tauto].
Qed.

Lemma consistent_hide (st : Indicator) :
  indicator st <> None ->
  (isVisible st = false -> consistent st) ->
  consistent (hide st) /\ isVisible (hide st) = false.
Proof.
  unfold consistent, hide, log_call. simpl.
  destruct (indicator st) as [el|]; [|congruence]. intros _.
  destruct (isVisible st); simpl; auto.
Qed.

Lemma consistent_hidden_status (status : string) (n : nat) (st : Indicator) :
  consistent st ->
  isVisible st = false ->
  consistent (mkIndicator (indicator st) status (isVisible st) n (calls st)).
Proof.
  unfold consistent. simpl. intros Hst Hhidden.
  destruct (indicator st) as [el|]; [|assumption].
  now rewrite Hhidden in *.
Qed.

Lemma consistent_updateStatus (status : string) (st : Indicator) :
  consistent st -> consistent (updateStatus status st).
Proof.
  intros Hst. unfold updateStatus.
  destruct (String.eqb (currentStatus st) status) eqn:Hsame; [assumption|].
  pose proof (consistent_present st Hst) as Hel.
  destruct (status_case_shown status)
    as [[_ (message & color & E)] | [_ E]]; rewrite E.
  - unfold consistent, show, log_call. simpl.
    destruct (indicator st) as [el|]; [|congruence]. simpl. auto.
  - apply consistent_hide; [exact Hel|].
    simpl. intros Hhidden. now apply consistent_hidden_status.
Qed.

Lemma consistent_hide_timeout_fired (st : Indicator) :
  consistent st -> consistent (hide_timeout_fired st).
Proof.
  intros Hst. pose proof (consistent_present st Hst) as Hel.
  unfold hide_timeout_fired. simpl.
  destruct (String.eqb (currentStatus st) "good") eqn:Hgood.
  - apply consistent_hide; [exact Hel|]. simpl. intros Hhidden.
    now apply consistent_hidden_status.
  - unfold consistent in *. simpl. exact Hst.
Qed.

Lemma consistent_step (ev : Event) (st : Indicator) :
  consistent st -> consistent (step ev st).
Proof.
  intros Hst.
  destruct ev as [| |w|loaded w| |]; simpl;
    unfold poll, initial_check_fired;
    repeat match goal with
           | |- context [if ?b then _ else _] => destruct b
           end;
    auto using consistent_updateStatus, consistent_hide_timeout_fired.
Qed.

Lemma consistent_run (evs : list Event) (st : Indicator) :
  consistent st -> consistent (run evs st).
Proof.
  revert st. induction evs as [|ev evs IH]; intros st Hst; simpl; [exact Hst|].
  apply IH, consistent_step, Hst.
Qed.

End IndicatorRuns.

(** X13: whatever events reach the indicator after its construction
    (online and offline events, polls of the handler, the initial check,
    the timeout of the 'good' message), its element agrees with its
    fields: while it is shown it carries the message and the colour of the
    current status, which is then offline, slow or good, and while it is
    hidden it is moved out of view and transparent. *)
Theorem X13_indicator_shows_the_current_status
        (evs : list IndicatorEvents.Event) :
  IndicatorEvents.consistent
    (IndicatorEvents.run evs NetworkStatusIndicator.construct) /\
  (NetworkStatusIndicator.isVisible
     (IndicatorEvents.run evs NetworkStatusIndicator.construct) = true ->
   In (NetworkStatusIndicator.currentStatus
         (IndicatorEvents.run evs NetworkStatusIndicator.construct))
      ["offline"; "slow"; "good"]).
Proof.
  pose proof (consistent_run evs _ consistent_construct) as H.
  split; [exact H|]. intros Hvis.
  unfold IndicatorEvents.consistent in H.
  destruct (NetworkStatusIndicator.indicator _) as [el|]; [|destruct H].
  rewrite Hvis in H. destruct H as (_ & _ & E).
  destruct (status_case_shown
              (NetworkStatusIndicator.currentStatus
                 (IndicatorEvents.run evs NetworkStatusIndicator.construct)))
    as [[Hs _] | [_ E']].
  - simpl. destruct Hs as [Hs | [Hs | Hs]]; rewrite Hs; auto.
  - rewrite E' in E. discriminate E.
Qed.

Lemma X13_indicator_witness :
  In (NetworkStatusIndicator.currentStatus
        (IndicatorEvents.run [IndicatorEvents.Poll good_world_empty]
           NetworkStatusIndicator.construct))
     ["offline"; "slow"; "good"].
Proof.
  exact (proj2 (X13_indicator_shows_the_current_status
                  [IndicatorEvents.Poll good_world_empty]) eq_refl).
Defined.

(** X14: an update with a status other than offline, slow and good, such
    as the 'online' the online listener passes, leaves the indicator
    hidden, whatever it showed before. *)
Theorem X14_unknown_status_hides_the_indicator
        (evs : list IndicatorEvents.Event) (status : string) :
  status <> "offline" ->
  status <> "slow" ->
  status <> "good" ->
  NetworkStatusIndicator.isVisible
    (NetworkStatusIndicator.updateStatus status
       (IndicatorEvents.run evs NetworkStatusIndicator.construct))
  = false.
Proof.
  intros H1 H2 H3.
  pose proof (consistent_run evs _ consistent_construct) as Hst.
  set (st := IndicatorEvents.run evs NetworkStatusIndicator.construct) in *.
  destruct (status_case_shown status) as [[Hs _] | [_ E]]; [tauto|].
  unfold NetworkStatusIndicator.updateStatus.
  destruct (String.eqb_spec (NetworkStatusIndicator.currentStatus st) status)
    as [Hsame|Hdiff].
  - unfold IndicatorEvents.consistent in Hst.
    destruct (NetworkStatusIndicator.indicator st) as [el|]; [|destruct Hst].
    destruct (NetworkStatusIndicator.isVisible st); [|reflexivity].
    destruct Hst as (_ & _ & E'). rewrite Hsame, E in E'. discriminate E'.
  - rewrite E.
    apply consistent_hide; [exact (consistent_present st Hst)|].
    simpl. intros Hhidden. now apply consistent_hidden_status.
Qed.

Lemma X14_unknown_status_witness :
  NetworkStatusIndicator.isVisible
    (NetworkStatusIndicator.updateStatus "online"
       (IndicatorEvents.run [IndicatorEvents.Offline]
          NetworkStatusIndicator.construct))
  = false.
Proof.
  apply (X14_unknown_status_hides_the_indicator [IndicatorEvents.Offline]
           "online"); discriminate.
Defined.

Section GoodOnce.
Import NetworkStatusIndicator IndicatorEvents.

Lemma poll_good_keeps_good (w : World) (st : Indicator) :
  onLine w = true ->
  isSlowConnection (handler w) = false ->
  currentStatus st = "good" ->
  poll w st = st.
Proof.
  intros Hon Hfast Hgood. unfold poll, getNetworkStatus. simpl.
  rewrite Hon, Hfast. simpl. rewrite <- Hgood. apply updateStatus_same.
Qed.

Lemma polls_good_keep_good (ws : list World) (st : Indicator) :
  Forall (fun w => onLine w = true /\ isSlowConnection (handler w) = false) ws ->
  currentStatus st = "good" ->
  run (map Poll ws) st = st.
Proof.
  intros Hws Hgood. induction Hws as [|w ws [Hon Hfast] _ IH]; simpl.
  - reflexivity.
  - now rewrite (poll_good_keeps_good w st Hon Hfast Hgood).
Qed.

End GoodOnce.

(** X15: when the indicator learns the status good, it shows the good
    message; the 3000ms timeout hides it, and the polls that follow do not
    show it again as long as the handler reports an online connection that
    is not slow. *)
Theorem X15_good_message_is_shown_once
        (evs : list IndicatorEvents.Event) (ws : list World) :
  NetworkStatusIndicator.currentStatus
    (IndicatorEvents.run evs NetworkStatusIndicator.construct) <> "good" ->
  Forall (fun w => onLine w = true /\ isSlowConnection (handler w) = false) ws ->
  NetworkStatusIndicator.isVisible
    (NetworkStatusIndicator.updateStatus "good"
       (IndicatorEvents.run evs NetworkStatusIndicator.construct)) = true /\
  NetworkStatusIndicator.isVisible
    (NetworkStatusIndicator.hide_timeout_fired
       (NetworkStatusIndicator.updateStatus "good"
          (IndicatorEvents.run evs NetworkStatusIndicator.construct))) = false /\
  IndicatorEvents.run (map IndicatorEvents.Poll ws)
    (NetworkStatusIndicator.hide_timeout_fired
       (NetworkStatusIndicator.updateStatus "good"
          (IndicatorEvents.run evs NetworkStatusIndicator.construct)))
  = NetworkStatusIndicator.hide_timeout_fired
      (NetworkStatusIndicator.updateStatus "good"
         (IndicatorEvents.run evs NetworkStatusIndicator.construct)).
Proof.
  intros Hnot Hws.
  pose proof (consistent_run evs _ consistent_construct) as Hst.
  set (st := IndicatorEvents.run evs NetworkStatusIndicator.construct) in *.
  pose proof (consistent_present st Hst) as Hel.
  assert (Hshown :
    NetworkStatusIndicator.isVisible
      (NetworkStatusIndicator.updateStatus "good" st) = true /\
    NetworkStatusIndicator.currentStatus
      (NetworkStatusIndicator.updateStatus "good" st) = "good" /\
    NetworkStatusIndicator.indicator
      (NetworkStatusIndicator.updateStatus "good" st) <> None).
  { unfold NetworkStatusIndicator.updateStatus.
    destruct (String.eqb_spec (NetworkStatusIndicator.currentStatus st) "good")
      as [Hsame|_]; [contradiction|].
    simpl. unfold NetworkStatusIndicator.show, NetworkStatusIndicator.log_call.
    simpl. destruct (NetworkStatusIndicator.indicator st); [|congruence].
    simpl. repeat split. discriminate. }
  destruct Hshown as (Hvis & Hcur & Hel').
  split; [exact Hvis|].
  assert (Hfired :
    NetworkStatusIndicator.isVisible
      (NetworkStatusIndicator.hide_timeout_fired
         (NetworkStatusIndicator.updateStatus "good" st)) = false /\
    NetworkStatusIndicator.currentStatus
      (NetworkStatusIndicator.hide_timeout_fired
         (NetworkStatusIndicator.updateStatus "good" st)) = "good").
  { unfold NetworkStatusIndicator.hide_timeout_fired. simpl.
    rewrite Hcur. simpl.
    unfold NetworkStatusIndicator.hide, NetworkStatusIndicator.log_call. simpl.
    destruct (NetworkStatusIndicator.indicator
                (NetworkStatusIndicator.updateStatus "good" st));
      [|congruence].
    rewrite Hvis. simpl. auto. }
  destruct Hfired as (Hhid & Hcur').
  split; [exact Hhid|].
  now apply polls_good_keep_good.
Qed.

Lemma X15_good_message_witness :
  NetworkStatusIndicator.isVisible
    (NetworkStatusIndicator.updateStatus "good"
       (IndicatorEvents.run [IndicatorEvents.Offline]
          NetworkStatusIndicator.construct)) = true /\
  NetworkStatusIndicator.isVisible
    (NetworkStatusIndicator.hide_timeout_fired
       (NetworkStatusIndicator.updateStatus "good"
          (IndicatorEvents.run [IndicatorEvents.Offline]
             NetworkStatusIndicator.construct))) = false /\
  IndicatorEvents.run (map IndicatorEvents.Poll [good_world_empty; good_world_stale])
    (NetworkStatusIndicator.hide_timeout_fired
       (NetworkStatusIndicator.updateStatus "good"
          (IndicatorEvents.run [IndicatorEvents.Offline]
             NetworkStatusIndicator.construct)))
  = NetworkStatusIndicator.hide_timeout_fired
      (NetworkStatusIndicator.updateStatus "good"
         (IndicatorEvents.run [IndicatorEvents.Offline]
            NetworkStatusIndicator.construct)).
Proof.
  apply (X15_good_message_is_shown_once [IndicatorEvents.Offline]
           [good_world_empty; good_world_stale]).
  - discriminate.
  - repeat constructor.
Defined.

(** X16: the verdict of a quality check made online reaches the indicator
    with its next poll.  After the first check (line 21, made before the
    override is installed) an indicator whose current status differs from
    the verdict shows the good message when the probe was answered ok in
    under 1000ms, and the slow message after any other probe.  A later
    check is a resolution of the override: in cache-first mode, with an ok
    copy of the manifest in the cache and cache operations that take less
    than 500ms, the platform's fetch is not called and the next poll shows
    the good message, whatever the transport would have done. *)
Theorem X16_probe_verdict_reaches_the_indicator
        (env : Env) (w : World) (evs : list IndicatorEvents.Event) :
  onLine w = true ->
  (fresh_ids w = true ->
   NetworkStatusIndicator.currentStatus
     (IndicatorEvents.run evs NetworkStatusIndicator.construct)
   <> (if probe_good (transport env (net_calls w)) then "good" else "slow") ->
   NetworkStatusIndicator.isVisible
     (IndicatorEvents.poll (snd (checkConnectionQuality env OriginalFetch w))
        (IndicatorEvents.run evs NetworkStatusIndicator.construct)) = true /\
   NetworkStatusIndicator.currentStatus
     (IndicatorEvents.poll (snd (checkConnectionQuality env OriginalFetch w))
        (IndicatorEvents.run evs NetworkStatusIndicator.construct))
   = (if probe_good (transport env (net_calls w)) then "good" else "slow") /\
   option_map NetworkStatusIndicator.textContent
     (NetworkStatusIndicator.indicator
        (IndicatorEvents.poll (snd (checkConnectionQuality env OriginalFetch w))
           (IndicatorEvents.run evs NetworkStatusIndicator.construct)))
   = Some (if probe_good (transport env (net_calls w))
           then "✅ Good Connection"
           else "🐌 Slow Connection - Using Cache")) /\
  (forall r,
      cache_first w = true ->
      cached w "./manifest.json" = Some r ->
      ok r = true ->
      2 * cache_latency env < 1000 ->
      NetworkStatusIndicator.currentStatus
        (IndicatorEvents.run evs NetworkStatusIndicator.construct) <> "good" ->
      net_calls (snd (checkConnectionQuality env SmartFetch w)) = net_calls w /\
      handler (snd (checkConnectionQuality env SmartFetch w))
      = mkHandler false false /\
      NetworkStatusIndicator.isVisible
        (IndicatorEvents.poll (snd (checkConnectionQuality env SmartFetch w))
           (IndicatorEvents.run evs NetworkStatusIndicator.construct)) = true /\
      NetworkStatusIndicator.currentStatus
        (IndicatorEvents.poll (snd (checkConnectionQuality env SmartFetch w))
           (IndicatorEvents.run evs NetworkStatusIndicator.construct))
      = "good" /\
      option_map NetworkStatusIndicator.textContent
        (NetworkStatusIndicator.indicator
           (IndicatorEvents.poll (snd (checkConnectionQuality env SmartFetch w))
              (IndicatorEvents.run evs NetworkStatusIndicator.construct)))
      = Some "✅ Good Connection").
Proof.
  intros Hon.
  pose proof (consistent_run evs _ consistent_construct) as Hst.
  set (st := IndicatorEvents.run evs NetworkStatusIndicator.construct) in *.
  pose proof (consistent_present st Hst) as Hel.
  split.
  - intros Hfresh Hnot.
    destruct (checkConnectionQuality_online env w Hon Hfresh)
      as (w' & E & Hh & Hon' & _).
    rewrite E. simpl.
    unfold IndicatorEvents.poll, getNetworkStatus. simpl. rewrite Hon', Hh.
    destruct (probe_good (transport env (net_calls w))); simpl;
      unfold NetworkStatusIndicator.updateStatus;
      (match goal with
       | |- context [String.eqb ?a ?b] =>
           destruct (String.eqb_spec a b) as [Hsame|_]; [contradiction|]
       end);
      simpl; unfold NetworkStatusIndicator.show, NetworkStatusIndicator.log_call;
      simpl; (destruct (NetworkStatusIndicator.indicator st); [|congruence]);
      simpl; auto.
  - intros r Hmode Hcopy Hok Hfast Hnot.
    destruct (checkConnectionQuality_served_from_cache env w r Hon Hmode Hcopy)
      as (w' & E & Hh & Hon' & Hnet & Hnow).
    rewrite E. simpl.
    assert (Hquick : (now w' - now w <? 1000) = true)
      by (apply N.ltb_lt; lia).
    rewrite Hok, Hquick in Hh. simpl in Hh.
    split; [exact Hnet|]. split; [exact Hh|].
    unfold IndicatorEvents.poll, getNetworkStatus. simpl. rewrite Hon', Hh.
    simpl. unfold NetworkStatusIndicator.updateStatus.
    (match goal with
     | |- context [String.eqb ?a ?b] =>
         destruct (String.eqb_spec a b) as [Hsame|_]; [contradiction|]
     end).
    simpl. unfold NetworkStatusIndicator.show, NetworkStatusIndicator.log_call.
    simpl. (destruct (NetworkStatusIndicator.indicator st); [|congruence]).
    simpl. auto.
Qed.

Lemma X16_probe_verdict_witness :
  (NetworkStatusIndicator.currentStatus
     (IndicatorEvents.poll
        (snd (checkConnectionQuality (answers_after 200 fresh_response)
                OriginalFetch slow_world_empty))
        (IndicatorEvents.run [] NetworkStatusIndicator.construct)) = "good" /\
   option_map NetworkStatusIndicator.textContent
     (NetworkStatusIndicator.indicator
        (IndicatorEvents.poll
           (snd (checkConnectionQuality (answers_after 200 fresh_response)
                   OriginalFetch slow_world_empty))
           (IndicatorEvents.run [] NetworkStatusIndicator.construct)))
   = Some "✅ Good Connection") /\
  net_calls (snd (checkConnectionQuality never_answers SmartFetch
                    slow_world_manifest))
  = net_calls slow_world_manifest /\
  option_map NetworkStatusIndicator.textContent
    (NetworkStatusIndicator.indicator
       (IndicatorEvents.poll
          (snd (checkConnectionQuality never_answers SmartFetch
                  slow_world_manifest))
          (IndicatorEvents.run [IndicatorEvents.Poll slow_world_manifest]
             NetworkStatusIndicator.construct)))
  = Some "✅ Good Connection".
Proof.
  split; [|split].
  - exact (proj2 (proj1 (X16_probe_verdict_reaches_the_indicator
                           (answers_after 200 fresh_response) slow_world_empty
                           [] eq_refl)
                    eq_refl ltac:(discriminate))).
  - exact (proj1 (proj2 (X16_probe_verdict_reaches_the_indicator
                           never_answers slow_world_manifest
                           [IndicatorEvents.Poll slow_world_manifest] eq_refl)
                    manifest_copy eq_refl eq_refl eq_refl eq_refl
                    ltac:(discriminate))).
  - exact (proj2 (proj2 (proj2 (proj2
             (proj2 (X16_probe_verdict_reaches_the_indicator
                       never_answers slow_world_manifest
                       [IndicatorEvents.Poll slow_world_manifest] eq_refl)
                manifest_copy eq_refl eq_refl eq_refl eq_refl
                ltac:(discriminate)))))).
Defined.

(* ===================================================================== *)
(** ** Displaying the cached forecast                                      *)
(* ===================================================================== *)

Section Display.
Import WeatherAdvice WeatherOffline.
Variable toLocaleString : N -> string.

Lemma getCachedWeatherData_run (s : App) :
  getCachedWeatherData s
  = (Done (if working (db s) then weather_cache (db s) !! 1 else None), s).
Proof.
  unfold getCachedWeatherData, wtry, wbind, db_get, wret.
  destruct (working (db s)); [|reflexivity].
  now destruct (weather_cache (db s) !! 1).
Qed.

(** Building a card reads the forecast only: in every state, and online
    as offline, it either yields a card or fails on a missing array, and
    it leaves the state alone. *)
Lemma day_card_pure (d : Daily) (i : nat) :
  (exists card, forall isOffline s,
       day_card d isOffline i s = (Done (card isOffline), s)) \/
  (exists name,
      complete d = false /\
      forall isOffline s,
        day_card d isOffline i s = (Failed (ReadsUndefined name), s)).
Proof.
  unfold day_card, element_of, wbind, wret, wthrow, complete.
  destruct (time d) as [ts|], (weathercode d) as [cs|],
    (temperature_2m_max d) as [xs|], (temperature_2m_min d) as [ns|];
    first [ left;
            exists (card_of (at_index ts i) (at_index cs i) (at_index xs i)
                            (at_index ns i));
            reflexivity
          | right; eexists; split; [reflexivity|]; intros; reflexivity ].
Qed.

Lemma day_card_complete (d : Daily) (isOffline : bool) (i : nat) (s : App)
      (ts : list string) (cs : list (Value N)) (xs ns : list (Value Q)) :
  time d = Some ts ->
  weathercode d = Some cs ->
  temperature_2m_max d = Some xs ->
  temperature_2m_min d = Some ns ->
  day_card d isOffline i s
  = (Done (card_of (nth_error ts i) (nth_error cs i) (nth_error xs i)
                   (nth_error ns i) isOffline), s).
Proof.
  intros Ht Hc Hx Hn. unfold day_card, element_of, wbind, wret.
  now rewrite Ht, Hc, Hx, Hn.
Qed.

(** The page after [cards] were appended to the container. *)
Lemma appendChild_run (n : Node) (s : App) :
  appendChild n s
  = (Done tt,
     mkApp (world s) (db s)
       (mkDom (lastUpdatedDiv (dom s))
              (option_map (fun c => c ++ [n]) (forecastContainer (dom s))))).
Proof.
  unfold appendChild, wmodify, set_dom.
  destruct s as [w database [t [c|]]]; reflexivity.
Qed.

(** The loop settles the same way in every state, online as offline; it
    appends cards that do not depend on the state, changes the children of
    the container only, and fails only on a missing array. *)
Lemma append_days_pure (d : Daily) (indices : list nat) :
  exists o,
    o <> Waiting /\
    (forall e, o = Failed e ->
               exists name, e = ReadsUndefined name /\ complete d = false) /\
    forall isOffline,
    exists cards,
    forall s,
      append_days d isOffline indices s
      = (o, mkApp (world s) (db s)
              (mkDom (lastUpdatedDiv (dom s))
                     (option_map (fun c => c ++ cards)
                                 (forecastContainer (dom s))))).
Proof.
  induction indices as [|i indices (o & Hw & Hf & Hrun)].
  - exists (Done tt). split; [discriminate|]. split; [discriminate|].
    intros isOffline. exists [].
    intros [w database [t [c|]]]; simpl; [|reflexivity].
    now rewrite app_nil_r.
  - destruct (day_card_pure d i) as [[card Hc]|(name & Hinc & Hc)].
    + exists o. split; [exact Hw|]. split; [exact Hf|].
      intros isOffline. destruct (Hrun isOffline) as [cards Hcards].
      exists (DayCard (card isOffline) :: cards).
      intros s. simpl. unfold wbind at 1. rewrite Hc.
      unfold wbind at 1. rewrite appendChild_run, Hcards. simpl.
      destruct (forecastContainer (dom s)) as [c|]; simpl; [|reflexivity].
      now rewrite <- app_assoc.
    + exists (Failed (ReadsUndefined name)).
      split; [discriminate|]. split.
      * intros e He. injection He as <-. now exists name.
      * intros isOffline. exists [].
        intros s. simpl. unfold wbind at 1. rewrite Hc.
        destruct s as [w database [t [c|]]]; simpl; [|reflexivity].
        now rewrite app_nil_r.
Qed.

Lemma append_days_complete (d : Daily) (isOffline : bool) (indices : list nat)
      (s : App) (t : option string) (children : list Node)
      (ts : list string) (cs : list (Value N)) (xs ns : list (Value Q)) :
  time d = Some ts ->
  weathercode d = Some cs ->
  temperature_2m_max d = Some xs ->
  temperature_2m_min d = Some ns ->
  dom s = mkDom t (Some children) ->
  append_days d isOffline indices s
  = (Done tt,
     mkApp (world s) (db s)
       (mkDom t
          (Some (children
                 ++ map (fun i =>
                           DayCard (card_of (nth_error ts i) (nth_error cs i)
                                            (nth_error xs i) (nth_error ns i)
                                            isOffline))
                      indices)))).
Proof.
  intros Ht Hc Hx Hn.
  revert s children. induction indices as [|i indices IH]; intros s children Hdom.
  - simpl. rewrite app_nil_r, <- Hdom. now destruct s.
  - simpl. unfold wbind at 1.
    rewrite (day_card_complete d isOffline i s ts cs xs ns Ht Hc Hx Hn).
    unfold wbind at 1. rewrite appendChild_run, Hdom. simpl.
    rewrite (IH _ (children
                   ++ [DayCard (card_of (nth_error ts i) (nth_error cs i)
                                        (nth_error xs i) (nth_error ns i)
                                        isOffline)]));
      [|reflexivity].
    simpl. now rewrite <- app_assoc.
Qed.

(** Up to its loop, [displayWeatherData] writes the label and empties the
    container, to which the offline notice is added. *)
Lemma displayWeatherData_forecast_run (s : App) (lastFetched : N) (d : Daily) :
  elements_present (dom s) = true ->
  cached_daily (db s) = Some (lastFetched, d) ->
  displayWeatherData toLocaleString s
  = (let+ days := length_of "time" (time d) in
     append_days d (negb (onLine (world s))) (seq 0 days))
      (mkApp (world s) (db s)
         (mkDom
            (Some (status_text toLocaleString lastFetched (now (world s))
                     (negb (onLine (world s)))))
            (Some (if negb (onLine (world s))
                   then [OfflineNotice lastFetched]
                   else [])))).
Proof.
  intros Hpage Hcached.
  unfold elements_present in Hpage. unfold cached_daily in Hcached.
  destruct (lastUpdatedDiv (dom s)) as [t0|] eqn:Ht; [|discriminate].
  destruct (forecastContainer (dom s)) as [c0|] eqn:Hc; [|discriminate].
  destruct (working (db s)) eqn:Hw; [|discriminate].
  destruct (weather_cache (db s) !! 1) as [entry|] eqn:Hrow; [|discriminate].
  destruct (forecastData entry) as [forecast|] eqn:Hf; [|discriminate].
  destruct (daily forecast) as [d'|] eqn:Hd; [|discriminate].
  injection Hcached as <- <-.
  unfold displayWeatherData, wbind at 1, wgets. rewrite Ht, Hc.
  unfold wbind at 1, write_container, wmodify.
  unfold wbind at 1. rewrite getCachedWeatherData_run.
  cbn [db set_dom]. rewrite Hw, Hrow, Hf, Hd.
  unfold wbind at 1, wgets. unfold wbind at 1.
  unfold wbind at 1, write_lastUpdated, wmodify.
  unfold wbind at 1.
  cbn [world db dom set_dom lastUpdatedDiv forecastContainer].
  destruct (onLine (world s)); cbn [negb].
  - unfold wbind at 1, wret. reflexivity.
  - unfold wbind at 1. rewrite appendChild_run. reflexivity.
Qed.

(** ... and when the table yields no forecast with daily data. *)
Lemma displayWeatherData_nothing (s : App) :
  elements_present (dom s) = true ->
  cached_daily (db s) = None ->
  displayWeatherData toLocaleString s
  = (Done tt,
     mkApp (world s) (db s)
       (mkDom (Some "No cached weather data available.") (Some [NoDataMessage]))).
Proof.
  intros Hpage Hnone.
  unfold elements_present in Hpage. unfold cached_daily in Hnone.
  destruct (lastUpdatedDiv (dom s)) as [t0|] eqn:Ht; [|discriminate].
  destruct (forecastContainer (dom s)) as [c0|] eqn:Hc; [|discriminate].
  unfold displayWeatherData, wbind at 1, wgets. rewrite Ht, Hc.
  unfold wbind at 1, write_container, wmodify.
  unfold wbind at 1. rewrite getCachedWeatherData_run.
  cbn [db set_dom].
  destruct (working (db s)); [|reflexivity].
  destruct (weather_cache (db s) !! 1) as [entry|]; [|reflexivity].
  destruct (forecastData entry) as [forecast|]; [|reflexivity].
  destruct (daily forecast); [discriminate|reflexivity].
Qed.

(** Without one of its two elements [displayWeatherData] does nothing. *)
Lemma displayWeatherData_no_elements (s : App) :
  elements_present (dom s) = false ->
  displayWeatherData toLocaleString s = (Done tt, s).
Proof.
  intros Hpage. unfold elements_present in Hpage.
  unfold displayWeatherData, wbind, wgets, wret.
  destruct (lastUpdatedDiv (dom s)), (forecastContainer (dom s));
    first [discriminate Hpage | reflexivity].
Qed.

(** How [displayWeatherData] settles is decided by the table and by the
    presence of the two elements.  It touches the page only, keeps the two
    elements, and when it rejects, it is with the TypeError of an array
    that the cached forecast lacks. *)
Lemma displayWeatherData_outcome (database : Database) :
  exists o,
    o <> Waiting /\
    (forall e, o = Failed e ->
               exists name lastFetched d,
                 e = ReadsUndefined name /\
                 cached_daily database = Some (lastFetched, d) /\
                 complete d = false) /\
    forall s,
      db s = database ->
      elements_present (dom s) = true ->
      exists page,
        displayWeatherData toLocaleString s
        = (o, mkApp (world s) database page) /\
        elements_present page = true.
Proof.
  destruct (cached_daily database) as [[lastFetched d]|] eqn:Hcached.
  - destruct (time d) as [ts|] eqn:Htime.
    + destruct (append_days_pure d (seq 0 (length ts)))
        as (o & Hw & Hf & Hrun).
      exists o. split; [exact Hw|]. split.
      * intros e He. destruct (Hf e He) as (name & -> & Hinc).
        now exists name, lastFetched, d.
      * intros s <- Hpage.
        rewrite (displayWeatherData_forecast_run s lastFetched d Hpage Hcached).
        unfold wbind at 1, length_of. rewrite Htime. unfold wret.
        destruct (Hrun (negb (onLine (world s)))) as [cards ->].
        eexists. split; reflexivity.
    + exists (Failed (ReadsUndefined "time")).
      split; [discriminate|]. split.
      * intros e He. injection He as <-.
        exists "time", lastFetched, d. repeat split; auto.
        unfold complete. now rewrite Htime.
      * intros s <- Hpage.
        rewrite (displayWeatherData_forecast_run s lastFetched d Hpage Hcached).
        unfold wbind at 1, length_of. rewrite Htime. unfold wthrow.
        eexists. split; reflexivity.
  - exists (Done tt). split; [discriminate|]. split; [discriminate|].
    intros s <- Hpage.
    rewrite (displayWeatherData_nothing s Hpage Hcached).
    eexists. split; reflexivity.
Qed.

(** Displaying a forecast writes the label that [status_text] gives,
    however the loop ends. *)
Lemma displayWeatherData_label (s : App) (lastFetched : N) (d : Daily) :
  elements_present (dom s) = true ->
  cached_daily (db s) = Some (lastFetched, d) ->
  exists o children,
    displayWeatherData toLocaleString s
    = (o, mkApp (world s) (db s)
            (mkDom
               (Some (status_text toLocaleString lastFetched (now (world s))
                        (negb (onLine (world s)))))
               children)).
Proof.
  intros Hpage Hcached.
  rewrite (displayWeatherData_forecast_run s lastFetched d Hpage Hcached).
  unfold wbind at 1, length_of.
  destruct (time d) as [ts|]; unfold wret, wthrow.
  - destruct (append_days_pure d (seq 0 (length ts))) as (o & _ & _ & Hrun).
    destruct (Hrun (negb (onLine (world s)))) as [cards ->].
    do 2 eexists. reflexivity.
  - do 2 eexists. reflexivity.
Qed.

(** Displaying a forecast that lacks the time array rejects. *)
Lemma displayWeatherData_missing_time (s : App) (lastFetched : N) (d : Daily) :
  elements_present (dom s) = true ->
  cached_daily (db s) = Some (lastFetched, d) ->
  time d = None ->
  exists page,
    displayWeatherData toLocaleString s
    = (Failed (ReadsUndefined "time"), mkApp (world s) (db s) page) /\
    elements_present page = true.
Proof.
  intros Hpage Hcached Htime.
  rewrite (displayWeatherData_forecast_run s lastFetched d Hpage Hcached).
  unfold wbind at 1, length_of. rewrite Htime. unfold wthrow.
  eexists. split; reflexivity.
Qed.

End Display.

(** X17: with both page elements present and a forecast with daily data
    in the table, displaying replaces the children of the container by the
    offline notice, when the device is offline, followed by one card per
    entry of the time array, in order, and nothing else, provided the
    forecast holds its four arrays; a day for which the weathercode array
    has no entry is described as 'Unknown code: undefined' and gets the
    recommendation for incomplete data.  When the forecast lacks the time
    array, or has days but lacks the weathercode array, displaying rejects
    with a TypeError after it has written the label and emptied the
    container: no card is shown. *)
Theorem X17_one_card_per_day
        (toLocaleString : N -> string) (s : WeatherOffline.App)
        (lastFetched : N) (d : WeatherOffline.Daily) :
  WeatherOffline.elements_present (WeatherOffline.dom s) = true ->
  WeatherOffline.cached_daily (WeatherOffline.db s) = Some (lastFetched, d) ->
  (forall ts cs xs ns,
      WeatherOffline.time d = Some ts ->
      WeatherOffline.weathercode d = Some cs ->
      WeatherOffline.temperature_2m_max d = Some xs ->
      WeatherOffline.temperature_2m_min d = Some ns ->
      WeatherOffline.displayWeatherData toLocaleString s
      = (WeatherOffline.Done tt,
         WeatherOffline.mkApp (WeatherOffline.world s) (WeatherOffline.db s)
           (WeatherOffline.mkDom
              (Some (WeatherOffline.status_text toLocaleString lastFetched
                       (now (WeatherOffline.world s))
                       (negb (onLine (WeatherOffline.world s)))))
              (Some ((if negb (onLine (WeatherOffline.world s))
                      then [WeatherOffline.OfflineNotice lastFetched]
                      else [])
                     ++ map (fun i =>
                               WeatherOffline.DayCard
                                 (WeatherOffline.card_of
                                    (nth_error ts i) (nth_error cs i)
                                    (nth_error xs i) (nth_error ns i)
                                    (negb (onLine (WeatherOffline.world s)))))
                          (seq 0 (length ts)))))) /\
      forall i isOffline,
        (length cs <= i)%nat ->
        WeatherOffline.card_text
          (WeatherOffline.card_of (nth_error ts i) (nth_error cs i)
             (nth_error xs i) (nth_error ns i) isOffline)
        = "Unknown code: undefined" /\
        WeatherOffline.card_recommendation
          (WeatherOffline.card_of (nth_error ts i) (nth_error cs i)
             (nth_error xs i) (nth_error ns i) isOffline)
        = WeatherAdvice.advice_incomplete) /\
  ((WeatherOffline.time d = None \/
    (exists t ts, WeatherOffline.time d = Some (t :: ts)) /\
    WeatherOffline.weathercode d = None) ->
   WeatherOffline.displayWeatherData toLocaleString s
   = (WeatherOffline.Failed
        (WeatherOffline.ReadsUndefined
           (match WeatherOffline.time d with
            | None => "time"
            | Some _ => "weathercode"
            end)),
      WeatherOffline.mkApp (WeatherOffline.world s) (WeatherOffline.db s)
        (WeatherOffline.mkDom
           (Some (WeatherOffline.status_text toLocaleString lastFetched
                    (now (WeatherOffline.world s))
                    (negb (onLine (WeatherOffline.world s)))))
           (Some (if negb (onLine (WeatherOffline.world s))
                  then [WeatherOffline.OfflineNotice lastFetched]
                  else []))))).
Proof.
  intros Hpage Hcached.
  rewrite (displayWeatherData_forecast_run toLocaleString s lastFetched d
             Hpage Hcached).
  split.
  - intros ts cs xs ns Ht Hc Hx Hn. split.
    + unfold WeatherOffline.wbind at 1, WeatherOffline.length_of.
      rewrite Ht. unfold WeatherOffline.wret.
      erewrite (append_days_complete d _ _ _ _ _ ts cs xs ns Ht Hc Hx Hn);
        reflexivity.
    + intros i isOffline Hi. apply nth_error_None in Hi.
      unfold WeatherOffline.card_of. rewrite Hi.
      destruct (nth_error xs i), (nth_error ns i); split; reflexivity.
  - intros [Ht | [(t & ts & Ht) Hc]].
    + rewrite Ht. reflexivity.
    + rewrite Ht. unfold WeatherOffline.wbind at 1, WeatherOffline.length_of.
      unfold WeatherOffline.wret. cbn [length seq WeatherOffline.append_days].
      unfold WeatherOffline.wbind at 1, WeatherOffline.day_card.
      unfold WeatherOffline.wbind at 1, WeatherOffline.element_of.
      rewrite Ht. unfold WeatherOffline.wret.
      unfold WeatherOffline.wbind at 1. rewrite Hc. reflexivity.
Qed.

(* ===================================================================== *)
(** ** Refreshing the forecast                                             *)
(* ===================================================================== *)

Section Refresh.
Import WeatherAdvice WeatherOffline.
Variable window_fetch : Resource -> Options -> M Response.
Variable json : Response -> Settled (option ForecastData).
Variable toLocaleString : N -> string.

Lemma write_lastUpdated_if_found_frame (t : string) (s : App) :
  exists page,
    write_lastUpdated_if_found t s = (Done tt, mkApp (world s) (db s) page) /\
    elements_present page = elements_present (dom s).
Proof.
  unfold write_lastUpdated_if_found, write_lastUpdated, wmodify,
    elements_present.
  destruct s as [w database [[t0|] c]]; simpl;
    eexists; split; reflexivity.
Qed.

(** The first statement of [fetchAndCacheWeatherData] touches the page
    only. *)
Lemma announce_frame (isManualRefresh : bool) (s : App) :
  exists page,
    (if negb isManualRefresh
     then write_lastUpdated_if_found "Fetching live weather data..."
     else wret tt) s
    = (Done tt, mkApp (world s) (db s) page) /\
    elements_present page = elements_present (dom s).
Proof.
  destruct isManualRefresh; simpl.
  - exists (dom s). split; [now destruct s|reflexivity].
  - apply write_lastUpdated_if_found_frame.
Qed.

(** [displayWeatherData] in a state whose table is [database]: it settles
    as the table decides when the two elements are there, and does nothing
    otherwise. *)
Lemma displayWeatherData_settles (s : App) :
  exists o page,
    displayWeatherData toLocaleString s = (o, mkApp (world s) (db s) page) /\
    elements_present page = elements_present (dom s) /\
    (o = Done tt \/
     exists name lastFetched d,
       o = Failed (ReadsUndefined name) /\
       cached_daily (db s) = Some (lastFetched, d) /\
       complete d = false /\
       elements_present (dom s) = true /\
       forall s2,
         db s2 = db s ->
         elements_present (dom s2) = true ->
         fst (displayWeatherData toLocaleString s2)
         = Failed (ReadsUndefined name)).
Proof.
  destruct (elements_present (dom s)) eqn:Hpage.
  - destruct (displayWeatherData_outcome toLocaleString (db s))
      as (o & Hw & Hf & Hrun).
    destruct (Hrun s eq_refl Hpage) as (page & E & Hp).
    exists o, page. split; [exact E|]. split; [exact Hp|].
    destruct o as [[]|e|]; [now left| |contradiction].
    right. destruct (Hf e eq_refl) as (name & lastFetched & d & -> & Hc & Hinc).
    exists name, lastFetched, d. repeat split; auto.
    intros s2 Hdb Hpage2. rewrite <- Hdb in Hrun.
    destruct (Hrun s2 eq_refl Hpage2) as (page2 & -> & _). reflexivity.
  - exists (Done tt), (dom s).
    rewrite (displayWeatherData_no_elements toLocaleString s Hpage).
    split; [now destruct s|]. split; [exact Hpage|now left].
Qed.

(** The [catch] block of [fetchAndCacheWeatherData]: it returns false, or
    rejects with the TypeError of displaying a cached forecast that lacks
    an array; the table stays as it is. *)
Lemma refresh_catch_run (s : App) :
  exists o page,
    (write_lastUpdated_if_found
       "Error fetching live weather. Displaying cached data if available." ;;+
     displayWeatherData toLocaleString ;;+
     wret false) s
    = (o, mkApp (world s) (db s) page) /\
    (o = Done false \/
     exists name lastFetched d,
       o = Failed (ReadsUndefined name) /\
       cached_daily (db s) = Some (lastFetched, d) /\
       complete d = false /\
       elements_present (dom s) = true /\
       forall s2,
         db s2 = db s ->
         elements_present (dom s2) = true ->
         fst (displayWeatherData toLocaleString s2)
         = Failed (ReadsUndefined name)).
Proof.
  unfold wbind.
  destruct (write_lastUpdated_if_found_frame
              "Error fetching live weather. Displaying cached data if available." s)
    as (p1 & -> & Hp1).
  destruct (displayWeatherData_settles (mkApp (world s) (db s) p1))
    as (o & p2 & -> & Hp2 & Ho).
  cbn [world db dom] in *.
  destruct Ho as [-> | (name & lastFetched & d & -> & Hc & Hinc & Hpage & Hagain)].
  - exists (Done false), p2. split; [reflexivity|now left].
  - exists (Failed (ReadsUndefined name)), p2. split; [reflexivity|].
    right. exists name, lastFetched, d. rewrite <- Hp1. auto.
Qed.

Lemma refresh_invalid_frame (s : App) :
  exists page,
    (write_lastUpdated_if_found
       "Error: Invalid weather data format from server." ;;+
     wret false) s
    = (Done false, mkApp (world s) (db s) page).
Proof.
  unfold wbind.
  destruct (write_lastUpdated_if_found_frame
              "Error: Invalid weather data format from server." s)
    as (p1 & -> & _).
  now exists p1.
Qed.

(** The [try] block from the write to the table on, followed by the
    [catch] block when it throws: with the table written, the refresh
    returns true, or rejects because the forecast just stored lacks an
    array. *)
Lemma refresh_after_put (s1 : App) :
  exists o page,
    wtry (displayWeatherData toLocaleString ;;+ wret true)
         (fun _ =>
            write_lastUpdated_if_found
              "Error fetching live weather. Displaying cached data if available." ;;+
            displayWeatherData toLocaleString ;;+
            wret false) s1
    = (o, mkApp (world s1) (db s1) page) /\
    (o = Done true \/
     exists name lastFetched d,
       o = Failed (ReadsUndefined name) /\
       cached_daily (db s1) = Some (lastFetched, d) /\
       complete d = false /\
       elements_present (dom s1) = true).
Proof.
  unfold wtry, wbind at 1.
  destruct (displayWeatherData_settles s1) as (o & p1 & -> & Hp1 & Ho).
  destruct Ho as [-> | (name & lastFetched & d & -> & Hc & Hinc & Hpage & Hagain)].
  - exists (Done true), p1. split; [reflexivity|now left].
  - unfold wbind at 1.
    destruct (write_lastUpdated_if_found_frame
                "Error fetching live weather. Displaying cached data if available."
                (mkApp (world s1) (db s1) p1)) as (p2 & -> & Hp2).
    cbn [world db dom] in *.
    unfold wbind at 1.
    pose proof (Hagain (mkApp (world s1) (db s1) p2) eq_refl) as Hfail.
    cbn [dom] in Hfail. rewrite Hp2, Hp1 in Hfail. specialize (Hfail Hpage).
    destruct (displayWeatherData_settles (mkApp (world s1) (db s1) p2))
      as (o3 & p3 & E3 & _ & _).
    rewrite E3 in Hfail |- *. cbn [fst world db] in *. subst o3.
    exists (Failed (ReadsUndefined name)), p3. split; [reflexivity|].
    right. now exists name, lastFetched, d.
Qed.

Lemma wtry_failed {A} (m : W A) (h : AppError -> W A) (s s1 : App) (e : AppError) :
  m s = (Failed e, s1) -> wtry m h s = h e s1.
Proof. intros E. unfold wtry. now rewrite E. Qed.

Lemma wtry_waiting {A} (m : W A) (h : AppError -> W A) (s s1 : App) :
  m s = (Waiting, s1) -> wtry m h s = (Waiting, s1).
Proof. intros E. unfold wtry. now rewrite E. Qed.

(** How a refresh ends: it returns true; or it returns false or stays
    pending, with the table as it was; or it rejects with the TypeError of
    displaying a forecast of the table that lacks an array. *)
Lemma refresh_outcome (isManualRefresh : bool) (s : App) :
  exists o s',
    fetchAndCacheWeatherData window_fetch json toLocaleString isManualRefresh s
    = (o, s') /\
    (o = Done true \/
     ((o = Done false \/ o = Waiting) /\ db s' = db s) \/
     exists name lastFetched d,
       o = Failed (ReadsUndefined name) /\
       cached_daily (db s') = Some (lastFetched, d) /\
       complete d = false).
Proof.
  unfold fetchAndCacheWeatherData. unfold wbind at 1.
  destruct (announce_frame isManualRefresh s) as (p0 & -> & _).
  match goal with
  | |- context [wtry ?m ?h ?st] =>
      set (try_block := m); set (catch_block := h); set (s0 := st)
  end.
  assert (Hcatch : forall e s1,
             db s1 = db s ->
             try_block s0 = (Failed e, s1) ->
             exists o s',
               wtry try_block catch_block s0 = (o, s') /\
               (o = Done true \/
                ((o = Done false \/ o = Waiting) /\ db s' = db s) \/
                exists name lastFetched d,
                  o = Failed (ReadsUndefined name) /\
                  cached_daily (db s') = Some (lastFetched, d) /\
                  complete d = false)).
  { intros e s1 Hdb Etry. rewrite (wtry_failed _ _ _ _ _ Etry).
    unfold catch_block.
    destruct (refresh_catch_run s1) as (o & page & E & Ho).
    exists o, (mkApp (world s1) (db s1) page). split; [exact E|].
    destruct Ho as [-> | (name & lastFetched & d & -> & Hc & Hinc & _)].
    - right; left. split; [now left|exact Hdb].
    - right; right. now exists name, lastFetched, d. }
  destruct (window_fetch (ResString WEATHER_API_URL) no_options (world s))
    as [[r|e|] w'] eqn:Efetch.
  - destruct (ok r) eqn:Hok.
    + destruct (json r) as [[forecast|]|e|] eqn:Ejson.
      * destruct (daily forecast) as [d|] eqn:Edaily.
        -- destruct (working (db s)) eqn:Hw.
           ++ set (s1 := mkApp w'
                           (mkDb true
                              (<[1 := mkEntry 1 NELSHOOGTE_LAT NELSHOOGTE_LON
                                        (Some forecast) (now w')]>
                                 (weather_cache (db s))))
                           p0).
              assert (E : wtry try_block catch_block s0
                          = wtry (displayWeatherData toLocaleString ;;+ wret true)
                                 catch_block s1).
              { unfold wtry, try_block, wbind at 1, lift, s0.
                cbn [world db dom]. rewrite Efetch, Hok. cbn [negb].
                unfold wbind at 1. rewrite Ejson, Edaily.
                unfold wbind at 1, wgets. cbn [world].
                unfold wbind at 1, db_put. cbn [db]. rewrite Hw.
                reflexivity. }
              rewrite E. unfold catch_block.
              destruct (refresh_after_put s1) as (o & page & E1 & Ho).
              exists o, (mkApp (world s1) (db s1) page). split; [exact E1|].
              destruct Ho as [Ho | (name & lastFetched & d0 & -> & Hc & Hinc & _)];
                [now left|].
              right; right. now exists name, lastFetched, d0.
           ++ apply (Hcatch DexieError (mkApp w' (db s) p0) eq_refl).
              unfold try_block, wbind at 1, lift, s0.
              cbn [world db dom]. rewrite Efetch, Hok. cbn [negb].
              unfold wbind at 1. rewrite Ejson, Edaily.
              unfold wbind at 1, wgets. cbn [world].
              unfold wbind at 1, db_put. cbn [db]. now rewrite Hw.
        -- destruct (refresh_invalid_frame (mkApp w' (db s) p0)) as (page & E).
           exists (Done false), (mkApp w' (db s) page). split.
           ++ unfold wtry, try_block, wbind at 1, lift, s0.
              cbn [world db dom]. rewrite Efetch, Hok. cbn [negb].
              unfold wbind at 1. rewrite Ejson, Edaily. now rewrite E.
           ++ right; left. split; [now left|reflexivity].
      * destruct (refresh_invalid_frame (mkApp w' (db s) p0)) as (page & E).
        exists (Done false), (mkApp w' (db s) page). split.
        -- unfold wtry, try_block, wbind at 1, lift, s0.
           cbn [world db dom]. rewrite Efetch, Hok. cbn [negb].
           unfold wbind at 1. rewrite Ejson. now rewrite E.
        -- right; left. split; [now left|reflexivity].
      * apply (Hcatch e (mkApp w' (db s) p0) eq_refl).
        unfold try_block, wbind at 1, lift, s0.
        cbn [world db dom]. rewrite Efetch, Hok. cbn [negb].
        unfold wbind at 1. now rewrite Ejson.
      * exists Waiting, (mkApp w' (db s) p0). split.
        -- apply wtry_waiting.
           unfold try_block, wbind at 1, lift, s0.
           cbn [world db dom]. rewrite Efetch, Hok. cbn [negb].
           unfold wbind at 1. now rewrite Ejson.
        -- right; left. split; [now right|reflexivity].
    + apply (Hcatch (HttpError (status r)) (mkApp w' (db s) p0) eq_refl).
      unfold try_block, wbind at 1, lift, s0.
      cbn [world db dom]. rewrite Efetch, Hok. reflexivity.
  - apply (Hcatch (FetchError e) (mkApp w' (db s) p0) eq_refl).
    unfold try_block, wbind at 1, lift, s0.
    cbn [world db dom]. now rewrite Efetch.
  - exists Waiting, (mkApp w' (db s) p0). split.
    + apply wtry_waiting.
      unfold try_block, wbind at 1, lift, s0.
      cbn [world db dom]. now rewrite Efetch.
    + right; left. split; [now right|reflexivity].
Qed.

(** A refresh whose request is answered ok with daily data, on a working
    database: the forecast is stored, then displayed inside the [try]
    block. *)
Lemma refresh_reaches_put (isManualRefresh : bool) (s : App) (r : Response)
      (w' : World) (forecast : ForecastData) (d : Daily) :
  window_fetch (ResString WEATHER_API_URL) no_options (world s) = (Returned r, w') ->
  ok r = true ->
  json r = Done (Some forecast) ->
  daily forecast = Some d ->
  working (db s) = true ->
  exists page,
    elements_present page = elements_present (dom s) /\
    fetchAndCacheWeatherData window_fetch json toLocaleString isManualRefresh s
    = wtry (displayWeatherData toLocaleString ;;+ wret true)
           (fun _ =>
              write_lastUpdated_if_found
                "Error fetching live weather. Displaying cached data if available." ;;+
              displayWeatherData toLocaleString ;;+
              wret false)
           (mkApp w'
              (mkDb true
                 (<[1 := mkEntry 1 NELSHOOGTE_LAT NELSHOOGTE_LON (Some forecast)
                           (now w')]>
                    (weather_cache (db s))))
              page).
Proof.
  intros Efetch Hok Ejson Edaily Hw.
  unfold fetchAndCacheWeatherData. unfold wbind at 1.
  destruct (announce_frame isManualRefresh s) as (p0 & -> & Hp0).
  exists p0. split; [exact Hp0|].
  unfold wtry, wbind at 1, lift.
  cbn [world db dom]. rewrite Efetch, Hok. cbn [negb].
  unfold wbind at 1. rewrite Ejson, Edaily.
  unfold wbind at 1, wgets. cbn [world].
  unfold wbind at 1, db_put. cbn [db]. rewrite Hw.
  reflexivity.
Qed.

Lemma cached_daily_stored (database : Database) (forecast : ForecastData)
      (d : Daily) (t : N) :
  daily forecast = Some d ->
  cached_daily
    (mkDb true
       (<[1 := mkEntry 1 NELSHOOGTE_LAT NELSHOOGTE_LON (Some forecast) t]>
          (weather_cache database)))
  = Some (t, d).
Proof.
  intros Hd. unfold cached_daily. cbn [working weather_cache].
  rewrite lookup_insert_eq. cbn [forecastData lastFetchedTimestamp].
  now rewrite Hd.
Qed.

End Refresh.

(** X18: when the request of a refresh is answered ok, the body parses to
    a forecast whose daily data holds its four arrays and the database
    works, the refresh returns true and the table holds, under key 1 (the
    id of the row), that forecast stamped with the time it was stored: it
    replaces the row that was there, the other rows stay, and reading the
    cache right after yields this row. *)
Theorem X18_refresh_stores_the_forecast
        (window_fetch : Resource -> Options -> M Response)
        (json : Response -> WeatherOffline.Settled (option WeatherOffline.ForecastData))
        (toLocaleString : N -> string) (isManualRefresh : bool)
        (s : WeatherOffline.App) (r : Response) (w' : World)
        (forecast : WeatherOffline.ForecastData) (d : WeatherOffline.Daily) :
  window_fetch (ResString WeatherOffline.WEATHER_API_URL) no_options
    (WeatherOffline.world s) = (Returned r, w') ->
  ok r = true ->
  json r = WeatherOffline.Done (Some forecast) ->
  WeatherOffline.daily forecast = Some d ->
  WeatherOffline.complete d = true ->
  WeatherOffline.working (WeatherOffline.db s) = true ->
  fst (WeatherOffline.fetchAndCacheWeatherData window_fetch json toLocaleString
         isManualRefresh s) = WeatherOffline.Done true /\
  WeatherOffline.weather_cache
    (WeatherOffline.db
       (snd (WeatherOffline.fetchAndCacheWeatherData window_fetch json
               toLocaleString isManualRefresh s)))
  = <[1 := WeatherOffline.mkEntry 1 WeatherOffline.NELSHOOGTE_LAT
             WeatherOffline.NELSHOOGTE_LON (Some forecast) (now w')]>
      (WeatherOffline.weather_cache (WeatherOffline.db s)) /\
  fst (WeatherOffline.getCachedWeatherData
         (snd (WeatherOffline.fetchAndCacheWeatherData window_fetch json
                 toLocaleString isManualRefresh s)))
  = WeatherOffline.Done
      (Some (WeatherOffline.mkEntry 1 WeatherOffline.NELSHOOGTE_LAT
               WeatherOffline.NELSHOOGTE_LON (Some forecast) (now w'))).
Proof.
  intros Hfetch Hok Hjson Hdaily Hcomplete Hw.
  destruct (refresh_reaches_put window_fetch json toLocaleString isManualRefresh
              s r w' forecast d Hfetch Hok Hjson Hdaily Hw) as (p0 & _ & ->).
  match goal with
  | |- context [WeatherOffline.wtry _ _ ?s1] =>
      destruct (refresh_after_put toLocaleString s1) as (o & page & -> & Ho)
  end.
  cbn [fst snd WeatherOffline.db WeatherOffline.weather_cache].
  destruct Ho as [-> | (name & lastFetched & d0 & _ & Hc & Hinc & _)].
  - split; [reflexivity|]. split; [reflexivity|].
    rewrite getCachedWeatherData_run. simpl. now rewrite lookup_insert_eq.
  - exfalso. cbn [WeatherOffline.db] in Hc.
    rewrite (cached_daily_stored _ forecast d _ Hdaily) in Hc.
    injection Hc as _ <-. congruence.
Qed.

(** X19: a refresh that returns false or stays pending (the request
    failed or was answered with a status that is not ok, the body did not
    parse or has no daily data, the database rejected the write, or
    something never settled) leaves the table exactly as it was.  A
    refresh rejects in one way only, with the TypeError of displaying a
    forecast of the table that lacks one of its arrays; in particular,
    when the body parses to daily data without the time array, the
    forecast is stored and the refresh then rejects, the display throwing
    in the [try] block and again in the [catch] block. *)
Theorem X19_failed_refresh_keeps_the_forecast
        (window_fetch : Resource -> Options -> M Response)
        (json : Response -> WeatherOffline.Settled (option WeatherOffline.ForecastData))
        (toLocaleString : N -> string) (isManualRefresh : bool)
        (s : WeatherOffline.App) :
  (fst (WeatherOffline.fetchAndCacheWeatherData window_fetch json
          toLocaleString isManualRefresh s) = WeatherOffline.Done false \/
   fst (WeatherOffline.fetchAndCacheWeatherData window_fetch json
          toLocaleString isManualRefresh s) = WeatherOffline.Waiting ->
   WeatherOffline.db
     (snd (WeatherOffline.fetchAndCacheWeatherData window_fetch json
             toLocaleString isManualRefresh s))
   = WeatherOffline.db s) /\
  (forall e,
      fst (WeatherOffline.fetchAndCacheWeatherData window_fetch json
             toLocaleString isManualRefresh s) = WeatherOffline.Failed e ->
      exists name lastFetched d,
        e = WeatherOffline.ReadsUndefined name /\
        WeatherOffline.cached_daily
          (WeatherOffline.db
             (snd (WeatherOffline.fetchAndCacheWeatherData window_fetch json
                     toLocaleString isManualRefresh s)))
        = Some (lastFetched, d) /\
        WeatherOffline.complete d = false) /\
  (forall r w' forecast d,
      window_fetch (ResString WeatherOffline.WEATHER_API_URL) no_options
        (WeatherOffline.world s) = (Returned r, w') ->
      ok r = true ->
      json r = WeatherOffline.Done (Some forecast) ->
      WeatherOffline.daily forecast = Some d ->
      WeatherOffline.time d = None ->
      WeatherOffline.working (WeatherOffline.db s) = true ->
      WeatherOffline.elements_present (WeatherOffline.dom s) = true ->
      fst (WeatherOffline.fetchAndCacheWeatherData window_fetch json
             toLocaleString isManualRefresh s)
      = WeatherOffline.Failed (WeatherOffline.ReadsUndefined "time") /\
      WeatherOffline.weather_cache
        (WeatherOffline.db
           (snd (WeatherOffline.fetchAndCacheWeatherData window_fetch json
                   toLocaleString isManualRefresh s))) !! 1
      = Some (WeatherOffline.mkEntry 1 WeatherOffline.NELSHOOGTE_LAT
                WeatherOffline.NELSHOOGTE_LON (Some forecast) (now w'))).
Proof.
  split; [|split].
  - destruct (refresh_outcome window_fetch json toLocaleString isManualRefresh s)
      as (o & s' & -> & Ho).
    cbn [fst snd]. intros Hfalse.
    destruct Ho as [-> | [[_ Hdb] | (name & lastFetched & d & -> & _)]].
    + destruct Hfalse as [H | H]; discriminate H.
    + exact Hdb.
    + destruct Hfalse as [H | H]; discriminate H.
  - destruct (refresh_outcome window_fetch json toLocaleString isManualRefresh s)
      as (o & s' & -> & Ho).
    cbn [fst snd]. intros e He.
    destruct Ho as [-> | [[[-> | ->] _] | (name & lastFetched & d & -> & Hc & Hinc)]];
      try discriminate He.
    injection He as <-. now exists name, lastFetched, d.
  - intros r w' forecast d Hfetch Hok Hjson Hdaily Htime Hw Hpage.
    destruct (refresh_reaches_put window_fetch json toLocaleString
                isManualRefresh s r w' forecast d Hfetch Hok Hjson Hdaily Hw)
      as (p0 & Hp0 & ->).
    rewrite Hpage in Hp0.
    match goal with
    | |- context [WeatherOffline.wtry ?m ?h ?st] =>
        set (s1 := st);
        assert (H : exists page,
                   WeatherOffline.wtry m h s1
                   = (WeatherOffline.Failed (WeatherOffline.ReadsUndefined "time"),
                      WeatherOffline.mkApp (WeatherOffline.world s1)
                        (WeatherOffline.db s1) page))
    end.
    { assert (Hc1 : WeatherOffline.cached_daily (WeatherOffline.db s1)
                    = Some (now w', d))
        by (apply cached_daily_stored, Hdaily).
      destruct (displayWeatherData_missing_time toLocaleString s1 (now w') d
                  Hp0 Hc1 Htime) as (p1 & E1 & Hp1).
      unfold WeatherOffline.wtry, WeatherOffline.wbind at 1. rewrite E1.
      unfold WeatherOffline.wbind at 1.
      destruct (write_lastUpdated_if_found_frame
                  "Error fetching live weather. Displaying cached data if available."
                  (WeatherOffline.mkApp (WeatherOffline.world s1)
                     (WeatherOffline.db s1) p1)) as (p2 & -> & Hp2).
      cbn [WeatherOffline.dom] in Hp2. rewrite Hp1 in Hp2.
      unfold WeatherOffline.wbind at 1.
      match goal with
      | |- context [WeatherOffline.displayWeatherData toLocaleString ?st] =>
          destruct (displayWeatherData_missing_time toLocaleString st (now w') d
                      Hp2 Hc1 Htime) as (p3 & -> & _)
      end.
      exists p3. reflexivity. }
    destruct H as (page & ->).
    cbn [fst snd WeatherOffline.db]. split; [reflexivity|].
    subst s1. cbn [WeatherOffline.db WeatherOffline.weather_cache].
    now rewrite lookup_insert_eq.
Qed.

(** X20: the label of a displayed forecast.  Offline it always says
    offline, whatever the age of the data.  Online it says recent as long
    as the data is less than 7 hours old (25 200 000 ms), and from 7 hours
    on it gives the age in whole hours, which is then at least 7. *)
Theorem X20_recent_means_under_seven_hours
        (toLocaleString : N -> string) (lastFetched now : N) :
  WeatherOffline.status_text toLocaleString lastFetched now true
  = ("Last updated: " ++ toLocaleString lastFetched
     ++ WeatherOffline.offline_suffix)%string /\
  (now < lastFetched + 25200000 ->
   WeatherOffline.status_text toLocaleString lastFetched now false
   = ("Last updated: " ++ toLocaleString lastFetched
      ++ WeatherOffline.recent_suffix)%string) /\
  (lastFetched + 25200000 <= now ->
   WeatherOffline.status_text toLocaleString lastFetched now false
   = ("Last updated: " ++ toLocaleString lastFetched
      ++ WeatherOffline.stale_suffix (Z.of_N ((now - lastFetched) / 3600000)))%string /\
   7 <= (now - lastFetched) / 3600000).
Proof.
  unfold WeatherOffline.status_text.
  split; [reflexivity|]. split.
  - intros Hrecent.
    assert (H : ((Z.of_N now - Z.of_N lastFetched) / (1000 * 60 * 60) >? 6)%Z
                = false).
    { rewrite Z.gtb_ltb. apply Z.ltb_ge.
      assert ((Z.of_N now - Z.of_N lastFetched) / (1000 * 60 * 60) < 7)%Z;
        [|lia].
      apply Z.div_lt_upper_bound; lia. }
    now rewrite H.
  - intros Hstale.
    assert (Hz : (Z.of_N now - Z.of_N lastFetched)%Z = Z.of_N (now - lastFetched))
      by lia.
    assert (Hq : ((Z.of_N now - Z.of_N lastFetched) / (1000 * 60 * 60))%Z
                 = Z.of_N ((now - lastFetched) / 3600000)).
    { rewrite Hz. now rewrite N2Z.inj_div. }
    assert (H7 : 7 <= (now - lastFetched) / 3600000).
    { apply N.div_le_lower_bound; lia. }
    rewrite Hq.
    assert (H : (Z.of_N ((now - lastFetched) / 3600000) >? 6)%Z = true).
    { rewrite Z.gtb_ltb. apply Z.ltb_lt. lia. }
    rewrite H. auto.
Qed.

Section Bypass.
Variable env : Env.

Lemma smartFetch_weather_request :
  smartFetch env (ResString WeatherOffline.WEATHER_API_URL) no_options
  = originalFetch env (ResString WeatherOffline.WEATHER_API_URL) no_options.
Proof. reflexivity. Qed.

End Bypass.

(** X21: the weather request is not subject to the poor-network handler.
    With the fetch override installed a refresh behaves exactly as with the
    platform's own fetch, in every mode and whatever the caches hold; so a
    transport that never answers leaves the refresh pending for ever, with
    no deadline and no cached answer. *)
Theorem X21_weather_refresh_bypasses_the_handler
        (env : Env)
        (json : Response -> WeatherOffline.Settled (option WeatherOffline.ForecastData))
        (toLocaleString : N -> string) (isManualRefresh : bool)
        (s : WeatherOffline.App) :
  WeatherOffline.fetchAndCacheWeatherData (smartFetch env) json toLocaleString
    isManualRefresh s
  = WeatherOffline.fetchAndCacheWeatherData (originalFetch env) json
      toLocaleString isManualRefresh s /\
  (transport env (net_calls (WeatherOffline.world s)) = NetHangs ->
   fst (WeatherOffline.fetchAndCacheWeatherData (smartFetch env) json
          toLocaleString isManualRefresh s) = WeatherOffline.Waiting /\
   timers (WeatherOffline.world
             (snd (WeatherOffline.fetchAndCacheWeatherData (smartFetch env)
                     json toLocaleString isManualRefresh s)))
   = timers (WeatherOffline.world s)).
Proof.
  assert (E : WeatherOffline.fetchAndCacheWeatherData (smartFetch env) json
                toLocaleString isManualRefresh s
              = WeatherOffline.fetchAndCacheWeatherData (originalFetch env) json
                  toLocaleString isManualRefresh s).
  { unfold WeatherOffline.fetchAndCacheWeatherData.
    now rewrite smartFetch_weather_request. }
  split; [exact E|]. intros Hhangs. rewrite E.
  assert (H : exists s',
             WeatherOffline.fetchAndCacheWeatherData (originalFetch env) json
               toLocaleString isManualRefresh s = (WeatherOffline.Waiting, s') /\
             timers (WeatherOffline.world s') = timers (WeatherOffline.world s)).
  { unfold WeatherOffline.fetchAndCacheWeatherData.
    unfold WeatherOffline.wbind at 1.
    destruct (announce_frame isManualRefresh s) as (p0 & -> & _).
    unfold WeatherOffline.wtry, WeatherOffline.wbind at 1, WeatherOffline.lift.
    simpl.
    unfold originalFetch, platform_fetch, bind, fetch_issue, fetch_await.
    simpl. rewrite Hhangs. simpl. eexists. split; reflexivity. }
  destruct H as (s' & -> & Ht). auto.
Qed.

Section Init.
Import WeatherAdvice WeatherOffline.
Variable window_fetch : Resource -> Options -> M Response.
Variable json : Response -> Settled (option ForecastData).
Variable toLocaleString : N -> string.

Lemma string_app_assoc (a b c : string) :
  ((a ++ b) ++ c = a ++ (b ++ c))%string.
Proof.
  induction a as [|x a IH]; [reflexivity|].
  change (String x ((a ++ b) ++ c) = String x (a ++ (b ++ c)))%string.
  now rewrite IH.
Qed.

Lemma status_text_offline_mentions_offline (lastFetched now : N) :
  includes "Offline" (status_text toLocaleString lastFetched now true) = true.
Proof.
  apply includes_spec. unfold status_text, occurs_in.
  exists ("Last updated: " ++ toLocaleString lastFetched ++ " (📱 ")%string.
  exists " - showing cached data)".
  rewrite !string_app_assoc. reflexivity.
Qed.

End Init.

(** X22: when the weather feature starts offline with both page elements
    present, no request is made.  If the table yields a forecast with
    daily data, the page is exactly what displaying it leaves, its label
    saying offline once.  If it yields none, the container shows the
    no-data message and the label reads 'No cached weather data
    available.' followed by the note that cached data is being shown. *)
Theorem X22_starting_offline
        (window_fetch : Resource -> Options -> M Response)
        (json : Response -> WeatherOffline.Settled (option WeatherOffline.ForecastData))
        (toLocaleString : N -> string) (s : WeatherOffline.App)
        (t0 : string) (c0 : list WeatherOffline.Node) :
  WeatherOffline.dom s = WeatherOffline.mkDom (Some t0) (Some c0) ->
  onLine (WeatherOffline.world s) = false ->
  (forall entry forecast d,
      WeatherOffline.working (WeatherOffline.db s) = true ->
      WeatherOffline.weather_cache (WeatherOffline.db s) !! 1 = Some entry ->
      WeatherOffline.forecastData entry = Some forecast ->
      WeatherOffline.daily forecast = Some d ->
      WeatherOffline.initWeatherFeature window_fetch json toLocaleString s
      = WeatherOffline.displayWeatherData toLocaleString s) /\
  ((WeatherOffline.working (WeatherOffline.db s) = false \/
    WeatherOffline.weather_cache (WeatherOffline.db s) !! 1 = None) ->
   WeatherOffline.initWeatherFeature window_fetch json toLocaleString s
   = (WeatherOffline.Done tt,
      WeatherOffline.mkApp (WeatherOffline.world s) (WeatherOffline.db s)
        (WeatherOffline.mkDom
           (Some "No cached weather data available. (📱 Offline - showing cached data)")
           (Some [WeatherOffline.NoDataMessage])))).
Proof.
  intros Hdom Hoff.
  assert (Hpage : WeatherOffline.elements_present (WeatherOffline.dom s) = true)
    by now rewrite Hdom.
  split.
  - intros entry forecast d Hw Hrow Hf Hd.
    assert (Hcached : WeatherOffline.cached_daily (WeatherOffline.db s)
                      = Some (WeatherOffline.lastFetchedTimestamp entry, d)).
    { unfold WeatherOffline.cached_daily. now rewrite Hw, Hrow, Hf, Hd. }
    destruct (displayWeatherData_label toLocaleString s _ d Hpage Hcached)
      as (o & children & E).
    unfold WeatherOffline.initWeatherFeature, WeatherOffline.wbind at 1.
    rewrite E. destruct o as [[]|e|]; [|reflexivity|reflexivity].
    unfold WeatherOffline.wbind, WeatherOffline.wgets.
    cbn [WeatherOffline.world WeatherOffline.dom WeatherOffline.lastUpdatedDiv fst snd].
    rewrite Hoff.
    cbn [negb WeatherOffline.world WeatherOffline.dom WeatherOffline.lastUpdatedDiv].
    rewrite status_text_offline_mentions_offline. reflexivity.
  - intros Hnone.
    unfold WeatherOffline.initWeatherFeature, WeatherOffline.wbind at 1.
    rewrite (displayWeatherData_nothing toLocaleString s Hpage).
    + unfold WeatherOffline.wbind, WeatherOffline.wgets. simpl.
      rewrite Hoff. reflexivity.
    + unfold WeatherOffline.cached_daily.
      destruct Hnone as [-> | Hrow]; [reflexivity|].
      rewrite Hrow. now destruct (WeatherOffline.working _).
Qed.

Lemma X17_one_card_per_day_witness :
  (fst (WeatherOffline.displayWeatherData WeatherExamples.short_date
          WeatherExamples.offline_with_forecast)
   = WeatherOffline.Done tt /\
   option_map (@length WeatherOffline.Node)
     (WeatherOffline.forecastContainer
        (WeatherOffline.dom
           (snd (WeatherOffline.displayWeatherData WeatherExamples.short_date
                   WeatherExamples.offline_with_forecast))))
   = Some 3%nat) /\
  WeatherOffline.card_text
    (WeatherOffline.card_of (Some "2024-06-02") None
       (Some (WeatherAdvice.Num (30 # 1)%Q)) None true)
  = "Unknown code: undefined" /\
  fst (WeatherOffline.displayWeatherData WeatherExamples.short_date
         WeatherExamples.offline_with_broken_forecast)
  = WeatherOffline.Failed (WeatherOffline.ReadsUndefined "time").
Proof.
  pose proof (proj1 (X17_one_card_per_day WeatherExamples.short_date
                       WeatherExamples.offline_with_forecast 0
                       WeatherExamples.two_days eq_refl eq_refl)
                ["2024-06-01"; "2024-06-02"]
                [WeatherAdvice.Num 1]
                [WeatherAdvice.Num (20 # 1)%Q; WeatherAdvice.Num (30 # 1)%Q]
                [WeatherAdvice.Num (10 # 1)%Q]
                eq_refl eq_refl eq_refl eq_refl) as [Hshown Hshort].
  pose proof (proj2 (X17_one_card_per_day WeatherExamples.short_date
                       WeatherExamples.offline_with_broken_forecast 0
                       WeatherExamples.no_arrays eq_refl eq_refl)
                (or_introl eq_refl)) as Hbroken.
  split; [|split].
  - rewrite Hshown. split; reflexivity.
  - exact (proj1 (Hshort 1%nat true (le_n 1))).
  - rewrite Hbroken. reflexivity.
Defined.

Lemma X18_refresh_stores_witness :
  fst (WeatherOffline.fetchAndCacheWeatherData
         (originalFetch (answers_after 200 fresh_response))
         WeatherExamples.parses_to_forecast WeatherExamples.short_date false
         WeatherExamples.online_without_forecast)
  = WeatherOffline.Done true /\
  fst (WeatherOffline.getCachedWeatherData
         (snd (WeatherOffline.fetchAndCacheWeatherData
                 (originalFetch (answers_after 200 fresh_response))
                 WeatherExamples.parses_to_forecast WeatherExamples.short_date
                 false WeatherExamples.online_without_forecast)))
  = WeatherOffline.Done
      (Some (WeatherOffline.mkEntry 1 WeatherOffline.NELSHOOGTE_LAT
               WeatherOffline.NELSHOOGTE_LON
               (Some WeatherExamples.two_day_forecast) 200)).
Proof.
  pose proof (X18_refresh_stores_the_forecast
                (originalFetch (answers_after 200 fresh_response))
                WeatherExamples.parses_to_forecast WeatherExamples.short_date
                false WeatherExamples.online_without_forecast fresh_response
                (snd (originalFetch (answers_after 200 fresh_response)
                        (ResString WeatherOffline.WEATHER_API_URL) no_options
                        good_world_empty))
                WeatherExamples.two_day_forecast WeatherExamples.two_days
                eq_refl eq_refl eq_refl eq_refl eq_refl eq_refl)
    as (Htrue & _ & Hread).
  split; [exact Htrue|exact Hread].
Defined.

Lemma X19_failed_refresh_witness :
  WeatherOffline.db
    (snd (WeatherOffline.fetchAndCacheWeatherData (originalFetch dns_failure)
            WeatherExamples.parses_to_forecast WeatherExamples.short_date false
            WeatherExamples.online_with_forecast))
  = WeatherOffline.db WeatherExamples.online_with_forecast /\
  fst (WeatherOffline.fetchAndCacheWeatherData
         (originalFetch (answers_after 200 fresh_response))
         WeatherExamples.parses_without_arrays WeatherExamples.short_date false
         WeatherExamples.online_without_forecast)
  = WeatherOffline.Failed (WeatherOffline.ReadsUndefined "time") /\
  WeatherOffline.weather_cache
    (WeatherOffline.db
       (snd (WeatherOffline.fetchAndCacheWeatherData
               (originalFetch (answers_after 200 fresh_response))
               WeatherExamples.parses_without_arrays WeatherExamples.short_date
               false WeatherExamples.online_without_forecast))) !! 1
  = Some (WeatherOffline.mkEntry 1 WeatherOffline.NELSHOOGTE_LAT
            WeatherOffline.NELSHOOGTE_LON
            (Some WeatherExamples.forecast_without_arrays) 200) /\
  exists name lastFetched d,
    WeatherOffline.ReadsUndefined "time" = WeatherOffline.ReadsUndefined name /\
    WeatherOffline.cached_daily
      (WeatherOffline.db
         (snd (WeatherOffline.fetchAndCacheWeatherData
                 (originalFetch (answers_after 200 fresh_response))
                 WeatherExamples.parses_without_arrays
                 WeatherExamples.short_date false
                 WeatherExamples.online_without_forecast)))
    = Some (lastFetched, d) /\
    WeatherOffline.complete d = false.
Proof.
  split; [|apply and_assoc; split].
  - apply (proj1 (X19_failed_refresh_keeps_the_forecast
                    (originalFetch dns_failure)
                    WeatherExamples.parses_to_forecast
                    WeatherExamples.short_date false
                    WeatherExamples.online_with_forecast)).
    left. reflexivity.
  - exact (proj2 (proj2 (X19_failed_refresh_keeps_the_forecast
                           (originalFetch (answers_after 200 fresh_response))
                           WeatherExamples.parses_without_arrays
                           WeatherExamples.short_date false
                           WeatherExamples.online_without_forecast))
             fresh_response
             (snd (originalFetch (answers_after 200 fresh_response)
                     (ResString WeatherOffline.WEATHER_API_URL) no_options
                     good_world_empty))
             WeatherExamples.forecast_without_arrays WeatherExamples.no_arrays
             eq_refl eq_refl eq_refl eq_refl eq_refl eq_refl eq_refl).
  - exact (proj1 (proj2 (X19_failed_refresh_keeps_the_forecast
                           (originalFetch (answers_after 200 fresh_response))
                           WeatherExamples.parses_without_arrays
                           WeatherExamples.short_date false
                           WeatherExamples.online_without_forecast))
             (WeatherOffline.ReadsUndefined "time") eq_refl).
Defined.

Lemma X20_recent_witness :
  WeatherOffline.status_text WeatherExamples.short_date 0 25199999 false
  = ("Last updated: " ++ WeatherExamples.short_date 0
     ++ WeatherOffline.recent_suffix)%string /\
  7 <= (25200000 - 0) / 3600000.
Proof.
  split.
  - apply (proj1 (proj2 (X20_recent_means_under_seven_hours
                           WeatherExamples.short_date 0 25199999))).
    reflexivity.
  - apply (proj2 (proj2 (X20_recent_means_under_seven_hours
                           WeatherExamples.short_date 0 25200000))).
    vm_compute. discriminate.
Defined.

Lemma X21_weather_refresh_witness :
  fst (WeatherOffline.fetchAndCacheWeatherData (smartFetch never_answers)
         WeatherExamples.parses_to_forecast WeatherExamples.short_date false
         WeatherExamples.offline_with_forecast)
  = WeatherOffline.Waiting.
Proof.
  apply (proj2 (X21_weather_refresh_bypasses_the_handler never_answers
                  WeatherExamples.parses_to_forecast WeatherExamples.short_date
                  false WeatherExamples.offline_with_forecast)).
  reflexivity.
Defined.

Lemma X22_starting_offline_witness :
  WeatherOffline.initWeatherFeature (originalFetch never_answers)
    WeatherExamples.parses_to_forecast WeatherExamples.short_date
    WeatherExamples.offline_with_forecast
  = WeatherOffline.displayWeatherData WeatherExamples.short_date
      WeatherExamples.offline_with_forecast /\
  WeatherOffline.initWeatherFeature (originalFetch never_answers)
    WeatherExamples.parses_to_forecast WeatherExamples.short_date
    WeatherExamples.offline_without_forecast
  = (WeatherOffline.Done tt,
     WeatherOffline.mkApp offline_world_stale
       (WeatherOffline.mkDb true ∅)
       (WeatherOffline.mkDom
          (Some "No cached weather data available. (📱 Offline - showing cached data)")
          (Some [WeatherOffline.NoDataMessage]))).
Proof.
  split.
  - exact (proj1 (X22_starting_offline (originalFetch never_answers)
                    WeatherExamples.parses_to_forecast WeatherExamples.short_date
                    WeatherExamples.offline_with_forecast EmptyString []
                    eq_refl eq_refl)
             WeatherExamples.stored_entry WeatherExamples.two_day_forecast
             WeatherExamples.two_days eq_refl eq_refl eq_refl eq_refl).
  - exact (proj2 (X22_starting_offline (originalFetch never_answers)
                    WeatherExamples.parses_to_forecast WeatherExamples.short_date
                    WeatherExamples.offline_without_forecast EmptyString []
                    eq_refl eq_refl)
             (or_intror eq_refl)).
Defined.
